(** * MaxLinear MXL371x MoCA 2.5 PHY driver: shallow embedding and properties

    Source: [src/kernel/phy-mxl371x/src/mxl371x.c].

    The driver talks to the coprocessor through the 16-bit MDIO register
    primitives [phy_write] / [phy_read] of phylib.  These are modelled as an
    interface ([MdioBus]); everything the driver does on top of them is
    translated function by function, with C integers as [Z] and their
    conversions written out. *)

From Stdlib Require Import ZArith List Lia Bool String DecimalString.
From stdpp Require Import base gmap list.
Import ListNotations.
Local Open Scope Z_scope.

(** ** C integer conversions *)

Definition u8  (x : Z) : Z := x mod 2^8.
Definition u16 (x : Z) : Z := x mod 2^16.
Definition u32 (x : Z) : Z := x mod 2^32.
Definition u64 (x : Z) : Z := x mod 2^64.
(** Conversion to a signed 32-bit [int] (two's complement wrap-around). *)
Definition s32 (x : Z) : Z := (x + 2^31) mod 2^32 - 2^31.
Definition s64 (x : Z) : Z := (x + 2^63) mod 2^64 - 2^63.

(** [BIT(n)] *)
Definition BIT (n : Z) : Z := Z.shiftl 1 n.

(** ** Constants of the driver *)

Definition EIO : Z := 5.
Definition EINVAL : Z := 22.
Definition ETIMEDOUT : Z := 110.
Definition EOPNOTSUPP : Z := 95.
Definition EADDRNOTAVAIL : Z := 99.
Definition ENOMEM : Z := 12.

Definition MXL371X_OUI : Z := 0x0243E000.
Definition MXL371X_OUI_MASK : Z := 0xFFFFF000.

Definition MXL371X_FW_LEUCADIA : string := "ccpu.elf.leucadia".
Definition MXL371X_FW_CARDIFF : string := "ccpu.elf.cardiff".
Definition MXL371X_MAX_FW_SIZE : Z := 4 * 1024 * 1024.

Definition MXL_MOCA_SOC_TYPE_LEUCADIA : Z := 0.
Definition MXL_MOCA_SOC_TYPE_CARDIFF : Z := 1.

Definition MXL371X_PAGE_SELECT : Z := 0x1f.

Definition SRE_PRODUCT_FAMILY_ID : Z := 0x08200000.
Definition SRE_DEVICE_ID : Z := 0x08200004.
Definition SRE_REVISION_ID_OFFSET : Z := 16.
Definition SRE_CPU_SRC_SEL_CSR : Z := 0x08200010.

Definition MXL371X_TSENS_CTRL_REG : Z := 0x08200200.
Definition MXL371X_TSENS_DATA_REG : Z := 0x08200204.
Definition MXL371X_RADIO_TSENS_REG1 : Z := 0x0c14c110.
Definition MXL371X_RADIO_TSENS_REG2 : Z := 0x0c14c100.
Definition MXL371X_RADIO_TSENS_REG3 : Z := 0x0c14c108.

Definition MXL371X_TSENS_COEFF_A : Z := 1338680.
Definition MXL371X_TSENS_COEFF_B : Z := 277770.
Definition MXL371X_TSENS_RSSI_MAX : Z := 524288.

Definition MXL371X_FW_BASE_ADDR : Z := 0x00000000.
Definition MXL371X_FW_STATUS_REG : Z := 0x08200100.
Definition MXL371X_FW_LOADED : Z := BIT 0.
Definition MXL371X_FW_RUNNING : Z := BIT 1.
Definition MXL371X_FW_ERROR : Z := BIT 2.

Definition MXL371X_MDIO_ADDR_REG : Z := 0x0e.
Definition MXL371X_MDIO_DATA_REG : Z := 0x0f.

Definition MXL371X_SGMII_CTRL : Z := 0xa000.
Definition MXL371X_SGMII_MODE_MASK : Z := 0xff.
Definition MXL371X_SGMII_MODE_SGMII : Z := 0x02.
Definition MXL371X_SGMII_MODE_HSGMII : Z := 0x03.
Definition MXL371X_SGMII_MODE_1000BASE_X : Z := 0x04.

Definition MOCA_STATS_BASE : Z := 0x0c000000.
Definition MOCA_STATS_TX_TOTAL_PKTS : Z := MOCA_STATS_BASE + 0x00.
Definition MOCA_STATS_TX_TOTAL_BYTES : Z := MOCA_STATS_BASE + 0x08.
Definition MOCA_STATS_TX_DROPPED_PKTS : Z := MOCA_STATS_BASE + 0x10.
Definition MOCA_STATS_TX_BCAST_PKTS : Z := MOCA_STATS_BASE + 0x18.
Definition MOCA_STATS_TX_MCAST_PKTS : Z := MOCA_STATS_BASE + 0x20.
Definition MOCA_STATS_RX_TOTAL_PKTS : Z := MOCA_STATS_BASE + 0x28.
Definition MOCA_STATS_RX_TOTAL_BYTES : Z := MOCA_STATS_BASE + 0x30.
Definition MOCA_STATS_RX_DROPPED_PKTS : Z := MOCA_STATS_BASE + 0x38.
Definition MOCA_STATS_RX_ERROR_PKTS : Z := MOCA_STATS_BASE + 0x40.

Definition MOCA_LINK_STATUS_REG : Z := 0x0c100000.
Definition MOCA_LINK_STATUS_MASK : Z := 0x07.
Definition MOCA_LINK_PHY_RATE_REG : Z := 0x0c100004.
Definition MOCA_LINK_MOCA_VER_REG : Z := 0x0c100008.
Definition MOCA_LINK_NODE_ID_REG : Z := 0x0c10000c.
Definition MOCA_LINK_NC_NODE_ID_REG : Z := 0x0c100010.
Definition MOCA_LINK_LOF_REG : Z := 0x0c100014.
Definition MOCA_LINK_NETWORK_STATE_REG : Z := 0x0c100018.
Definition MOCA_LINK_ACTIVE_NODES_REG : Z := 0x0c10001c.

Definition MOCA_LINK_DOWN : Z := 0.
Definition MOCA_LINK_UP : Z := 1.
Definition MOCA_LINK_SCANNING : Z := 2.

Definition MOCA_NET_STATE_IDLE : Z := 0.
Definition MOCA_NET_STATE_SEARCHING : Z := 1.
Definition MOCA_NET_STATE_NETWORK_MODE : Z := 2.

Definition MOCA_MAC_ADDR_HI : Z := 0x0c100020.
Definition MOCA_MAC_ADDR_LO : Z := 0x0c100024.

Definition MOCA_SECURITY_STATUS_REG : Z := 0x0c100200.
Definition MOCA_SECURITY_ENABLED : Z := BIT 0.

(** ** The host side: bus primitives, delays, kernel log *)

(** What the driver asks of the outside world, in program order.  Bus
    transfers record the register, the value written and the [int] the
    primitive returned (negative: errno). *)
Inductive event : Type :=
| EvWrite (reg val ret : Z)              (* phy_write(phydev, reg, val) *)
| EvRead (reg ret : Z)                   (* phy_read(phydev, reg) *)
| EvReadPaged (page reg ret : Z)         (* phy_read_paged *)
| EvModifyPaged (page reg mask set ret : Z) (* phy_modify_paged *)
| EvGenphy (what : string) (ret : Z)     (* genphy_read_status/suspend/resume *)
| EvRequestFw (name : option string) (ret : Z) (* request_firmware *)
| EvReleaseFw                            (* release_firmware *)
| EvSysfsCreate (ret : Z)                (* sysfs_create_group *)
| EvSysfsRemove                          (* sysfs_remove_group *)
| EvHwmonRegister (ret : Z)              (* devm_hwmon_device_register_with_info *)
| EvMsleep (ms : Z)                      (* msleep(ms) *)
| EvUsleep (lo hi : Z)                   (* usleep_range(lo, hi) *)
| EvRandom (n : Z)                       (* get_random_bytes(buf, n) *)
| EvSchedulePoll                         (* schedule_delayed_work(&stats_poll, HZ) *)
| EvCancelPollSync.                      (* cancel_delayed_work_sync(&stats_poll) *)

Inductive log_level : Type := KDbg | KInfo | KWarn | KErr.

(** The 16-bit register bus behind [phy_write]/[phy_read].  [B] is the state
    of whatever sits on the other side (hardware, or a test double).
    [mdio_elapse] lets that state evolve while the driver sleeps (argument
    in microseconds). *)
Class MdioBus (B : Type) : Type := {
  mdio_write : B -> Z -> Z -> Z * B;
  mdio_read : B -> Z -> Z * B;
  mdio_elapse : B -> Z -> B
}.

(** The generic link fields of [struct phy_device] that the driver or
    genphy touch. *)
Record link_state : Type := LinkState {
  ls_link : Z;
  ls_speed : Z;
  ls_duplex : Z;
  ls_autoneg : Z
}.

(** phylib services the driver calls and that run on the same bus; their
    code is the kernel's, so they are kept abstract. *)
Class PhyLib (B : Type) : Type := {
  lib_read_paged : B -> Z -> Z -> Z * B;               (* page, regnum *)
  lib_modify_paged : B -> Z -> Z -> Z -> Z -> Z * B;   (* page, regnum, mask, set *)
  lib_genphy_read_status : B -> link_state -> Z * link_state * B;
  lib_genphy_suspend : B -> Z * B;
  lib_genphy_resume : B -> Z * B
}.

(** Host services that do not touch the bus. *)
Record host : Type := Host {
  request_firmware : option string -> Z * list Z;  (* return code, image bytes *)
  get_random_bytes : Z -> list Z;
  mac_pton : string -> option (list Z);
  devm_kzalloc_ok : bool;
  sysfs_create_group : Z;
  hwmon_device_register : Z                        (* 0, or the negative PTR_ERR *)
}.

Record world (B : Type) : Type := World {
  bus : B;
  trace : list event;
  klog : list (log_level * string)
}.
Arguments World {B} _ _ _.
Arguments bus {B} _.
Arguments trace {B} _.
Arguments klog {B} _.

(** ** Driver data (mxl371x.c:124-156) *)

Record mxl371x_stats : Type := Stats {
  tx_packets : Z;
  tx_bytes : Z;
  tx_dropped : Z;
  tx_broadcast : Z;
  tx_multicast : Z;
  rx_packets : Z;
  rx_bytes : Z;
  rx_dropped : Z;
  rx_errors : Z
}.

Record mxl371x_priv : Type := Priv {
  fw_loaded : bool;
  soc_chip_type : Z;
  device_id : Z;
  revision_id : Z;
  link_status : Z;
  moca_version : Z;
  phy_rate : Z;
  node_id : Z;
  nc_node_id : Z;
  lof : Z;
  network_state : Z;
  active_nodes : Z;
  security_enabled : bool;
  fw_name : option string;
  soc_version : string;
  stats : mxl371x_stats;
  hwmon_dev : bool
}.

Inductive phy_interface_t : Type :=
| PHY_INTERFACE_MODE_SGMII
| PHY_INTERFACE_MODE_2500BASEX
| PHY_INTERFACE_MODE_1000BASEX
| PHY_INTERFACE_MODE_OTHER.

(** The part of [struct phy_device] the driver uses.  [attached_dev] holds
    the [dev_addr] of the attached net device, [of_node] the outcome of
    [of_get_mac_address] on the device-tree node, when there is one. *)
Record phy_device : Type := PhyDevice {
  priv : mxl371x_priv;
  phy_id : Z;
  interface : phy_interface_t;
  lstate : link_state;
  attached_dev : option (list Z);
  of_node : option (Z * list Z)
}.

Definition set_priv (p : mxl371x_priv) (d : phy_device) : phy_device :=
  PhyDevice p (phy_id d) (interface d) (lstate d) (attached_dev d) (of_node d).
Definition set_lstate (l : link_state) (d : phy_device) : phy_device :=
  PhyDevice (priv d) (phy_id d) (interface d) l (attached_dev d) (of_node d).

Definition set_link (v : Z) (l : link_state) : link_state :=
  LinkState v (ls_speed l) (ls_duplex l) (ls_autoneg l).
Definition set_speed (v : Z) (l : link_state) : link_state :=
  LinkState (ls_link l) v (ls_duplex l) (ls_autoneg l).
Definition set_duplex (v : Z) (l : link_state) : link_state :=
  LinkState (ls_link l) (ls_speed l) v (ls_autoneg l).
Definition set_autoneg (v : Z) (l : link_state) : link_state :=
  LinkState (ls_link l) (ls_speed l) (ls_duplex l) v.

Definition set_fw_loaded (v : bool) (p : mxl371x_priv) : mxl371x_priv :=
  Priv v (soc_chip_type p) (device_id p) (revision_id p) (link_status p)
    (moca_version p) (phy_rate p) (node_id p) (nc_node_id p) (lof p)
    (network_state p) (active_nodes p) (security_enabled p) (fw_name p)
    (soc_version p) (stats p) (hwmon_dev p).
Definition set_soc_chip_type (v : Z) (p : mxl371x_priv) : mxl371x_priv :=
  Priv (fw_loaded p) v (device_id p) (revision_id p) (link_status p)
    (moca_version p) (phy_rate p) (node_id p) (nc_node_id p) (lof p)
    (network_state p) (active_nodes p) (security_enabled p) (fw_name p)
    (soc_version p) (stats p) (hwmon_dev p).
Definition set_device_id (v : Z) (p : mxl371x_priv) : mxl371x_priv :=
  Priv (fw_loaded p) (soc_chip_type p) v (revision_id p) (link_status p)
    (moca_version p) (phy_rate p) (node_id p) (nc_node_id p) (lof p)
    (network_state p) (active_nodes p) (security_enabled p) (fw_name p)
    (soc_version p) (stats p) (hwmon_dev p).
Definition set_revision_id (v : Z) (p : mxl371x_priv) : mxl371x_priv :=
  Priv (fw_loaded p) (soc_chip_type p) (device_id p) v (link_status p)
    (moca_version p) (phy_rate p) (node_id p) (nc_node_id p) (lof p)
    (network_state p) (active_nodes p) (security_enabled p) (fw_name p)
    (soc_version p) (stats p) (hwmon_dev p).
Definition set_link_status (v : Z) (p : mxl371x_priv) : mxl371x_priv :=
  Priv (fw_loaded p) (soc_chip_type p) (device_id p) (revision_id p) v
    (moca_version p) (phy_rate p) (node_id p) (nc_node_id p) (lof p)
    (network_state p) (active_nodes p) (security_enabled p) (fw_name p)
    (soc_version p) (stats p) (hwmon_dev p).
Definition set_moca_version (v : Z) (p : mxl371x_priv) : mxl371x_priv :=
  Priv (fw_loaded p) (soc_chip_type p) (device_id p) (revision_id p)
    (link_status p) v (phy_rate p) (node_id p) (nc_node_id p) (lof p)
    (network_state p) (active_nodes p) (security_enabled p) (fw_name p)
    (soc_version p) (stats p) (hwmon_dev p).
Definition set_phy_rate (v : Z) (p : mxl371x_priv) : mxl371x_priv :=
  Priv (fw_loaded p) (soc_chip_type p) (device_id p) (revision_id p)
    (link_status p) (moca_version p) v (node_id p) (nc_node_id p) (lof p)
    (network_state p) (active_nodes p) (security_enabled p) (fw_name p)
    (soc_version p) (stats p) (hwmon_dev p).
Definition set_node_id (v : Z) (p : mxl371x_priv) : mxl371x_priv :=
  Priv (fw_loaded p) (soc_chip_type p) (device_id p) (revision_id p)
    (link_status p) (moca_version p) (phy_rate p) v (nc_node_id p) (lof p)
    (network_state p) (active_nodes p) (security_enabled p) (fw_name p)
    (soc_version p) (stats p) (hwmon_dev p).
Definition set_nc_node_id (v : Z) (p : mxl371x_priv) : mxl371x_priv :=
  Priv (fw_loaded p) (soc_chip_type p) (device_id p) (revision_id p)
    (link_status p) (moca_version p) (phy_rate p) (node_id p) v (lof p)
    (network_state p) (active_nodes p) (security_enabled p) (fw_name p)
    (soc_version p) (stats p) (hwmon_dev p).
Definition set_lof (v : Z) (p : mxl371x_priv) : mxl371x_priv :=
  Priv (fw_loaded p) (soc_chip_type p) (device_id p) (revision_id p)
    (link_status p) (moca_version p) (phy_rate p) (node_id p) (nc_node_id p) v
    (network_state p) (active_nodes p) (security_enabled p) (fw_name p)
    (soc_version p) (stats p) (hwmon_dev p).
Definition set_network_state (v : Z) (p : mxl371x_priv) : mxl371x_priv :=
  Priv (fw_loaded p) (soc_chip_type p) (device_id p) (revision_id p)
    (link_status p) (moca_version p) (phy_rate p) (node_id p) (nc_node_id p)
    (lof p) v (active_nodes p) (security_enabled p) (fw_name p)
    (soc_version p) (stats p) (hwmon_dev p).
Definition set_active_nodes (v : Z) (p : mxl371x_priv) : mxl371x_priv :=
  Priv (fw_loaded p) (soc_chip_type p) (device_id p) (revision_id p)
    (link_status p) (moca_version p) (phy_rate p) (node_id p) (nc_node_id p)
    (lof p) (network_state p) v (security_enabled p) (fw_name p)
    (soc_version p) (stats p) (hwmon_dev p).
Definition set_security_enabled (v : bool) (p : mxl371x_priv) : mxl371x_priv :=
  Priv (fw_loaded p) (soc_chip_type p) (device_id p) (revision_id p)
    (link_status p) (moca_version p) (phy_rate p) (node_id p) (nc_node_id p)
    (lof p) (network_state p) (active_nodes p) v (fw_name p)
    (soc_version p) (stats p) (hwmon_dev p).
Definition set_fw_name (v : option string) (p : mxl371x_priv) : mxl371x_priv :=
  Priv (fw_loaded p) (soc_chip_type p) (device_id p) (revision_id p)
    (link_status p) (moca_version p) (phy_rate p) (node_id p) (nc_node_id p)
    (lof p) (network_state p) (active_nodes p) (security_enabled p) v
    (soc_version p) (stats p) (hwmon_dev p).
Definition set_soc_version (v : string) (p : mxl371x_priv) : mxl371x_priv :=
  Priv (fw_loaded p) (soc_chip_type p) (device_id p) (revision_id p)
    (link_status p) (moca_version p) (phy_rate p) (node_id p) (nc_node_id p)
    (lof p) (network_state p) (active_nodes p) (security_enabled p) (fw_name p)
    v (stats p) (hwmon_dev p).
Definition set_stats (v : mxl371x_stats) (p : mxl371x_priv) : mxl371x_priv :=
  Priv (fw_loaded p) (soc_chip_type p) (device_id p) (revision_id p)
    (link_status p) (moca_version p) (phy_rate p) (node_id p) (nc_node_id p)
    (lof p) (network_state p) (active_nodes p) (security_enabled p) (fw_name p)
    (soc_version p) v (hwmon_dev p).
Definition set_hwmon_dev (v : bool) (p : mxl371x_priv) : mxl371x_priv :=
  Priv (fw_loaded p) (soc_chip_type p) (device_id p) (revision_id p)
    (link_status p) (moca_version p) (phy_rate p) (node_id p) (nc_node_id p)
    (lof p) (network_state p) (active_nodes p) (security_enabled p) (fw_name p)
    (soc_version p) (stats p) v.

Definition set_tx_packets (v : Z) (s : mxl371x_stats) : mxl371x_stats :=
  Stats v (tx_bytes s) (tx_dropped s) (tx_broadcast s) (tx_multicast s)
    (rx_packets s) (rx_bytes s) (rx_dropped s) (rx_errors s).
Definition set_tx_bytes (v : Z) (s : mxl371x_stats) : mxl371x_stats :=
  Stats (tx_packets s) v (tx_dropped s) (tx_broadcast s) (tx_multicast s)
    (rx_packets s) (rx_bytes s) (rx_dropped s) (rx_errors s).
Definition set_tx_dropped (v : Z) (s : mxl371x_stats) : mxl371x_stats :=
  Stats (tx_packets s) (tx_bytes s) v (tx_broadcast s) (tx_multicast s)
    (rx_packets s) (rx_bytes s) (rx_dropped s) (rx_errors s).
Definition set_tx_broadcast (v : Z) (s : mxl371x_stats) : mxl371x_stats :=
  Stats (tx_packets s) (tx_bytes s) (tx_dropped s) v (tx_multicast s)
    (rx_packets s) (rx_bytes s) (rx_dropped s) (rx_errors s).
Definition set_tx_multicast (v : Z) (s : mxl371x_stats) : mxl371x_stats :=
  Stats (tx_packets s) (tx_bytes s) (tx_dropped s) (tx_broadcast s) v
    (rx_packets s) (rx_bytes s) (rx_dropped s) (rx_errors s).
Definition set_rx_packets (v : Z) (s : mxl371x_stats) : mxl371x_stats :=
  Stats (tx_packets s) (tx_bytes s) (tx_dropped s) (tx_broadcast s)
    (tx_multicast s) v (rx_bytes s) (rx_dropped s) (rx_errors s).
Definition set_rx_bytes (v : Z) (s : mxl371x_stats) : mxl371x_stats :=
  Stats (tx_packets s) (tx_bytes s) (tx_dropped s) (tx_broadcast s)
    (tx_multicast s) (rx_packets s) v (rx_dropped s) (rx_errors s).
Definition set_rx_dropped (v : Z) (s : mxl371x_stats) : mxl371x_stats :=
  Stats (tx_packets s) (tx_bytes s) (tx_dropped s) (tx_broadcast s)
    (tx_multicast s) (rx_packets s) (rx_bytes s) v (rx_errors s).
Definition set_rx_errors (v : Z) (s : mxl371x_stats) : mxl371x_stats :=
  Stats (tx_packets s) (tx_bytes s) (tx_dropped s) (tx_broadcast s)
    (tx_multicast s) (rx_packets s) (rx_bytes s) (rx_dropped s) v.

(** ** Formatting helpers for the sysfs texts (sprintf's %u, %x, %pM) *)

Definition hex_digit (d : Z) : string :=
  match String.get (Z.to_nat d) "0123456789abcdef" with
  | Some c => String c EmptyString
  | None => EmptyString
  end.

Fixpoint hex_digits (n : nat) (x : Z) : string :=
  match n with
  | O => EmptyString
  | S n' => String.append (hex_digits n' (x / 16)) (hex_digit (x mod 16))
  end.

Definition dec_digits (x : Z) : string :=
  NilZero.string_of_uint (N.to_uint (Z.to_N x)).

Definition mac_byte (mac : list Z) (i : nat) : Z := nth i mac 0.

(** [%pM] *)
Definition format_mac (mac : list Z) : string :=
  String.concat ":" (map (fun i => hex_digits 2 (mac_byte mac i)) (seq 0 6)).

Definition is_zero_ether_addr (mac : list Z) : bool :=
  forallb (fun i => mac_byte mac i =? 0) (seq 0 6).

(** The two GUID registers built from six bytes (mxl371x.c:577-578). *)
Definition guid_hi (mac : list Z) : Z :=
  u32 (Z.lor (Z.lor (Z.lor (Z.shiftl (mac_byte mac 0) 24)
                           (Z.shiftl (mac_byte mac 1) 16))
                    (Z.shiftl (mac_byte mac 2) 8))
             (mac_byte mac 3)).
Definition guid_lo (mac : list Z) : Z :=
  u32 (Z.lor (Z.shiftl (mac_byte mac 4) 24) (Z.shiftl (mac_byte mac 5) 16)).

(** The six bytes read back from the two registers (mxl371x.c:533-538). *)
Definition guid_bytes (mac_hi mac_lo : Z) : list Z :=
  [ Z.land (Z.shiftr mac_hi 24) 0xff; Z.land (Z.shiftr mac_hi 16) 0xff;
    Z.land (Z.shiftr mac_hi 8) 0xff;  Z.land (Z.shiftr mac_hi 0) 0xff;
    Z.land (Z.shiftr mac_lo 24) 0xff; Z.land (Z.shiftr mac_lo 16) 0xff ].

Definition SPEED_1000 : Z := 1000.
Definition SPEED_2500 : Z := 2500.
Definition DUPLEX_FULL : Z := 1.
Definition AUTONEG_DISABLE : Z := 0.

Inductive hwmon_sensor_types : Type := hwmon_chip | hwmon_temp | hwmon_in.
Inductive hwmon_temp_attributes : Type :=
  hwmon_temp_enable | hwmon_temp_input | hwmon_temp_type.

(** ** Temperature calibration (mxl371x.c:285-297), a pure function *)

Definition mxl371x_calc_temp (t0 t1 : Z) : Z :=
  if t1 <? t0 then - EINVAL else
  let delta := s64 (u32 (t1 - t0)) in
  let temp := s64 (Z.quot (s64 (delta * MXL371X_TSENS_COEFF_A))
                          MXL371X_TSENS_RSSI_MAX) in
  let temp := s64 (temp - MXL371X_TSENS_COEFF_B) in
  s32 temp.

(** One 32-bit word of the firmware image, packed as the inner loop of
    mxl371x.c:891-892 does: byte [i + j] goes to bits [8j .. 8j+7], bytes
    past the end of the image are not read. *)
Fixpoint fw_word_loop (n : nat) (data : list Z) (i j word : Z) : Z :=
  match n with
  | O => word
  | S n' =>
      if (j <? 4) && (i + j <? Z.of_nat (length data)) then
        fw_word_loop n' data i (j + 1)
          (Z.lor word (u32 (Z.shiftl (nth (Z.to_nat (i + j)) data 0) (j * 8))))
      else word
  end.

Definition fw_word (data : list Z) (i : Z) : Z := fw_word_loop 4 data i 0 0.

Definition newline : string := String (Ascii.ascii_of_nat 10) EmptyString.

(** [sprintf(buf, fmt "\n", ...)]: the return value is the number of
    characters written. *)
Definition sprintf_line (s : string) : Z * string :=
  let out := String.append s newline in
  (Z.of_nat (String.length out), out).

Definition priv_zero : mxl371x_priv :=
  Priv false 0 0 0 0 0 0 0 0 0 0 0 false None EmptyString
       (Stats 0 0 0 0 0 0 0 0 0) false.

(** ** Reading traces *)

(** A bus transfer that returned an error. *)
Definition ev_failed (e : event) : bool :=
  match e with
  | EvWrite _ _ ret => ret <? 0
  | EvRead _ ret => ret <? 0
  | _ => false
  end.

(** The request an event stands for: the event with the return code of a
    bus transfer forgotten. *)
Definition request_of (e : event) : event :=
  match e with
  | EvWrite reg val _ => EvWrite reg val 0
  | EvRead reg _ => EvRead reg 0
  | _ => e
  end.

Definition requests (t : list event) : list event := map request_of t.

(** Every 32-bit access, read or write, starts with exactly one write to
    the address register; no other transfer of the driver goes there. *)
Definition starts_mem32 (e : event) : bool :=
  match e with
  | EvWrite reg _ _ => reg =? MXL371X_MDIO_ADDR_REG
  | _ => false
  end.

Definition mem32_ops (t : list event) : nat := length (List.filter starts_mem32 t).

Definition is_bus_transfer (e : event) : bool :=
  match e with
  | EvWrite _ _ _ | EvRead _ _ => true
  | _ => false
  end.

Definition is_bus_write (e : event) : bool :=
  match e with
  | EvWrite _ _ _ => true
  | _ => false
  end.

Definition is_random (e : event) : bool :=
  match e with
  | EvRandom _ => true
  | _ => false
  end.

(** Milliseconds slept through [msleep]. *)
Definition slept_ms (t : list event) : Z :=
  fold_right (fun e acc => match e with EvMsleep ms => ms + acc | _ => acc end) 0 t.

(** The four transfers of a 32-bit read of [addr], and of a 32-bit write of
    [val] to [addr], as requests. *)
Definition rd32_xfer (addr : Z) : list event :=
  [ EvWrite MXL371X_MDIO_ADDR_REG (Z.land (Z.shiftr addr 16) 0xffff) 0;
    EvWrite (MXL371X_MDIO_ADDR_REG + 1) (Z.land addr 0xffff) 0;
    EvRead MXL371X_MDIO_DATA_REG 0;
    EvRead (MXL371X_MDIO_DATA_REG + 1) 0 ].

Definition wr32_xfer (addr val : Z) : list event :=
  [ EvWrite MXL371X_MDIO_ADDR_REG (Z.land (Z.shiftr addr 16) 0xffff) 0;
    EvWrite (MXL371X_MDIO_ADDR_REG + 1) (Z.land addr 0xffff) 0;
    EvWrite MXL371X_MDIO_DATA_REG (Z.land (Z.shiftr val 16) 0xffff) 0;
    EvWrite (MXL371X_MDIO_DATA_REG + 1) (Z.land val 0xffff) 0 ].

(** Byte [n] of the image, zero past its end. *)
Definition fw_byte (data : list Z) (n : nat) : Z := nth n data 0.

(** Word [k] of the image in little-endian order, zero-padded. *)
Definition le_word (data : list Z) (k : nat) : Z :=
  fw_byte data (4 * k) + fw_byte data (4 * k + 1) * 2^8
  + fw_byte data (4 * k + 2) * 2^16 + fw_byte data (4 * k + 3) * 2^24.

(** The transfers that write words [k .. k+m-1] of the image: word [j]
    goes to address [4j]. *)
Definition word_xfers (data : list Z) (k m : nat) : list event :=
  concat (map (fun j => wr32_xfer (MXL371X_FW_BASE_ADDR + 4 * Z.of_nat j)
                                  (le_word data j))
              (seq k m)).

(** The number of 32-bit words an image of [n] bytes takes: n/4 rounded up. *)
Definition words_of (n : nat) : nat := Z.to_nat ((Z.of_nat n + 3) / 4).

(** The transfers of a complete upload. *)
Definition upload_xfers (data : list Z) : list event :=
  word_xfers data 0 (words_of (length data)).

(** [n] polls of the firmware status register, each followed by the 100 ms
    sleep. *)
Definition idle_poll_xfers (n : nat) : list event :=
  concat (repeat (rd32_xfer MXL371X_FW_STATUS_REG ++ [EvMsleep 100]) n).

Definition is_bytes (data : list Z) : Prop :=
  forallb (fun b => (0 <=? b) && (b <? 256)) data = true.

Section Driver.
Context {B : Type} `{MdioBus B} `{PhyLib B}.
Variable K : host.

Abbreviation W := (world B).

Definition phy_write (w : W) (reg val : Z) : Z * W :=
  let '(ret, b) := mdio_write (bus w) reg val in
  (ret, World b (trace w ++ [EvWrite reg val ret]) (klog w)).

Definition phy_read (w : W) (reg : Z) : Z * W :=
  let '(ret, b) := mdio_read (bus w) reg in
  (ret, World b (trace w ++ [EvRead reg ret]) (klog w)).

Definition msleep (w : W) (ms : Z) : W :=
  World (mdio_elapse (bus w) (ms * 1000)) (trace w ++ [EvMsleep ms]) (klog w).

(** [usleep_range(lo, hi)]: at least [lo] microseconds pass. *)
Definition usleep_range (w : W) (lo hi : Z) : W :=
  World (mdio_elapse (bus w) lo) (trace w ++ [EvUsleep lo hi]) (klog w).

(** [dev_dbg]/[dev_info]/[dev_warn]/[dev_err]: the level and the format
    string are recorded, without the trailing newline and the arguments. *)
Definition dev_log (lvl : log_level) (w : W) (msg : string) : W :=
  World (bus w) (trace w) (klog w ++ [(lvl, msg)]).

Definition dev_dbg := dev_log KDbg.
Definition dev_info := dev_log KInfo.
Definition dev_warn := dev_log KWarn.
Definition dev_err := dev_log KErr.

(** ** Indirect register transport (mxl371x.c:168-229)

    An output parameter [u32 *val] is modelled by passing the value the
    pointee holds before the call and returning the value it holds after.
    A local that C leaves uninitialised ([val_lo], [val_hi] below) starts
    as 0; the code reads such a local only after a call has assigned it. *)

Definition mxl371x_read_mem32 (w : W) (addr : Z) (val : Z) : Z * Z * W :=
  let '(ret, w) := phy_write w MXL371X_MDIO_ADDR_REG
                     (Z.land (Z.shiftr addr 16) 0xffff) in
  if ret <? 0 then (ret, val, w) else
  let '(ret, w) := phy_write w (MXL371X_MDIO_ADDR_REG + 1) (Z.land addr 0xffff) in
  if ret <? 0 then (ret, val, w) else
  let '(ret, w) := phy_read w MXL371X_MDIO_DATA_REG in
  if ret <? 0 then (ret, val, w) else
  let data_hi := u16 ret in
  let '(ret, w) := phy_read w (MXL371X_MDIO_DATA_REG + 1) in
  if ret <? 0 then (ret, val, w) else
  let data_lo := u16 ret in
  (0, Z.lor (Z.shiftl data_hi 16) data_lo, w).

Definition mxl371x_read_mem64 (w : W) (addr : Z) (val : Z) : Z * Z * W :=
  let '(ret, val_lo, w) := mxl371x_read_mem32 w addr 0 in
  if ret <? 0 then (ret, val, w) else
  let '(ret, val_hi, w) := mxl371x_read_mem32 w (u32 (addr + 4)) 0 in
  if ret <? 0 then (ret, val, w) else
  (0, Z.lor (Z.shiftl val_hi 32) val_lo, w).

Definition mxl371x_write_mem32 (w : W) (addr val : Z) : Z * W :=
  let '(ret, w) := phy_write w MXL371X_MDIO_ADDR_REG
                     (Z.land (Z.shiftr addr 16) 0xffff) in
  if ret <? 0 then (ret, w) else
  let '(ret, w) := phy_write w (MXL371X_MDIO_ADDR_REG + 1) (Z.land addr 0xffff) in
  if ret <? 0 then (ret, w) else
  let '(ret, w) := phy_write w MXL371X_MDIO_DATA_REG
                     (Z.land (Z.shiftr val 16) 0xffff) in
  if ret <? 0 then (ret, w) else
  phy_write w (MXL371X_MDIO_DATA_REG + 1) (Z.land val 0xffff).

Definition host_event (w : W) (e : event) : W :=
  World (bus w) (trace w ++ [e]) (klog w).

Definition mxl371x_read_page (w : W) : Z * W :=
  phy_read w MXL371X_PAGE_SELECT.

Definition mxl371x_write_page (w : W) (page : Z) : Z * W :=
  phy_write w MXL371X_PAGE_SELECT page.

(** ** Temperature sampling (mxl371x.c:232-283) *)

Definition mxl371x_read_temp_raw (w : W) (t0 t1 : Z) : Z * Z * Z * W :=
  (* Get T0 reading *)
  let '(ret, w) := mxl371x_write_mem32 w MXL371X_RADIO_TSENS_REG1 0x31000001 in
  if ret <? 0 then (ret, t0, t1, w) else
  let '(ret, w) := mxl371x_write_mem32 w MXL371X_RADIO_TSENS_REG2 0x00000401 in
  if ret <? 0 then (ret, t0, t1, w) else
  let '(ret, w) := mxl371x_write_mem32 w MXL371X_RADIO_TSENS_REG3 0x00000001 in
  if ret <? 0 then (ret, t0, t1, w) else
  let '(ret, w) := mxl371x_write_mem32 w MXL371X_TSENS_CTRL_REG 0x01130103 in
  if ret <? 0 then (ret, t0, t1, w) else
  let w := usleep_range w 30000 40000 in
  let '(ret, t0, w) := mxl371x_read_mem32 w MXL371X_TSENS_DATA_REG t0 in
  if ret <? 0 then (ret, t0, t1, w) else
  (* Get T1 reading *)
  let '(ret, w) := mxl371x_write_mem32 w MXL371X_TSENS_CTRL_REG 0x01130003 in
  if ret <? 0 then (ret, t0, t1, w) else
  let '(ret, w) := mxl371x_write_mem32 w MXL371X_RADIO_TSENS_REG2 0x00000411 in
  if ret <? 0 then (ret, t0, t1, w) else
  let '(ret, w) := mxl371x_write_mem32 w MXL371X_TSENS_CTRL_REG 0x01130003 in
  if ret <? 0 then (ret, t0, t1, w) else
  let '(ret, w) := mxl371x_write_mem32 w MXL371X_TSENS_CTRL_REG 0x01130103 in
  if ret <? 0 then (ret, t0, t1, w) else
  let w := usleep_range w 30000 40000 in
  let '(ret, t1, w) := mxl371x_read_mem32 w MXL371X_TSENS_DATA_REG t1 in
  if ret <? 0 then (ret, t0, t1, w) else
  (0, t0, t1, w).

(** ** Statistics reader (mxl371x.c:300-327)

    Each [mxl371x_read_mem64] gets the address of one counter of
    [priv->stats] as its output parameter; [ret |= ...] is [Z.lor] on the
    [int]s.  [dev_warn_ratelimited] is recorded as a warning. *)

Definition mxl371x_update_stats (phydev : phy_device) (w : W) : phy_device * W :=
  let s := stats (priv phydev) in
  let '(ret, v, w) := mxl371x_read_mem64 w MOCA_STATS_TX_TOTAL_PKTS (tx_packets s) in
  let s := set_tx_packets v s in
  let '(r, v, w) := mxl371x_read_mem64 w MOCA_STATS_TX_TOTAL_BYTES (tx_bytes s) in
  let ret := Z.lor ret r in
  let s := set_tx_bytes v s in
  let '(r, v, w) := mxl371x_read_mem64 w MOCA_STATS_TX_DROPPED_PKTS (tx_dropped s) in
  let ret := Z.lor ret r in
  let s := set_tx_dropped v s in
  let '(r, v, w) := mxl371x_read_mem64 w MOCA_STATS_TX_BCAST_PKTS (tx_broadcast s) in
  let ret := Z.lor ret r in
  let s := set_tx_broadcast v s in
  let '(r, v, w) := mxl371x_read_mem64 w MOCA_STATS_TX_MCAST_PKTS (tx_multicast s) in
  let ret := Z.lor ret r in
  let s := set_tx_multicast v s in
  let '(r, v, w) := mxl371x_read_mem64 w MOCA_STATS_RX_TOTAL_PKTS (rx_packets s) in
  let ret := Z.lor ret r in
  let s := set_rx_packets v s in
  let '(r, v, w) := mxl371x_read_mem64 w MOCA_STATS_RX_TOTAL_BYTES (rx_bytes s) in
  let ret := Z.lor ret r in
  let s := set_rx_bytes v s in
  let '(r, v, w) := mxl371x_read_mem64 w MOCA_STATS_RX_DROPPED_PKTS (rx_dropped s) in
  let ret := Z.lor ret r in
  let s := set_rx_dropped v s in
  let '(r, v, w) := mxl371x_read_mem64 w MOCA_STATS_RX_ERROR_PKTS (rx_errors s) in
  let ret := Z.lor ret r in
  let s := set_rx_errors v s in
  let w := if ret <? 0 then dev_warn w "Failed to update MoCA statistics" else w in
  (set_priv (set_stats s (priv phydev)) phydev, w).

(** ** MoCA status reader (mxl371x.c:330-384)

    [val] is the local [u32 val] shared by the nine reads. *)

Definition mxl371x_read_moca_status (phydev : phy_device) (w : W) : phy_device * W :=
  let p := priv phydev in
  let val := 0 in
  let ret := 0 in
  let '(r, val, w) := mxl371x_read_mem32 w MOCA_LINK_STATUS_REG val in
  let '(p, ret) := if r =? 0
                   then (set_link_status (Z.land val MOCA_LINK_STATUS_MASK) p, ret)
                   else (p, - EIO) in
  let '(r, val, w) := mxl371x_read_mem32 w MOCA_LINK_PHY_RATE_REG val in
  let '(p, ret) := if r =? 0
                   then (set_phy_rate (Z.land val 0xffff) p, ret)
                   else (p, - EIO) in
  let '(r, val, w) := mxl371x_read_mem32 w MOCA_LINK_MOCA_VER_REG val in
  let '(p, ret) := if r =? 0
                   then (set_moca_version (Z.land val 0xff) p, ret)
                   else (p, - EIO) in
  let '(r, val, w) := mxl371x_read_mem32 w MOCA_LINK_NODE_ID_REG val in
  let '(p, ret) := if r =? 0
                   then (set_node_id (Z.land val 0xff) p, ret)
                   else (p, - EIO) in
  let '(r, val, w) := mxl371x_read_mem32 w MOCA_LINK_NC_NODE_ID_REG val in
  let '(p, ret) := if r =? 0
                   then (set_nc_node_id (Z.land val 0xff) p, ret)
                   else (p, - EIO) in
  let '(r, val, w) := mxl371x_read_mem32 w MOCA_LINK_LOF_REG val in
  let '(p, ret) := if r =? 0
                   then (set_lof val p, ret)
                   else (p, - EIO) in
  let '(r, val, w) := mxl371x_read_mem32 w MOCA_LINK_NETWORK_STATE_REG val in
  let '(p, ret) := if r =? 0
                   then (set_network_state (Z.land val 0xff) p, ret)
                   else (p, - EIO) in
  let '(r, val, w) := mxl371x_read_mem32 w MOCA_LINK_ACTIVE_NODES_REG val in
  let '(p, ret) := if r =? 0
                   then (set_active_nodes val p, ret)
                   else (p, - EIO) in
  let '(r, val, w) := mxl371x_read_mem32 w MOCA_SECURITY_STATUS_REG val in
  let '(p, ret) := if r =? 0
                   then (set_security_enabled
                           (negb (Z.land val MOCA_SECURITY_ENABLED =? 0)) p, ret)
                   else (p, - EIO) in
  let w := if ret <? 0 then dev_warn w "Failed to read MoCA status" else w in
  (set_priv p phydev, w).

(** ** Periodic poller (mxl371x.c:386-399)

    The work item finds the driver data with [container_of] on the work
    structure, and then looks for the device with [container_of] applied to
    [priv] itself (line 390-391): that subtracts the offset of the field
    [priv] of [struct phy_device] from the value of the pointer, which is
    the address of the driver data, where the address of the field holding
    the pointer would be needed.  The pointer it gets is not the device.

    So [priv->fw_loaded] is read from the driver data, but
    [phydev->attached_dev] is read from whatever memory lies at that offset
    from the driver data; [stray_attached_dev] says whether that word is
    non-null.  It is read only when the flag is set ([&&]).  If it is
    non-null, the two readers are called with the stray pointer: the driver
    data they update and the bus they use are then taken from unrelated
    memory.  C gives that no meaning, and the model has no result
    ([None]).  In every other case the work item does nothing but
    reschedule itself. *)

Definition mxl371x_stats_poll_work (stray_attached_dev : bool)
    (phydev : phy_device) (w : W) : option (phy_device * W) :=
  if fw_loaded (priv phydev) && stray_attached_dev then None
  else Some (phydev, host_event w EvSchedulePoll).

(** [mxl371x_get_phy_stats]: the six counters exported to ethtool, in the
    order rx_packets, rx_bytes, rx_errors, tx_packets, tx_bytes, tx_errors. *)
Definition mxl371x_get_phy_stats (phydev : phy_device) : list Z :=
  let s := stats (priv phydev) in
  [rx_packets s; rx_bytes s; rx_errors s; tx_packets s; tx_bytes s; tx_dropped s].

(** ** hwmon (mxl371x.c:417-492) *)

Definition mxl371x_hwmon_read (w : W) (type : hwmon_sensor_types)
    (attr : hwmon_temp_attributes) (val : Z) : Z * Z * W :=
  match type with
  | hwmon_temp =>
      match attr with
      | hwmon_temp_input =>
          let '(ret, t0, t1, w) := mxl371x_read_temp_raw w 0 0 in
          if ret <? 0 then (ret, val, w) else
          let temp := mxl371x_calc_temp t0 t1 in
          if temp =? - EINVAL then (- EINVAL, val, w) else
          (0, temp, w)
      | _ => (- EOPNOTSUPP, val, w)
      end
  | _ => (- EOPNOTSUPP, val, w)
  end.

Definition mxl371x_hwmon_is_visible (type : hwmon_sensor_types)
    (attr : hwmon_temp_attributes) : Z :=
  match type with
  | hwmon_temp => match attr with hwmon_temp_input => 292 (* 0444 *) | _ => 0 end
  | _ => 0
  end.

Definition mxl371x_hwmon_init (phydev : phy_device) (w : W) : Z * phy_device * W :=
  let ret := hwmon_device_register K in
  let w := host_event w (EvHwmonRegister ret) in
  if ret <? 0 then (ret, phydev, w) else
  (0, set_priv (set_hwmon_dev true (priv phydev)) phydev, w).

(** ** Warm-boot detection (mxl371x.c:495-518) *)

Definition mxl371x_check_firmware_running (w : W) : Z * W :=
  let '(ret, fw_status, w) := mxl371x_read_mem32 w MXL371X_FW_STATUS_REG 0 in
  if ret <? 0 then (0, dev_warn w "Cannot read firmware status: %d") else
  if negb (Z.land fw_status MXL371X_FW_RUNNING =? 0) then
    (1, dev_info w "Firmware already running (warm boot detected)") else
  if negb (Z.land fw_status MXL371X_FW_ERROR =? 0) then
    (0, dev_warn w "Firmware in error state, will reload") else
  (0, w).

(** ** GUID resolver (mxl371x.c:521-589) *)

(** The code from the label [set_guid:] on. *)
Definition guid_set_guid (w : W) (mac : list Z) : Z * W :=
  let mac_hi := guid_hi mac in
  let mac_lo := guid_lo mac in
  let '(ret, w) := mxl371x_write_mem32 w MOCA_MAC_ADDR_HI mac_hi in
  if ret <? 0 then (ret, w) else
  let '(ret, w) := mxl371x_write_mem32 w MOCA_MAC_ADDR_LO mac_lo in
  if ret <? 0 then (ret, w) else
  (0, w).

(** Step 4: MaxLinear OUI with the locally administered bit, then three
    random bytes. *)
Definition guid_generate (w : W) : Z * W :=
  let rnd := get_random_bytes K 3 in
  let w := host_event w (EvRandom 3) in
  let mac := [0x02; 0x24; 0x3e; u8 (nth 0 rnd 0); u8 (nth 1 rnd 0); u8 (nth 2 rnd 0)] in
  let w := dev_info w "Generated MoCA GUID: %pM (MaxLinear OUI + random)" in
  guid_set_guid w mac.

(** Step 3: derive from the attached net device. *)
Definition guid_from_netdev (phydev : phy_device) (w : W) : Z * W :=
  match attached_dev phydev with
  | Some dev_addr =>
      if negb (is_zero_ether_addr dev_addr) then
        let mac := map (mac_byte dev_addr) (seq 0 6) in
        let mac := [Z.lor (mac_byte mac 0) 0x02; mac_byte mac 1; mac_byte mac 2;
                    mac_byte mac 3; mac_byte mac 4;
                    Z.lxor (mac_byte mac 5) 0x01] in
        let w := dev_info w "Using MoCA GUID derived from netdev: %pM" in
        guid_set_guid w mac
      else guid_generate w
  | None => guid_generate w
  end.

(** Step 2: the device tree. *)
Definition guid_from_device_tree (phydev : phy_device) (w : W) : Z * W :=
  match of_node phydev with
  | Some (r, mac) =>
      if r =? 0 then
        guid_set_guid (dev_info w "Using MoCA GUID from device tree: %pM") mac
      else guid_from_netdev phydev w
  | None => guid_from_netdev phydev w
  end.

Definition mxl371x_set_default_guid (phydev : phy_device) (w : W) : Z * W :=
  (* 1. Check if already set in hardware (non-zero) *)
  let '(ret, mac_hi, w) := mxl371x_read_mem32 w MOCA_MAC_ADDR_HI 0 in
  if (ret =? 0) && negb (mac_hi =? 0) then
    let '(ret, mac_lo, w) := mxl371x_read_mem32 w MOCA_MAC_ADDR_LO 0 in
    if (ret =? 0) && (negb (mac_hi =? 0) || negb (mac_lo =? 0)) then
      (0, dev_info w "Using existing MoCA GUID: %pM")
    else guid_from_device_tree phydev w
  else guid_from_device_tree phydev w.

(** ** sysfs attributes (mxl371x.c:592-781) *)

Definition moca_link_status_show (phydev : phy_device) : Z * string :=
  let p := priv phydev in
  sprintf_line (if link_status p =? MOCA_LINK_UP then "up"
                else if link_status p =? MOCA_LINK_SCANNING then "scanning"
                else "down").

Definition moca_version_show (phydev : phy_device) : Z * string :=
  let p := priv phydev in
  sprintf_line (String.append (dec_digits (Z.shiftr (moca_version p) 4))
                 (String.append "." (dec_digits (Z.land (moca_version p) 0xf)))).

Definition moca_phy_rate_show (phydev : phy_device) : Z * string :=
  sprintf_line (dec_digits (phy_rate (priv phydev))).

Definition moca_node_id_show (phydev : phy_device) : Z * string :=
  sprintf_line (dec_digits (node_id (priv phydev))).

Definition moca_nc_node_id_show (phydev : phy_device) : Z * string :=
  sprintf_line (dec_digits (nc_node_id (priv phydev))).

Definition moca_lof_show (phydev : phy_device) : Z * string :=
  sprintf_line (dec_digits (lof (priv phydev))).

Definition moca_network_state_show (phydev : phy_device) : Z * string :=
  let p := priv phydev in
  sprintf_line (if network_state p =? MOCA_NET_STATE_NETWORK_MODE then "network"
                else if network_state p =? MOCA_NET_STATE_SEARCHING then "searching"
                else "idle").

Definition moca_active_nodes_show (phydev : phy_device) : Z * string :=
  sprintf_line (String.append "0x" (hex_digits 8 (active_nodes (priv phydev)))).

Definition moca_security_enabled_show (phydev : phy_device) : Z * string :=
  sprintf_line (dec_digits (if security_enabled (priv phydev) then 1 else 0)).

Definition moca_chip_type_show (phydev : phy_device) : Z * string :=
  sprintf_line (if soc_chip_type (priv phydev) =? MXL_MOCA_SOC_TYPE_LEUCADIA
                then "leucadia" else "cardiff").

Definition moca_fw_version_show (phydev : phy_device) : Z * string :=
  sprintf_line (soc_version (priv phydev)).

Definition moca_guid_show (w : W) : Z * string * W :=
  let '(ret, mac_hi, w) := mxl371x_read_mem32 w MOCA_MAC_ADDR_HI 0 in
  if ret <? 0 then (- EIO, EmptyString, w) else
  let '(ret, mac_lo, w) := mxl371x_read_mem32 w MOCA_MAC_ADDR_LO 0 in
  if ret <? 0 then (- EIO, EmptyString, w) else
  let '(n, out) := sprintf_line (format_mac (guid_bytes mac_hi mac_lo)) in
  (n, out, w).

Definition moca_guid_store (w : W) (buf : string) (count : Z) : Z * W :=
  match mac_pton K buf with
  | None => (- EINVAL, w)
  | Some mac =>
      (* Allow any non-zero MAC for MoCA GUID *)
      if is_zero_ether_addr mac then (- EADDRNOTAVAIL, w) else
      let mac_hi := guid_hi mac in
      let mac_lo := guid_lo mac in
      let '(ret, w) := mxl371x_write_mem32 w MOCA_MAC_ADDR_HI mac_hi in
      if ret <? 0 then (- EIO, w) else
      let '(ret, w) := mxl371x_write_mem32 w MOCA_MAC_ADDR_LO mac_lo in
      if ret <? 0 then (- EIO, w) else
      (count, dev_info w "MoCA GUID set to %pM")
  end.

(** ** Device identification (mxl371x.c:803-839) *)

Definition mxl371x_get_device_info (phydev : phy_device) (w : W)
    : Z * phy_device * W :=
  let '(ret, val, w) := mxl371x_read_mem32 w SRE_PRODUCT_FAMILY_ID 0 in
  if ret <? 0 then (ret, phydev, w) else
  let w := dev_info w "Product Family ID: 0x%08x" in
  let '(ret, val, w) := mxl371x_read_mem32 w SRE_DEVICE_ID val in
  if ret <? 0 then (ret, phydev, w) else
  let p := set_device_id (Z.land val 0xffff) (priv phydev) in
  let p := set_revision_id (Z.land (Z.shiftr val SRE_REVISION_ID_OFFSET) 0xffff) p in
  let p := if (device_id p =? 0x3710) || (device_id p =? 0x3711)
           then set_fw_name (Some MXL371X_FW_LEUCADIA)
                  (set_soc_chip_type MXL_MOCA_SOC_TYPE_LEUCADIA p)
           else set_fw_name (Some MXL371X_FW_CARDIFF)
                  (set_soc_chip_type MXL_MOCA_SOC_TYPE_CARDIFF p) in
  let p := set_soc_version
             (String.append
                (if soc_chip_type p =? MXL_MOCA_SOC_TYPE_LEUCADIA
                 then "Leucadia" else "Cardiff")
                (String.append " Device 0x"
                   (String.append (hex_digits 4 (device_id p))
                      (String.append " Rev 0x" (hex_digits 4 (revision_id p))))))
             p in
  let w := dev_info w "%s" in
  (0, set_priv p phydev, w).

(** ** Firmware loader (mxl371x.c:841-949) *)

(** The upload loop [for (i = 0; i < fw->size; i += 4)].  The result is
    [(aborted, ret, world)]; [aborted] is the [goto release_fw] out of the
    loop.  [fuel] bounds the iterations; [None] is running out of it. *)
Fixpoint fw_upload_loop (fuel : nat) (w : W) (data : list Z) (i ret : Z)
    : option (bool * Z * W) :=
  if i <? Z.of_nat (length data) then
    match fuel with
    | O => None
    | S fuel' =>
        let word := fw_word data i in
        let '(ret, w) :=
          mxl371x_write_mem32 w (u32 (MXL371X_FW_BASE_ADDR + i)) word in
        if ret <? 0 then
          Some (true, ret, dev_err w "Firmware write failed at offset %u")
        else
          let w := if (i mod 262144 =? 0) && (i >? 0)
                   then dev_dbg w "Uploaded %zu%%" else w in
          fw_upload_loop fuel' w data (u32 (i + 4)) ret
    end
  else Some (false, ret, w).

(** The ready poll [for (i = 0; i < 50; i++)], with [n] the iterations
    left, followed by the time-out exit below the loop. *)
Fixpoint fw_poll_loop (n : nat) (phydev : phy_device) (w : W) (fw_status : Z)
    : Z * phy_device * W :=
  match n with
  | O => (- ETIMEDOUT, phydev,
          dev_err w "Firmware start timeout (status: 0x%08x)")
  | S n' =>
      let '(ret, fw_status, w) :=
        mxl371x_read_mem32 w MXL371X_FW_STATUS_REG fw_status in
      if ret <? 0 then (ret, phydev, dev_err w "Cannot read firmware status") else
      if negb (Z.land fw_status MXL371X_FW_RUNNING =? 0) then
        (0, set_priv (set_fw_loaded true (priv phydev)) phydev,
         dev_info w "Firmware started successfully") else
      if negb (Z.land fw_status MXL371X_FW_ERROR =? 0) then
        (- EIO, phydev, dev_err w "Firmware error detected (status: 0x%08x)") else
      fw_poll_loop n' phydev (msleep w 100) fw_status
  end.

Definition release_firmware (w : W) : W := host_event w EvReleaseFw.

Definition mxl371x_load_firmware (phydev : phy_device) (w : W)
    : option (Z * phy_device * W) :=
  (* Check if already loaded *)
  if fw_loaded (priv phydev) then Some (0, phydev, w) else
  (* Check if firmware is already running (warm boot) *)
  let '(running, w) := mxl371x_check_firmware_running w in
  if negb (running =? 0) then
    Some (0, set_priv (set_fw_loaded true (priv phydev)) phydev,
          dev_info w "Skipping firmware load (already running)") else
  let w := dev_info w "Loading firmware %s..." in
  let '(ret, fw) := request_firmware K (fw_name (priv phydev)) in
  let w := host_event w (EvRequestFw (fw_name (priv phydev)) ret) in
  if negb (ret =? 0) then
    Some (ret, phydev, dev_err w "Failed to load firmware: %d") else
  let size := Z.of_nat (length fw) in
  if (size =? 0) || (size >? MXL371X_MAX_FW_SIZE) then
    Some (- EINVAL, phydev,
          release_firmware (dev_err w "Invalid firmware size: %zu")) else
  let w := dev_info w "Firmware size: %zu bytes" in
  (* Reset SoC - hold in reset *)
  let '(ret, w) := mxl371x_write_mem32 w SRE_CPU_SRC_SEL_CSR 0x8 in
  if ret <? 0 then
    Some (ret, phydev, release_firmware (dev_err w "Failed to reset SoC")) else
  let w := msleep w 100 in
  (* Upload firmware in chunks *)
  let w := dev_info w "Uploading firmware..." in
  match fw_upload_loop (S (length fw)) w fw 0 ret with
  | None => None
  | Some (true, ret, w) => Some (ret, phydev, release_firmware w)
  | Some (false, _, w) =>
      let w := dev_info w "Firmware upload complete (%zu bytes)" in
      (* Release SoC from reset *)
      let '(ret, w) := mxl371x_write_mem32 w SRE_CPU_SRC_SEL_CSR 0x0 in
      if ret <? 0 then
        Some (ret, phydev,
              release_firmware (dev_err w "Failed to release SoC from reset")) else
      (* Wait for firmware to initialize *)
      let w := dev_info w "Waiting for firmware to start..." in
      let w := msleep w 500 in
      (* Poll for firmware ready status *)
      let '(ret, phydev, w) := fw_poll_loop 50 phydev w 0 in
      Some (ret, phydev, release_firmware w)
  end.

(** ** SGMII configuration (mxl371x.c:952-1069) *)

Definition phy_read_paged (w : W) (page reg : Z) : Z * W :=
  let '(ret, b) := lib_read_paged (bus w) page reg in
  (ret, World b (trace w ++ [EvReadPaged page reg ret]) (klog w)).

Definition phy_modify_paged (w : W) (page reg mask set : Z) : Z * W :=
  let '(ret, b) := lib_modify_paged (bus w) page reg mask set in
  (ret, World b (trace w ++ [EvModifyPaged page reg mask set ret]) (klog w)).

Definition mxl371x_detect_sgmii_mode (w : W) (detected_mode : Z) : Z * Z * W :=
  let '(ret, w) := phy_read_paged w MXL371X_SGMII_CTRL 0x10 in
  if ret <? 0 then (ret, detected_mode, dev_err w "Failed to read SGMII config: %d") else
  let val := u16 (Z.land ret MXL371X_SGMII_MODE_MASK) in
  if val =? MXL371X_SGMII_MODE_SGMII then
    (0, MXL371X_SGMII_MODE_SGMII, dev_info w "Detected SGMII mode (1000Mbps)")
  else if val =? MXL371X_SGMII_MODE_HSGMII then
    (0, MXL371X_SGMII_MODE_HSGMII, dev_info w "Detected HSGMII mode (2500Mbps)")
  else if val =? MXL371X_SGMII_MODE_1000BASE_X then
    (0, MXL371X_SGMII_MODE_1000BASE_X, dev_info w "Detected 1000BASE-X mode")
  else (- EINVAL, detected_mode, dev_warn w "Unknown SGMII mode: 0x%02x").

Definition mxl371x_config_sgmii (phydev : phy_device) (w : W)
    : Z * phy_device * W :=
  let l := lstate phydev in
  (* 1. Try to use interface mode from device tree *)
  let '(mode, mode_set, l, w) :=
    match interface phydev with
    | PHY_INTERFACE_MODE_SGMII =>
        (MXL371X_SGMII_MODE_SGMII, true, set_speed SPEED_1000 l,
         dev_info w "Using SGMII mode from device tree (1000Mbps)")
    | PHY_INTERFACE_MODE_2500BASEX =>
        (MXL371X_SGMII_MODE_HSGMII, true, set_speed SPEED_2500 l,
         dev_info w "Using HSGMII mode from device tree (2500Mbps)")
    | PHY_INTERFACE_MODE_1000BASEX =>
        (MXL371X_SGMII_MODE_1000BASE_X, true, set_speed SPEED_1000 l,
         dev_info w "Using 1000BASE-X mode from device tree")
    | PHY_INTERFACE_MODE_OTHER =>
        (* 2. Try to detect current hardware configuration (warm boot) *)
        let '(ret, mode, w) := mxl371x_detect_sgmii_mode w 0 in
        if ret =? 0 then
          let w := dev_info w "Using detected hardware configuration" in
          if mode =? MXL371X_SGMII_MODE_HSGMII
          then (mode, true, set_speed SPEED_2500 l, w)
          else (mode, true, set_speed SPEED_1000 l, w)
        else (mode, false, l, w)
    end in
  (* 3. If still not set, make an educated guess *)
  let '(mode, l, w) :=
    if negb mode_set then
      let w := dev_warn w "No device tree phy-mode and detection failed" in
      let w := dev_info w "Defaulting to SGMII @ 1000Mbps" in
      (MXL371X_SGMII_MODE_SGMII, set_speed SPEED_1000 l, w)
    else (mode, l, w) in
  (* Configure the SGMII interface *)
  let '(ret, w) := phy_modify_paged w MXL371X_SGMII_CTRL 0x10
                     MXL371X_SGMII_MODE_MASK mode in
  if ret <? 0 then
    (ret, set_lstate l phydev, dev_err w "Failed to configure SGMII mode: %d") else
  let l := set_duplex DUPLEX_FULL l in
  (0, set_lstate l phydev, dev_info w "Configured %s @ %dMbps").

(** ** Driver callbacks (mxl371x.c:1071-1208) *)

Definition mxl371x_config_init (phydev : phy_device) (w : W)
    : option (Z * phy_device * W) :=
  (* Get device information *)
  let '(ret, phydev, w) := mxl371x_get_device_info phydev w in
  if ret <? 0 then Some (ret, phydev, w) else
  (* Check if this is a warm boot *)
  let '(running, w) := mxl371x_check_firmware_running w in
  let warm_boot := negb (running =? 0) in
  let '(phydev, w) :=
    if warm_boot then
      (set_priv (set_fw_loaded true (priv phydev)) phydev,
       dev_info w "Warm boot detected, skipping firmware load")
    else (phydev, w) in
  (* Load firmware (will be skipped if already running) *)
  match mxl371x_load_firmware phydev w with
  | None => None
  | Some (ret, phydev, w) =>
      if ret <? 0 then
        Some (ret, phydev, dev_err w "Firmware loading failed: %d") else
      (* Set default MoCA GUID if not already configured *)
      let '(ret, w) := mxl371x_set_default_guid phydev w in
      let w := if ret <? 0 then dev_warn w "Failed to set MoCA GUID: %d" else w in
      (* Read current MoCA status *)
      let '(phydev, w) := mxl371x_read_moca_status phydev w in
      (* Configure SGMII/HSGMII interface *)
      let '(ret, phydev, w) := mxl371x_config_sgmii phydev w in
      if ret <? 0 then
        Some (ret, phydev, dev_err w "SGMII configuration failed: %d") else
      (* Create sysfs attributes *)
      let ret := sysfs_create_group K in
      let w := host_event w (EvSysfsCreate ret) in
      if ret <? 0 then
        Some (ret, phydev, dev_err w "Failed to create sysfs attributes: %d") else
      (* Initialize hwmon temperature sensor *)
      let '(ret, phydev, w) := mxl371x_hwmon_init phydev w in
      let w := if ret <? 0 then dev_warn w "Failed to init hwmon: %d" else w in
      (* Start statistics polling *)
      let w := host_event w EvSchedulePoll in
      let w := if warm_boot
               then dev_info w "MoCA PHY initialized (warm boot, MoCA v%u.%u, %uMbps)"
               else dev_info w "MoCA PHY initialized (cold boot, MoCA v%u.%u, %uMbps)" in
      Some (0, phydev, w)
  end.

Definition mxl371x_probe (phydev : phy_device) : Z * phy_device :=
  if devm_kzalloc_ok K then (0, set_priv priv_zero phydev)
  else (- ENOMEM, phydev).

Definition mxl371x_remove (w : W) : W :=
  host_event (host_event w EvCancelPollSync) EvSysfsRemove.

Definition mxl371x_read_status (phydev : phy_device) (w : W)
    : Z * phy_device * W :=
  let '(ret, l, b) := lib_genphy_read_status (bus w) (lstate phydev) in
  let w := World b (trace w ++ [EvGenphy "read_status" ret]) (klog w) in
  let phydev := set_lstate l phydev in
  if ret <? 0 then (ret, phydev, w) else
  if fw_loaded (priv phydev) then
    let '(phydev, w) := mxl371x_read_moca_status phydev w in
    let link := if link_status (priv phydev) =? MOCA_LINK_UP then 1 else 0 in
    (0, set_lstate (set_link link (lstate phydev)) phydev, w)
  else (0, phydev, w).

Definition mxl371x_config_aneg (phydev : phy_device) : Z * phy_device :=
  (0, set_lstate (set_duplex DUPLEX_FULL
                    (set_autoneg AUTONEG_DISABLE (lstate phydev))) phydev).

Definition mxl371x_suspend (phydev : phy_device) (w : W) : Z * phy_device * W :=
  let w := host_event w EvCancelPollSync in
  let '(ret, b) := lib_genphy_suspend (bus w) in
  (ret, phydev, World b (trace w ++ [EvGenphy "suspend" ret]) (klog w)).

Definition mxl371x_resume (phydev : phy_device) (w : W) : Z * phy_device * W :=
  let phydev := set_priv (set_fw_loaded false (priv phydev)) phydev in
  let w := host_event w EvSchedulePoll in
  let '(ret, b) := lib_genphy_resume (bus w) in
  (ret, phydev, World b (trace w ++ [EvGenphy "resume" ret]) (klog w)).

Definition mxl371x_match_phy_device (phydev : phy_device) : Z :=
  if Z.land (phy_id phydev) MXL371X_OUI_MASK =? MXL371X_OUI then 1 else 0.

(** ** Reference behaviour the readers and the ready poll are compared with *)

(** [k] polls of the firmware status register that all succeed and show
    neither the running nor the error bit, each followed by [msleep(100)];
    [None] when one of them fails or shows a bit. *)
Fixpoint idle_polls (k : nat) (w : W) : option W :=
  match k with
  | O => Some w
  | S k' =>
      let '(ret, st, w) := mxl371x_read_mem32 w MXL371X_FW_STATUS_REG 0 in
      if (ret <? 0) then None else
      if (Z.land st MXL371X_FW_RUNNING =? 0) && (Z.land st MXL371X_FW_ERROR =? 0)
      then idle_polls k' (msleep w 100)
      else None
  end.

(** Every read of a batch attempted in order, whatever the earlier ones
    returned: the list of [(ret, value)] and the world afterwards.  [value]
    is meaningful where [ret] is 0. *)
Fixpoint read_batch32 (w : W) (addrs : list Z) : list (Z * Z) * W :=
  match addrs with
  | [] => ([], w)
  | a :: rest =>
      let '(ret, v, w) := mxl371x_read_mem32 w a 0 in
      let '(rs, w) := read_batch32 w rest in
      ((ret, v) :: rs, w)
  end.

Fixpoint read_batch64 (w : W) (addrs : list Z) : list (Z * Z) * W :=
  match addrs with
  | [] => ([], w)
  | a :: rest =>
      let '(ret, v, w) := mxl371x_read_mem64 w a 0 in
      let '(rs, w) := read_batch64 w rest in
      ((ret, v) :: rs, w)
  end.

(** ** Every function of the driver that runs on a device *)

Inductive sysfs_ro_attr : Type :=
| AttrLinkStatus | AttrVersion | AttrPhyRate | AttrNodeId | AttrNcNodeId
| AttrLof | AttrNetworkState | AttrActiveNodes | AttrSecurityEnabled
| AttrChipType | AttrFwVersion.

Inductive driver_fn : Type :=
| FnReadPage
| FnWritePage (page : Z)
| FnReadMem32 (addr : Z)
| FnReadMem64 (addr : Z)
| FnWriteMem32 (addr val : Z)
| FnReadTempRaw
| FnUpdateStats
| FnReadMocaStatus
| FnStatsPollWork (stray_attached_dev : bool)
| FnGetPhyStats
| FnHwmonRead (type : hwmon_sensor_types) (attr : hwmon_temp_attributes)
| FnHwmonIsVisible (type : hwmon_sensor_types) (attr : hwmon_temp_attributes)
| FnHwmonInit
| FnCheckFirmwareRunning
| FnSetDefaultGuid
| FnSysfsShow (a : sysfs_ro_attr)
| FnGuidShow
| FnGuidStore (buf : string) (count : Z)
| FnGetDeviceInfo
| FnLoadFirmware
| FnDetectSgmiiMode
| FnConfigSgmii
| FnConfigInit
| FnProbe
| FnRemove
| FnReadStatus
| FnConfigAneg
| FnSuspend
| FnResume
| FnMatchPhyDevice.

Definition sysfs_show (a : sysfs_ro_attr) (phydev : phy_device) : Z * string :=
  match a with
  | AttrLinkStatus => moca_link_status_show phydev
  | AttrVersion => moca_version_show phydev
  | AttrPhyRate => moca_phy_rate_show phydev
  | AttrNodeId => moca_node_id_show phydev
  | AttrNcNodeId => moca_nc_node_id_show phydev
  | AttrLof => moca_lof_show phydev
  | AttrNetworkState => moca_network_state_show phydev
  | AttrActiveNodes => moca_active_nodes_show phydev
  | AttrSecurityEnabled => moca_security_enabled_show phydev
  | AttrChipType => moca_chip_type_show phydev
  | AttrFwVersion => moca_fw_version_show phydev
  end.

(** The device and the world after running one function (its return value
    and outputs dropped); [None] if the firmware upload ran out of fuel, or
    where the poller has no defined behaviour. *)
Definition run_fn (f : driver_fn) (phydev : phy_device) (w : W)
    : option (phy_device * W) :=
  match f with
  | FnReadPage => Some (phydev, snd (mxl371x_read_page w))
  | FnWritePage page => Some (phydev, snd (mxl371x_write_page w page))
  | FnReadMem32 addr => Some (phydev, snd (mxl371x_read_mem32 w addr 0))
  | FnReadMem64 addr => Some (phydev, snd (mxl371x_read_mem64 w addr 0))
  | FnWriteMem32 addr val => Some (phydev, snd (mxl371x_write_mem32 w addr val))
  | FnReadTempRaw => Some (phydev, snd (mxl371x_read_temp_raw w 0 0))
  | FnUpdateStats => Some (mxl371x_update_stats phydev w)
  | FnReadMocaStatus => Some (mxl371x_read_moca_status phydev w)
  | FnStatsPollWork stray => mxl371x_stats_poll_work stray phydev w
  | FnGetPhyStats => Some (phydev, w)
  | FnHwmonRead type attr => Some (phydev, snd (mxl371x_hwmon_read w type attr 0))
  | FnHwmonIsVisible _ _ => Some (phydev, w)
  | FnHwmonInit =>
      let '(_, phydev, w) := mxl371x_hwmon_init phydev w in Some (phydev, w)
  | FnCheckFirmwareRunning => Some (phydev, snd (mxl371x_check_firmware_running w))
  | FnSetDefaultGuid => Some (phydev, snd (mxl371x_set_default_guid phydev w))
  | FnSysfsShow _ => Some (phydev, w)
  | FnGuidShow => Some (phydev, snd (moca_guid_show w))
  | FnGuidStore buf count => Some (phydev, snd (moca_guid_store w buf count))
  | FnGetDeviceInfo =>
      let '(_, phydev, w) := mxl371x_get_device_info phydev w in Some (phydev, w)
  | FnLoadFirmware =>
      match mxl371x_load_firmware phydev w with
      | Some (_, phydev, w) => Some (phydev, w)
      | None => None
      end
  | FnDetectSgmiiMode => Some (phydev, snd (mxl371x_detect_sgmii_mode w 0))
  | FnConfigSgmii =>
      let '(_, phydev, w) := mxl371x_config_sgmii phydev w in Some (phydev, w)
  | FnConfigInit =>
      match mxl371x_config_init phydev w with
      | Some (_, phydev, w) => Some (phydev, w)
      | None => None
      end
  | FnProbe => Some (snd (mxl371x_probe phydev), w)
  | FnRemove => Some (phydev, mxl371x_remove w)
  | FnReadStatus =>
      let '(_, phydev, w) := mxl371x_read_status phydev w in Some (phydev, w)
  | FnConfigAneg => Some (snd (mxl371x_config_aneg phydev), w)
  | FnSuspend =>
      let '(_, phydev, w) := mxl371x_suspend phydev w in Some (phydev, w)
  | FnResume =>
      let '(_, phydev, w) := mxl371x_resume phydev w in Some (phydev, w)
  | FnMatchPhyDevice => Some (phydev, w)
  end.

(** The functions that assign [priv->fw_loaded] or replace [priv]. *)
Definition writes_fw_loaded (f : driver_fn) : bool :=
  match f with
  | FnLoadFirmware | FnConfigInit | FnResume | FnProbe => true
  | _ => false
  end.

Definition is_load_firmware (f : driver_fn) : bool :=
  match f with
  | FnLoadFirmware => true
  | _ => false
  end.

End Driver.

(** ** Devices behind the bus, for running the driver *)

(** phylib services that always succeed and change nothing. *)
Definition phylib_idle (B : Type) : PhyLib B :=
  {| lib_read_paged := fun b _ _ => (0, b);
     lib_modify_paged := fun b _ _ _ _ => (0, b);
     lib_genphy_read_status := fun b l => (0, l, b);
     lib_genphy_suspend := fun b => (0, b);
     lib_genphy_resume := fun b => (0, b) |}.

(** *** The indirect-access window

    Modelled from the spec: the device behind [phy_write]/[phy_read]
    (phylib's primitives, which are not part of this driver), as the fake
    bus of the specification's transport tests, "a fake bus that models the
    address/data-register protocol": to access address A the high 16 bits
    of A are written to the address register, the low 16 bits to the
    address register + 1, then the high and the low half of the data go
    through the data register pair, high half first.

    The register numbers are the driver's: address register 0x0e, data
    register 0x0f.  With them the low-address register and the high-data
    register are the same register 0x0f, so the device tells the two apart
    by the position in the sequence, and refuses a transfer that is out of
    sequence with -EIO.  Behind the window sits a memory of 32-bit words,
    zero where never written. *)

Inductive window_phase : Type :=
| AwaitAddrHi | AwaitAddrLo | AwaitDataHi | AwaitDataLo.

Record window_dev : Type := WindowDev {
  wd_phase : window_phase;
  wd_addr_hi : Z;
  wd_addr_lo : Z;
  wd_mem : gmap Z Z
}.

Definition wd_addr (d : window_dev) : Z := wd_addr_hi d * 2^16 + wd_addr_lo d.

Definition wd_word (d : window_dev) : Z := default 0 (wd_mem d !! wd_addr d).

Definition window_write (d : window_dev) (reg val : Z) : Z * window_dev :=
  let v := val mod 2^16 in
  match wd_phase d with
  | AwaitAddrHi =>
      if reg =? MXL371X_MDIO_ADDR_REG
      then (0, WindowDev AwaitAddrLo v (wd_addr_lo d) (wd_mem d))
      else (- EIO, d)
  | AwaitAddrLo =>
      if reg =? MXL371X_MDIO_ADDR_REG + 1
      then (0, WindowDev AwaitDataHi (wd_addr_hi d) v (wd_mem d))
      else (- EIO, d)
  | AwaitDataHi =>
      if reg =? MXL371X_MDIO_DATA_REG
      then (0, WindowDev AwaitDataLo (wd_addr_hi d) (wd_addr_lo d)
                 (<[wd_addr d := v * 2^16 + wd_word d mod 2^16]> (wd_mem d)))
      else (- EIO, d)
  | AwaitDataLo =>
      if reg =? MXL371X_MDIO_DATA_REG + 1
      then (0, WindowDev AwaitAddrHi (wd_addr_hi d) (wd_addr_lo d)
                 (<[wd_addr d := (wd_word d / 2^16) * 2^16 + v]> (wd_mem d)))
      else (- EIO, d)
  end.

Definition window_read (d : window_dev) (reg : Z) : Z * window_dev :=
  match wd_phase d with
  | AwaitDataHi =>
      if reg =? MXL371X_MDIO_DATA_REG
      then ((wd_word d / 2^16) mod 2^16,
            WindowDev AwaitDataLo (wd_addr_hi d) (wd_addr_lo d) (wd_mem d))
      else (- EIO, d)
  | AwaitDataLo =>
      if reg =? MXL371X_MDIO_DATA_REG + 1
      then (wd_word d mod 2^16,
            WindowDev AwaitAddrHi (wd_addr_hi d) (wd_addr_lo d) (wd_mem d))
      else (- EIO, d)
  | _ => (- EIO, d)
  end.

#[export] Instance window_bus : MdioBus window_dev :=
  {| mdio_write := window_write;
     mdio_read := window_read;
     mdio_elapse := fun d _ => d |}.

#[export] Instance window_phylib : PhyLib window_dev := phylib_idle window_dev.

(** A window device at rest with the given memory. *)
Definition window_idle (mem : gmap Z Z) : window_dev :=
  WindowDev AwaitAddrHi 0 0 mem.

(** *** A scripted bus

    Every write returns the next scripted return code, every read the next
    scripted answer (a 16-bit value, or a negative errno); 0 once a script
    is used up. *)

Record script_bus : Type := ScriptBus {
  sb_write_rets : list Z;
  sb_read_rets : list Z
}.

Definition script_write (b : script_bus) (reg val : Z) : Z * script_bus :=
  match sb_write_rets b with
  | [] => (0, b)
  | r :: rest => (r, ScriptBus rest (sb_read_rets b))
  end.

Definition script_read (b : script_bus) (reg : Z) : Z * script_bus :=
  match sb_read_rets b with
  | [] => (0, b)
  | r :: rest => (r, ScriptBus (sb_write_rets b) rest)
  end.

#[export] Instance scripted_bus : MdioBus script_bus :=
  {| mdio_write := script_write;
     mdio_read := script_read;
     mdio_elapse := fun b _ => b |}.

#[export] Instance scripted_phylib : PhyLib script_bus := phylib_idle script_bus.

(** A host with the given firmware image and random bytes. *)
Definition host_with (fw : list Z) (rnd : list Z) : host :=
  {| request_firmware := fun _ => (0, fw);
     get_random_bytes := fun _ => rnd;
     mac_pton := fun _ => None;
     devm_kzalloc_ok := true;
     sysfs_create_group := 0;
     hwmon_device_register := 0 |}.

Definition world0 {B : Type} (b : B) : world B := World b [] [].

Definition phydev0 : phy_device :=
  PhyDevice priv_zero 0x02434770 PHY_INTERFACE_MODE_OTHER (LinkState 0 0 0 0)
            None None.

Definition phydev_loaded : phy_device :=
  set_priv (set_fw_loaded true priv_zero) phydev0.

(** The address the window device latches for a driver address. *)
Definition window_addr (addr : Z) : Z :=
  (Z.land (Z.shiftr addr 16) 0xffff) mod 2^16 * 2^16 + (Z.land addr 0xffff) mod 2^16.

(** ** Reference definitions used in the statements *)

(** The calibration formula as the specification writes it. *)
Definition temp_formula (t0 t1 : Z) : Z :=
  (t1 - t0) * 1338680 / 524288 - 277770.

(** The largest difference of samples whose temperature fits an [int]. *)
Definition TEMP_DELTA_MAX : Z := 841161097.

(** The nine status registers and the nine counters, in reading order. *)
Definition status_addrs : list Z :=
  [ MOCA_LINK_STATUS_REG; MOCA_LINK_PHY_RATE_REG; MOCA_LINK_MOCA_VER_REG;
    MOCA_LINK_NODE_ID_REG; MOCA_LINK_NC_NODE_ID_REG; MOCA_LINK_LOF_REG;
    MOCA_LINK_NETWORK_STATE_REG; MOCA_LINK_ACTIVE_NODES_REG;
    MOCA_SECURITY_STATUS_REG ].

Definition stats_addrs : list Z :=
  [ MOCA_STATS_TX_TOTAL_PKTS; MOCA_STATS_TX_TOTAL_BYTES;
    MOCA_STATS_TX_DROPPED_PKTS; MOCA_STATS_TX_BCAST_PKTS;
    MOCA_STATS_TX_MCAST_PKTS; MOCA_STATS_RX_TOTAL_PKTS;
    MOCA_STATS_RX_TOTAL_BYTES; MOCA_STATS_RX_DROPPED_PKTS;
    MOCA_STATS_RX_ERROR_PKTS ].

(** A read of a batch failed. *)
Definition read_failed (r : Z * Z) : bool := fst r <? 0.

(** The value a field holds after a batch: decoded from read [i] if that
    read succeeded, the previous value otherwise. *)
Definition field_after {A : Type} (rs : list (Z * Z)) (i : nat)
    (decode : Z -> A) (old : A) : A :=
  match nth_error rs i with
  | Some (r, v) => if r <? 0 then old else decode v
  | None => old
  end.

(** ** Further reference definitions *)

(** The return code recorded with a bus transfer. *)
Definition ev_ret (e : event) : Z :=
  match e with
  | EvWrite _ _ ret => ret
  | EvRead _ ret => ret
  | _ => 0
  end.

(** The requests of a complete temperature sampling (mxl371x.c:236-280). *)
Definition temp_xfers : list event :=
  wr32_xfer MXL371X_RADIO_TSENS_REG1 0x31000001 ++
  wr32_xfer MXL371X_RADIO_TSENS_REG2 0x00000401 ++
  wr32_xfer MXL371X_RADIO_TSENS_REG3 0x00000001 ++
  wr32_xfer MXL371X_TSENS_CTRL_REG 0x01130103 ++
  [EvUsleep 30000 40000] ++
  rd32_xfer MXL371X_TSENS_DATA_REG ++
  wr32_xfer MXL371X_TSENS_CTRL_REG 0x01130003 ++
  wr32_xfer MXL371X_RADIO_TSENS_REG2 0x00000411 ++
  wr32_xfer MXL371X_TSENS_CTRL_REG 0x01130003 ++
  wr32_xfer MXL371X_TSENS_CTRL_REG 0x01130103 ++
  [EvUsleep 30000 40000] ++
  rd32_xfer MXL371X_TSENS_DATA_REG.

(** The two exact PHY IDs of the driver table (mxl371x.c:25-26). *)
Definition MXL3710_PHY_ID : Z := 0x02434770.
Definition MXL3711_PHY_ID : Z := 0x02434771.

(** The cached MoCA status within what the masks of the status reader and
    the [u32] fields allow, and the counters within [u64]. *)
Definition status_in_range (p : mxl371x_priv) : Prop :=
  0 <= link_status p <= MOCA_LINK_STATUS_MASK /\
  0 <= phy_rate p < 2 ^ 16 /\
  0 <= moca_version p < 2 ^ 8 /\
  0 <= node_id p < 2 ^ 8 /\
  0 <= nc_node_id p < 2 ^ 8 /\
  0 <= lof p < 2 ^ 32 /\
  0 <= network_state p < 2 ^ 8 /\
  0 <= active_nodes p < 2 ^ 32.

Definition stats_in_range (s : mxl371x_stats) : Prop :=
  Forall (fun x => 0 <= x < 2 ^ 64)
    [ tx_packets s; tx_bytes s; tx_dropped s; tx_broadcast s; tx_multicast s;
      rx_packets s; rx_bytes s; rx_dropped s; rx_errors s ].

(** A host whose [mac_pton] parses every text to the given address. *)
Definition host_parsing (mac : list Z) : host :=
  {| request_firmware := fun _ => (0, []);
     get_random_bytes := fun _ => [];
     mac_pton := fun _ => Some mac;
     devm_kzalloc_ok := true;
     sysfs_create_group := 0;
     hwmon_device_register := 0 |}.

(** * Properties *)

(** ** Integer facts *)

Lemma lor_shiftl_low (a b n : Z) :
  0 <= n -> 0 <= b < 2 ^ n -> Z.lor (Z.shiftl a n) b = a * 2 ^ n + b.
Proof.
  intros Hn Hb.
  rewrite Z.shiftl_mul_pow2 by lia.
  symmetry. apply Z.add_nocarry_lor.
  apply Z.bits_inj'. intros k Hk.
  rewrite Z.land_spec, Z.bits_0.
  destruct (Z.ltb_spec k n) as [Hlt | Hge].
  - rewrite Z.mul_pow2_bits_low by lia. reflexivity.
  - assert (Z.testbit b k = false) as ->; [| apply andb_false_r].
    destruct (Z.eq_dec b 0) as [-> | Hne]; [apply Z.bits_0 |].
    apply Z.bits_above_log2; [lia |].
    apply Z.log2_lt_pow2; [lia |].
    apply Z.lt_le_trans with (2 ^ n); [lia |].
    apply Z.pow_le_mono_r; lia.
Qed.

Lemma land_ffff (x : Z) : Z.land x 0xffff = x mod 2 ^ 16.
Proof. change 0xffff with (Z.ones 16). apply Z.land_ones. lia. Qed.

Lemma u16_range (x : Z) : 0 <= u16 x < 2 ^ 16.
Proof. unfold u16. apply Z.mod_pos_bound. lia. Qed.

Lemma u32_range (x : Z) : 0 <= u32 x < 2 ^ 32.
Proof. unfold u32. apply Z.mod_pos_bound. lia. Qed.

Lemma u32_small (x : Z) : 0 <= x < 2 ^ 32 -> u32 x = x.
Proof. intros. unfold u32. apply Z.mod_small. lia. Qed.

Lemma s64_small (x : Z) : - 2 ^ 63 <= x < 2 ^ 63 -> s64 x = x.
Proof. intros. unfold s64. rewrite Z.mod_small; lia. Qed.

Lemma s32_small (x : Z) : - 2 ^ 31 <= x < 2 ^ 31 -> s32 x = x.
Proof. intros. unfold s32. rewrite Z.mod_small; lia. Qed.

(** A 32-bit value is its two halves, as the transport splits and joins it. *)
Lemma join_halves (hi lo : Z) :
  0 <= hi < 2 ^ 16 -> 0 <= lo < 2 ^ 16 ->
  Z.lor (Z.shiftl hi 16) lo = hi * 2 ^ 16 + lo /\
  0 <= hi * 2 ^ 16 + lo < 2 ^ 32.
Proof. intros. rewrite lor_shiftl_low by lia. lia. Qed.

Lemma split_halves (v : Z) :
  Z.land (Z.shiftr v 16) 0xffff = (v / 2 ^ 16) mod 2 ^ 16 /\
  Z.land v 0xffff = v mod 2 ^ 16.
Proof. rewrite !land_ffff, Z.shiftr_div_pow2 by lia. split; reflexivity. Qed.

(** One step through the driver's code: expose the next bus transfer and
    name its outcome, or split on the next error check. *)
Ltac bus_step :=
  cbn [bus trace klog fst snd];
  lazymatch goal with
  | |- context [mdio_write ?b ?r ?v] =>
      let ret := fresh "r" in let b' := fresh "b" in
      destruct (mdio_write b r v) as [ret b']
  | |- context [mdio_read ?b ?r] =>
      let ret := fresh "r" in let b' := fresh "b" in
      destruct (mdio_read b r) as [ret b']
  end;
  cbn [bus trace klog fst snd].

Ltac split_neg r E :=
  destruct (Z.ltb_spec r 0) as [E | E].

Section TransportProps.
Context {B : Type} `{MdioBus B}.

(** Everything a 32-bit read does, in one statement: it extends the trace
    by the transfers of one access, leaves the kernel log alone, and either
    succeeds with a 32-bit value after exactly the four transfers of
    [rd32_xfer], none failed, or returns the negative code of the transfer
    that failed and leaves the output untouched. *)
Lemma read_mem32_spec (w : world B) (addr val : Z) :
  exists ret v w' evs,
    mxl371x_read_mem32 w addr val = (ret, v, w') /\
    trace w' = trace w ++ evs /\ klog w' = klog w /\
    mem32_ops evs = 1%nat /\
    forallb is_bus_transfer evs = true /\
    ((ret = 0 /\ 0 <= v < 2 ^ 32 /\ requests evs = rd32_xfer addr /\
      existsb ev_failed evs = false /\
      (forall val', mxl371x_read_mem32 w addr val' = (0, v, w')))
     \/
     (ret < 0 /\ v = val /\ existsb ev_failed evs = true /\
      (forall val', mxl371x_read_mem32 w addr val' = (ret, val', w')))).
Proof.
  unfold mxl371x_read_mem32, phy_write, phy_read.
  bus_step. split_neg r E1.
  { eexists _, _, _, _. split; [reflexivity |]. cbn [bus trace klog].
    repeat split; try reflexivity.
    right. repeat split; try reflexivity; try assumption.
    cbn. apply Z.ltb_lt in E1. rewrite E1. reflexivity. }
  bus_step. split_neg r0 E2.
  { eexists _, _, _, _. split; [reflexivity |]. cbn [bus trace klog].
    rewrite <- app_assoc.
    repeat split; try reflexivity.
    right. repeat split; try reflexivity; try assumption.
    cbn. apply Z.ltb_lt in E2. rewrite E2. apply orb_true_r. }
  bus_step. split_neg r1 E3.
  { eexists _, _, _, _. split; [reflexivity |]. cbn [bus trace klog].
    rewrite <- !app_assoc.
    repeat split; try reflexivity.
    right. repeat split; try reflexivity; try assumption.
    cbn. apply Z.ltb_lt in E3. rewrite E3. rewrite !orb_true_r. reflexivity. }
  bus_step. split_neg r2 E4.
  { eexists _, _, _, _. split; [reflexivity |]. cbn [bus trace klog].
    rewrite <- !app_assoc.
    repeat split; try reflexivity.
    right. repeat split; try reflexivity; try assumption.
    cbn. apply Z.ltb_lt in E4. rewrite E4. rewrite !orb_true_r. reflexivity. }
  eexists _, _, _, _. split; [reflexivity |]. cbn [bus trace klog].
  rewrite <- !app_assoc.
  repeat split; try reflexivity.
  left. split; [reflexivity |].
  pose proof (join_halves (u16 r1) (u16 r2) (u16_range _) (u16_range _)) as [-> Hr].
  split; [exact Hr |].
  split; [reflexivity |].
  split; [| reflexivity].
  cbn. apply Z.ltb_ge in E1, E2, E3, E4. rewrite E1, E2, E3, E4. reflexivity.
Qed.

Lemma read_mem32_ret (w : world B) (addr val : Z) :
  fst (fst (mxl371x_read_mem32 w addr val)) = 0 \/
  fst (fst (mxl371x_read_mem32 w addr val)) < 0.
Proof.
  destruct (read_mem32_spec w addr val) as (ret & v & w' & evs & -> & _ & _ & _ & _ & Hc).
  cbn. destruct Hc as [(-> & _) | (? & _)]; [left; reflexivity | right; assumption].
Qed.

(** The same for a 32-bit write: four writes when it goes through, a
    negative return code exactly when one of the transfers failed. *)
Lemma write_mem32_spec (w : world B) (addr val : Z) :
  exists ret w' evs,
    mxl371x_write_mem32 w addr val = (ret, w') /\
    trace w' = trace w ++ evs /\ klog w' = klog w /\
    mem32_ops evs = 1%nat /\
    forallb is_bus_write evs = true /\
    ((0 <= ret /\ requests evs = wr32_xfer addr val /\
      existsb ev_failed evs = false)
     \/
     (ret < 0 /\ existsb ev_failed evs = true)).
Proof.
  unfold mxl371x_write_mem32, phy_write.
  bus_step. split_neg r E1.
  { eexists _, _, _. split; [reflexivity |]. cbn [bus trace klog].
    repeat split; try reflexivity.
    right. split; [assumption |].
    cbn. apply Z.ltb_lt in E1. rewrite E1. reflexivity. }
  bus_step. split_neg r0 E2.
  { eexists _, _, _. split; [reflexivity |]. cbn [bus trace klog].
    rewrite <- app_assoc.
    repeat split; try reflexivity.
    right. split; [assumption |].
    cbn. apply Z.ltb_lt in E2. rewrite E2. apply orb_true_r. }
  bus_step. split_neg r1 E3.
  { eexists _, _, _. split; [reflexivity |]. cbn [bus trace klog].
    rewrite <- !app_assoc.
    repeat split; try reflexivity.
    right. split; [assumption |].
    cbn. apply Z.ltb_lt in E3. rewrite E3. rewrite !orb_true_r. reflexivity. }
  bus_step.
  eexists _, _, _. split; [reflexivity |]. cbn [bus trace klog].
  rewrite <- !app_assoc.
  repeat split; try reflexivity.
  apply Z.ltb_ge in E1, E2, E3.
  split_neg r2 E4.
  - right. split; [assumption |].
    cbn. apply Z.ltb_lt in E4. rewrite E4. rewrite !orb_true_r. reflexivity.
  - left. split; [assumption |]. split; [reflexivity |].
    cbn. apply Z.ltb_ge in E4. rewrite E1, E2, E3, E4. reflexivity.
Qed.

Lemma mem32_ops_app (t1 t2 : list event) :
  mem32_ops (t1 ++ t2) = (mem32_ops t1 + mem32_ops t2)%nat.
Proof. unfold mem32_ops. rewrite List.filter_app, List.length_app. reflexivity. Qed.

Lemma requests_app (t1 t2 : list event) :
  requests (t1 ++ t2) = requests t1 ++ requests t2.
Proof. unfold requests. apply List.map_app. Qed.

Lemma join_words (hi lo : Z) :
  0 <= hi < 2 ^ 32 -> 0 <= lo < 2 ^ 32 ->
  Z.lor (Z.shiftl hi 32) lo = hi * 2 ^ 32 + lo /\
  0 <= hi * 2 ^ 32 + lo < 2 ^ 64.
Proof. intros. rewrite lor_shiftl_low by lia. lia. Qed.

(** A 64-bit read: the word at [addr], then the word at [addr + 4] (in
    [u32] arithmetic), the second only if the first went through. *)
Lemma read_mem64_spec (w : world B) (addr val : Z) :
  exists ret v w' evs,
    mxl371x_read_mem64 w addr val = (ret, v, w') /\
    trace w' = trace w ++ evs /\ klog w' = klog w /\
    (1 <= mem32_ops evs <= 2)%nat /\
    forallb is_bus_transfer evs = true /\
    ((ret = 0 /\ 0 <= v < 2 ^ 64 /\
      requests evs = rd32_xfer addr ++ rd32_xfer (u32 (addr + 4)) /\
      existsb ev_failed evs = false /\
      (forall val', mxl371x_read_mem64 w addr val' = (0, v, w')))
     \/
     (ret < 0 /\ v = val /\ existsb ev_failed evs = true /\
      (forall val', mxl371x_read_mem64 w addr val' = (ret, val', w')))).
Proof.
  unfold mxl371x_read_mem64.
  destruct (read_mem32_spec w addr 0)
    as (r1 & lo & w1 & e1 & -> & Ht1 & Hk1 & Hn1 & Hb1 & Hc1).
  destruct Hc1 as [(-> & Hlo & Hq1 & Hf1 & _) | (Hneg & _ & Hf1 & _)].
  2:{ apply Z.ltb_lt in Hneg as Hneg'. rewrite Hneg'.
      exists r1, val, w1, e1. repeat split; try assumption; try lia.
      right. repeat split; try assumption. }
  cbn [Z.ltb Z.compare].
  destruct (read_mem32_spec w1 (u32 (addr + 4)) 0)
    as (r2 & hi & w2 & e2 & -> & Ht2 & Hk2 & Hn2 & Hb2 & Hc2).
  destruct Hc2 as [(-> & Hhi & Hq2 & Hf2 & _) | (Hneg & _ & Hf2 & _)].
  2:{ apply Z.ltb_lt in Hneg as Hneg'. rewrite Hneg'.
      exists r2, val, w2, (e1 ++ e2).
      rewrite mem32_ops_app, forallb_app, existsb_app, Hn1, Hn2, Hb1, Hb2, Hf2.
      rewrite Ht2, Ht1, Hk2, Hk1, <- app_assoc, orb_true_r.
      repeat split; try lia.
      right. repeat split; assumption. }
  cbn [Z.ltb Z.compare].
  exists 0, (Z.lor (Z.shiftl hi 32) lo), w2, (e1 ++ e2).
  rewrite mem32_ops_app, forallb_app, existsb_app, requests_app,
    Hn1, Hn2, Hb1, Hb2, Hf1, Hf2, Hq1, Hq2.
  rewrite Ht2, Ht1, Hk2, Hk1, <- app_assoc.
  repeat split; try lia.
  left. pose proof (join_words hi lo Hhi Hlo) as [Hj Hr]. rewrite Hj.
  repeat split; lia.
Qed.

(** C10: error atomicity of the transport reads.  Whenever
    [mxl371x_read_mem32] or [mxl371x_read_mem64] returns something other
    than 0, the return value is a negative error code and the output
    parameter still holds the value it held before the call: [*val] is
    assigned on the zero-return path only. *)
Theorem transport_read_error_atomic (w : world B) (addr val : Z) :
  (forall ret v w', mxl371x_read_mem32 w addr val = (ret, v, w') ->
     ret <> 0 -> ret < 0 /\ v = val) /\
  (forall ret v w', mxl371x_read_mem64 w addr val = (ret, v, w') ->
     ret <> 0 -> ret < 0 /\ v = val).
Proof.
  split; intros ret v w' Heq Hret.
  - destruct (read_mem32_spec w addr val)
      as (ret' & v' & w'' & evs & Heq' & _ & _ & _ & _ & Hc).
    rewrite Heq in Heq'. injection Heq' as <- <- <-.
    destruct Hc as [(-> & _) | (Hneg & -> & _)]; [congruence | auto].
  - destruct (read_mem64_spec w addr val)
      as (ret' & v' & w'' & evs & Heq' & _ & _ & _ & _ & Hc).
    rewrite Heq in Heq'. injection Heq' as <- <- <-.
    destruct Hc as [(-> & _) | (Hneg & -> & _)]; [congruence | auto].
Qed.

(** C9: the 64-bit composition law.  [mxl371x_read_mem64] at [addr] reads
    the word at [addr] first and the word at [addr + 4] second; when both
    reads succeed its value is [(hi << 32) | lo], that is [hi * 2^32 + lo],
    with [lo] the first word and [hi] the second.  When the first read
    fails the second is not attempted; when either fails, its error code is
    returned and the output is left as it was.  The call fails exactly
    when one of its 16-bit transfers failed.  [addr + 4] is computed in
    [u32]; it is [addr + 4] itself unless that passes 2^32. *)
Theorem read_mem64_composition (w : world B) (addr val : Z) :
  (forall x y lo w1 hi w2,
     mxl371x_read_mem32 w addr x = (0, lo, w1) ->
     mxl371x_read_mem32 w1 (u32 (addr + 4)) y = (0, hi, w2) ->
     mxl371x_read_mem64 w addr val = (0, Z.lor (Z.shiftl hi 32) lo, w2) /\
     Z.lor (Z.shiftl hi 32) lo = hi * 2 ^ 32 + lo /\
     exists evs, trace w2 = trace w ++ evs /\
       requests evs = rd32_xfer addr ++ rd32_xfer (u32 (addr + 4))) /\
  (forall x r lo w1,
     mxl371x_read_mem32 w addr x = (r, lo, w1) -> r < 0 ->
     mxl371x_read_mem64 w addr val = (r, val, w1)) /\
  (forall x y lo w1 r hi w2,
     mxl371x_read_mem32 w addr x = (0, lo, w1) ->
     mxl371x_read_mem32 w1 (u32 (addr + 4)) y = (r, hi, w2) -> r < 0 ->
     mxl371x_read_mem64 w addr val = (r, val, w2)) /\
  (forall ret v w',
     mxl371x_read_mem64 w addr val = (ret, v, w') ->
     (ret = 0 \/ ret < 0) /\
     exists evs, trace w' = trace w ++ evs /\
       (ret < 0 <-> existsb ev_failed evs = true)) /\
  (0 <= addr -> addr + 4 < 2 ^ 32 -> u32 (addr + 4) = addr + 4).
Proof.
  split; [| split; [| split; [| split]]].
  - intros x y lo w1 hi w2 H1 H2.
    destruct (read_mem32_spec w addr x)
      as (r1 & lo' & w1' & e1 & Heq1 & Ht1 & _ & _ & _ & Hc1).
    rewrite H1 in Heq1. injection Heq1 as <- <- <-.
    destruct Hc1 as [(_ & Hlo & Hq1 & _ & Hany1) | (Hneg & _)]; [| lia].
    destruct (read_mem32_spec w1 (u32 (addr + 4)) y)
      as (r2 & hi' & w2' & e2 & Heq2 & Ht2 & _ & _ & _ & Hc2).
    rewrite H2 in Heq2. injection Heq2 as <- <- <-.
    destruct Hc2 as [(_ & Hhi & Hq2 & _ & Hany2) | (Hneg & _)]; [| lia].
    unfold mxl371x_read_mem64. rewrite (Hany1 0). cbn [Z.ltb Z.compare].
    rewrite (Hany2 0). cbn [Z.ltb Z.compare].
    split; [reflexivity |].
    split; [apply join_words; assumption |].
    exists (e1 ++ e2). rewrite Ht2, Ht1, <- app_assoc, requests_app, Hq1, Hq2.
    split; reflexivity.
  - intros x r lo w1 H1 Hr.
    destruct (read_mem32_spec w addr x)
      as (r1 & lo' & w1' & e1 & Heq1 & _ & _ & _ & _ & Hc1).
    rewrite H1 in Heq1. injection Heq1 as <- <- <-.
    destruct Hc1 as [(-> & _) | (_ & _ & _ & Hany1)]; [lia |].
    unfold mxl371x_read_mem64. rewrite (Hany1 0).
    apply Z.ltb_lt in Hr. rewrite Hr. reflexivity.
  - intros x y lo w1 r hi w2 H1 H2 Hr.
    destruct (read_mem32_spec w addr x)
      as (r1 & lo' & w1' & e1 & Heq1 & _ & _ & _ & _ & Hc1).
    rewrite H1 in Heq1. injection Heq1 as <- <- <-.
    destruct Hc1 as [(_ & _ & _ & _ & Hany1) | (Hneg & _)]; [| lia].
    destruct (read_mem32_spec w1 (u32 (addr + 4)) y)
      as (r2 & hi' & w2' & e2 & Heq2 & _ & _ & _ & _ & Hc2).
    rewrite H2 in Heq2. injection Heq2 as <- <- <-.
    destruct Hc2 as [(-> & _) | (_ & _ & _ & Hany2)]; [lia |].
    unfold mxl371x_read_mem64. rewrite (Hany1 0). cbn [Z.ltb Z.compare].
    rewrite (Hany2 0). apply Z.ltb_lt in Hr. rewrite Hr. reflexivity.
  - intros ret v w' Heq.
    destruct (read_mem64_spec w addr val)
      as (ret' & v' & w'' & evs & Heq' & Ht & _ & _ & _ & Hc).
    rewrite Heq in Heq'. injection Heq' as <- <- <-.
    destruct Hc as [(-> & _ & _ & Hf & _) | (Hneg & _ & Hf & _)].
    + split; [left; reflexivity |]. exists evs. split; [assumption |].
      rewrite Hf. split; [lia | discriminate].
    + split; [right; assumption |]. exists evs. split; [assumption |].
      rewrite Hf. split; auto.
  - intros. apply u32_small. lia.
Qed.

End TransportProps.

(** ** Batch readers *)

Section ReaderLemmas.
Context {B : Type} `{MdioBus B}.

(** The outcome of a read as one equation for every initial content of
    the output parameter. *)
Lemma read_mem32_uniform (w : world B) (addr : Z) :
  exists r v w' evs,
    (r = 0 \/ r < 0) /\
    trace w' = trace w ++ evs /\ klog w' = klog w /\ mem32_ops evs = 1%nat /\
    forall val, mxl371x_read_mem32 w addr val = (r, if r <? 0 then val else v, w').
Proof.
  destruct (read_mem32_spec w addr 0)
    as (r & v & w' & evs & _ & Ht & Hk & Hn & _ & Hc).
  exists r, v, w', evs.
  destruct Hc as [(-> & _ & _ & _ & Hany) | (Hneg & _ & _ & Hany)].
  - repeat split; auto.
  - repeat split; auto. intros val. rewrite Hany.
    apply Z.ltb_lt in Hneg. rewrite Hneg. reflexivity.
Qed.

Lemma read_mem64_uniform (w : world B) (addr : Z) :
  exists r v w' evs,
    (r = 0 \/ r < 0) /\
    trace w' = trace w ++ evs /\ klog w' = klog w /\
    (1 <= mem32_ops evs <= 2)%nat /\
    forall val, mxl371x_read_mem64 w addr val = (r, if r <? 0 then val else v, w').
Proof.
  destruct (read_mem64_spec w addr 0)
    as (r & v & w' & evs & _ & Ht & Hk & Hn & _ & Hc).
  exists r, v, w', evs.
  destruct Hc as [(-> & _ & _ & _ & Hany) | (Hneg & _ & _ & Hany)].
  - repeat split; auto; lia.
  - repeat split; auto; try lia. intros val. rewrite Hany.
    apply Z.ltb_lt in Hneg. rewrite Hneg. reflexivity.
Qed.

Lemma let_pair_if {X Y C : Type} (c : bool) (a1 a2 : X) (b1 b2 : Y)
    (k : X -> Y -> C) :
  (let '(x, y) := if c then (a1, b1) else (a2, b2) in k x y)
  = k (if c then a1 else a2) (if c then b1 else b2).
Proof. destruct c; reflexivity. Qed.

Lemma eqb0_ltb (r : Z) : r = 0 \/ r < 0 -> (r =? 0) = negb (r <? 0).
Proof.
  intros [-> | Hr]; [reflexivity |].
  assert ((r <? 0) = true) as -> by (apply Z.ltb_lt; lia).
  cbn. apply Z.eqb_neq. lia.
Qed.

Lemma lor_ltb0 (a b : Z) : (Z.lor a b <? 0) = (a <? 0) || (b <? 0).
Proof.
  destruct (Z.ltb_spec (Z.lor a b) 0) as [Hl | Hl];
    destruct (Z.ltb_spec a 0), (Z.ltb_spec b 0); try reflexivity; exfalso.
  - apply Z.lor_neg in Hl. lia.
  - assert (Z.lor a b < 0) by (apply Z.lor_neg; lia). lia.
  - assert (Z.lor a b < 0) by (apply Z.lor_neg; lia). lia.
  - assert (Z.lor a b < 0) by (apply Z.lor_neg; lia). lia.
Qed.

Lemma get_if {X : Type} (g : mxl371x_priv -> X) (c : bool)
    (f : mxl371x_priv -> mxl371x_priv) (p : mxl371x_priv) :
  (forall q, g (f q) = g q) -> g (if c then f p else p) = g p.
Proof. intros Hg. destruct c; auto. Qed.

Lemma priv_set_priv (p : mxl371x_priv) (d : phy_device) : priv (set_priv p d) = p.
Proof. reflexivity. Qed.

End ReaderLemmas.

Ltac read32_step :=
  match goal with
  | |- context [mxl371x_read_mem32 ?w ?a _] =>
      let r := fresh "r" in let v := fresh "v" in let w' := fresh "w" in
      let evs := fresh "evs" in let Hr := fresh "Hr" in let Ht := fresh "Ht" in
      let Hk := fresh "Hk" in let Hn := fresh "Hn" in let Hu := fresh "Hu" in
      destruct (read_mem32_uniform w a) as (r & v & w' & evs & Hr & Ht & Hk & Hn & Hu);
      rewrite !Hu; clear Hu; cbv beta iota zeta;
      rewrite (eqb0_ltb r Hr); rewrite let_pair_if
  end.

Ltac read64_step :=
  match goal with
  | |- context [mxl371x_read_mem64 ?w ?a _] =>
      let r := fresh "r" in let v := fresh "v" in let w' := fresh "w" in
      let evs := fresh "evs" in let Hr := fresh "Hr" in let Ht := fresh "Ht" in
      let Hk := fresh "Hk" in let Hn := fresh "Hn" in let Hu := fresh "Hu" in
      destruct (read_mem64_uniform w a) as (r & v & w' & evs & Hr & Ht & Hk & Hn & Hu);
      rewrite !Hu; clear Hu; cbv beta iota zeta
  end.

Ltac field_through :=
  repeat first
    [ rewrite get_if by (intros; reflexivity)
    | match goal with
      | |- context [if negb (?r <? 0) then _ else _] =>
          destruct (r <? 0); cbn [negb]; [| reflexivity]
      end ];
  try reflexivity.

Section ReaderProps.
Context {B : Type} `{MdioBus B}.

(** The status reader against the batch of nine reads. *)
Lemma read_moca_status_best_effort (phydev : phy_device) (w : world B) :
  let rs := fst (read_batch32 w status_addrs) in
  let w1 := snd (read_batch32 w status_addrs) in
  let p := priv phydev in
  let p' := priv (fst (mxl371x_read_moca_status phydev w)) in
  let w' := snd (mxl371x_read_moca_status phydev w) in
  length rs = 9%nat /\ bus w' = bus w1 /\ trace w' = trace w1 /\
  mem32_ops (trace w') = (mem32_ops (trace w) + 9)%nat /\
  klog w' = klog w ++
    (if existsb read_failed rs
     then [(KWarn, "Failed to read MoCA status"%string)] else []) /\
  link_status p' =
    field_after rs 0 (fun v => Z.land v MOCA_LINK_STATUS_MASK) (link_status p) /\
  phy_rate p' = field_after rs 1 (fun v => Z.land v 0xffff) (phy_rate p) /\
  moca_version p' = field_after rs 2 (fun v => Z.land v 0xff) (moca_version p) /\
  node_id p' = field_after rs 3 (fun v => Z.land v 0xff) (node_id p) /\
  nc_node_id p' = field_after rs 4 (fun v => Z.land v 0xff) (nc_node_id p) /\
  lof p' = field_after rs 5 (fun v => v) (lof p) /\
  network_state p' =
    field_after rs 6 (fun v => Z.land v 0xff) (network_state p) /\
  active_nodes p' = field_after rs 7 (fun v => v) (active_nodes p) /\
  security_enabled p' =
    field_after rs 8 (fun v => negb (Z.land v MOCA_SECURITY_ENABLED =? 0))
      (security_enabled p).
Proof.
  unfold mxl371x_read_moca_status, status_addrs, read_batch32.
  do 9 read32_step.
  cbn [fst snd]. rewrite priv_set_priv.
  match goal with
  | |- context [if ?c <? 0 then dev_warn _ _ else _] => set (ret := c)
  end.
  match goal with
  | |- length ?l = _ /\ _ => set (rs := l)
  end.
  assert (Hret : (ret <? 0) = existsb read_failed rs).
  { subst ret rs. unfold read_failed. cbn [existsb fst].
    destruct (r <? 0), (r0 <? 0), (r1 <? 0), (r2 <? 0), (r3 <? 0), (r4 <? 0),
      (r5 <? 0), (r6 <? 0), (r7 <? 0); reflexivity. }
  rewrite Hret. clearbody ret. clear Hret.
  split; [reflexivity |].
  split; [destruct (existsb _ _); reflexivity |].
  split; [destruct (existsb _ _); reflexivity |].
  split.
  { assert (trace (if existsb read_failed rs
                   then dev_warn w8 "Failed to read MoCA status" else w8)
            = trace w8) as -> by (destruct (existsb _ _); reflexivity).
    rewrite Ht7, Ht6, Ht5, Ht4, Ht3, Ht2, Ht1, Ht0, Ht.
    rewrite !mem32_ops_app, Hn, Hn0, Hn1, Hn2, Hn3, Hn4, Hn5, Hn6, Hn7. lia. }
  split.
  { destruct (existsb _ _); cbn [klog dev_warn dev_log];
      rewrite Hk7, Hk6, Hk5, Hk4, Hk3, Hk2, Hk1, Hk0, Hk;
      [reflexivity | symmetry; apply app_nil_r]. }
  subst rs. unfold field_after. cbn [nth_error].
  repeat split; field_through.
Qed.

(** The statistics reader against the batch of nine 64-bit reads. *)
Lemma update_stats_best_effort (phydev : phy_device) (w : world B) :
  let rs := fst (read_batch64 w stats_addrs) in
  let w1 := snd (read_batch64 w stats_addrs) in
  let s := stats (priv phydev) in
  let s' := stats (priv (fst (mxl371x_update_stats phydev w))) in
  let w' := snd (mxl371x_update_stats phydev w) in
  length rs = 9%nat /\ bus w' = bus w1 /\ trace w' = trace w1 /\
  (mem32_ops (trace w) + 9 <= mem32_ops (trace w')
     <= mem32_ops (trace w) + 18)%nat /\
  klog w' = klog w ++
    (if existsb read_failed rs
     then [(KWarn, "Failed to update MoCA statistics"%string)] else []) /\
  tx_packets s' = field_after rs 0 (fun v => v) (tx_packets s) /\
  tx_bytes s' = field_after rs 1 (fun v => v) (tx_bytes s) /\
  tx_dropped s' = field_after rs 2 (fun v => v) (tx_dropped s) /\
  tx_broadcast s' = field_after rs 3 (fun v => v) (tx_broadcast s) /\
  tx_multicast s' = field_after rs 4 (fun v => v) (tx_multicast s) /\
  rx_packets s' = field_after rs 5 (fun v => v) (rx_packets s) /\
  rx_bytes s' = field_after rs 6 (fun v => v) (rx_bytes s) /\
  rx_dropped s' = field_after rs 7 (fun v => v) (rx_dropped s) /\
  rx_errors s' = field_after rs 8 (fun v => v) (rx_errors s).
Proof.
  unfold mxl371x_update_stats, stats_addrs, read_batch64.
  do 9 read64_step.
  cbn [fst snd]. rewrite priv_set_priv.
  match goal with
  | |- context [if ?c <? 0 then dev_warn _ _ else _] => set (ret := c)
  end.
  match goal with
  | |- length ?l = _ /\ _ => set (rs := l)
  end.
  assert (Hret : (ret <? 0) = existsb read_failed rs).
  { subst ret rs. unfold read_failed. cbn [existsb fst].
    rewrite !lor_ltb0, orb_false_r, <- !orb_assoc. reflexivity. }
  rewrite Hret. clearbody ret. clear Hret.
  split; [reflexivity |].
  split; [destruct (existsb _ _); reflexivity |].
  split; [destruct (existsb _ _); reflexivity |].
  split.
  { assert (trace (if existsb read_failed rs
                   then dev_warn w8 "Failed to update MoCA statistics" else w8)
            = trace w8) as -> by (destruct (existsb _ _); reflexivity).
    rewrite Ht7, Ht6, Ht5, Ht4, Ht3, Ht2, Ht1, Ht0, Ht.
    rewrite !mem32_ops_app. lia. }
  split.
  { destruct (existsb _ _); cbn [klog dev_warn dev_log];
      rewrite Hk7, Hk6, Hk5, Hk4, Hk3, Hk2, Hk1, Hk0, Hk;
      [reflexivity | symmetry; apply app_nil_r]. }
  subst rs. unfold field_after. cbn [nth_error].
  repeat split.
  - destruct (r <? 0); reflexivity.
  - destruct (r0 <? 0); reflexivity.
  - destruct (r1 <? 0); reflexivity.
  - destruct (r2 <? 0); reflexivity.
  - destruct (r3 <? 0); reflexivity.
  - destruct (r4 <? 0); reflexivity.
  - destruct (r5 <? 0); reflexivity.
  - destruct (r6 <? 0); reflexivity.
  - destruct (r7 <? 0); reflexivity.
Qed.

(** C7: best-effort batch reads.  The status reader performs its nine
    32-bit reads and the statistics reader its nine 64-bit reads in order,
    each whatever the earlier ones returned: bus and trace afterwards are
    those of the whole batch.  A field whose read succeeded holds the
    decoded value, a field whose read failed holds its previous value, and
    the warning is logged exactly when at least one of the nine reads
    failed. *)
Theorem batch_reads_best_effort (phydev : phy_device) (w : world B) :
  (let rs := fst (read_batch32 w status_addrs) in
   let w1 := snd (read_batch32 w status_addrs) in
   let p := priv phydev in
   let p' := priv (fst (mxl371x_read_moca_status phydev w)) in
   let w' := snd (mxl371x_read_moca_status phydev w) in
   length rs = 9%nat /\ bus w' = bus w1 /\ trace w' = trace w1 /\
   mem32_ops (trace w') = (mem32_ops (trace w) + 9)%nat /\
   klog w' = klog w ++
     (if existsb read_failed rs
      then [(KWarn, "Failed to read MoCA status"%string)] else []) /\
   link_status p' =
     field_after rs 0 (fun v => Z.land v MOCA_LINK_STATUS_MASK) (link_status p) /\
   phy_rate p' = field_after rs 1 (fun v => Z.land v 0xffff) (phy_rate p) /\
   moca_version p' = field_after rs 2 (fun v => Z.land v 0xff) (moca_version p) /\
   node_id p' = field_after rs 3 (fun v => Z.land v 0xff) (node_id p) /\
   nc_node_id p' = field_after rs 4 (fun v => Z.land v 0xff) (nc_node_id p) /\
   lof p' = field_after rs 5 (fun v => v) (lof p) /\
   network_state p' =
     field_after rs 6 (fun v => Z.land v 0xff) (network_state p) /\
   active_nodes p' = field_after rs 7 (fun v => v) (active_nodes p) /\
   security_enabled p' =
     field_after rs 8 (fun v => negb (Z.land v MOCA_SECURITY_ENABLED =? 0))
       (security_enabled p))
  /\
  (let rs := fst (read_batch64 w stats_addrs) in
   let w1 := snd (read_batch64 w stats_addrs) in
   let s := stats (priv phydev) in
   let s' := stats (priv (fst (mxl371x_update_stats phydev w))) in
   let w' := snd (mxl371x_update_stats phydev w) in
   length rs = 9%nat /\ bus w' = bus w1 /\ trace w' = trace w1 /\
   (mem32_ops (trace w) + 9 <= mem32_ops (trace w')
      <= mem32_ops (trace w) + 18)%nat /\
   klog w' = klog w ++
     (if existsb read_failed rs
      then [(KWarn, "Failed to update MoCA statistics"%string)] else []) /\
   tx_packets s' = field_after rs 0 (fun v => v) (tx_packets s) /\
   tx_bytes s' = field_after rs 1 (fun v => v) (tx_bytes s) /\
   tx_dropped s' = field_after rs 2 (fun v => v) (tx_dropped s) /\
   tx_broadcast s' = field_after rs 3 (fun v => v) (tx_broadcast s) /\
   tx_multicast s' = field_after rs 4 (fun v => v) (tx_multicast s) /\
   rx_packets s' = field_after rs 5 (fun v => v) (rx_packets s) /\
   rx_bytes s' = field_after rs 6 (fun v => v) (rx_bytes s) /\
   rx_dropped s' = field_after rs 7 (fun v => v) (rx_dropped s) /\
   rx_errors s' = field_after rs 8 (fun v => v) (rx_errors s)).
Proof.
  split.
  - apply read_moca_status_best_effort.
  - apply update_stats_best_effort.
Qed.

End ReaderProps.

(** ** The transport over the indirect-access window *)

(** The two register pairs of the transport share register 0x0f. *)
Remark mdio_register_pairs_overlap :
  MXL371X_MDIO_ADDR_REG + 1 = MXL371X_MDIO_DATA_REG.
Proof. reflexivity. Qed.

Ltac window_step :=
  cbn [bus trace klog mdio_write mdio_read window_bus];
  first [ unfold window_write at 1 | unfold window_read at 1 ];
  cbn [wd_phase wd_addr_hi wd_addr_lo wd_mem];
  rewrite Z.eqb_refl; cbn [bus trace klog].

(** A 32-bit write to a window device at rest succeeds, leaves it at rest,
    stores the value (as 32 bits) at the addressed word and changes no
    other word. *)
Lemma window_write_mem32 (ahi alo : Z) (mem : gmap Z Z) (t : list event)
    (k : list (log_level * string)) (addr v : Z) :
  exists d' t',
    mxl371x_write_mem32 (World (WindowDev AwaitAddrHi ahi alo mem) t k) addr v
      = (0, World d' t' k) /\
    wd_phase d' = AwaitAddrHi /\
    wd_mem d' !! window_addr addr = Some (v mod 2 ^ 32) /\
    (forall a, a <> window_addr addr -> wd_mem d' !! a = mem !! a) /\
    requests t' = requests t ++ wr32_xfer addr v.
Proof.
  eexists _, _. split; [reflexivity |].
  unfold wd_word, wd_addr.
  cbn [bus trace klog wd_phase wd_addr_hi wd_addr_lo wd_mem].
  split; [reflexivity |].
  fold (window_addr addr).
  split; [| split].
  - rewrite lookup_insert_eq. f_equal.
    rewrite lookup_insert_eq. cbn [default].
    rewrite !land_ffff, Z.shiftr_div_pow2 by lia.
    unfold id. generalize (default 0 (mem !! window_addr addr)). intros o.
    change (2 ^ 16) with 65536. change (2 ^ 32) with 4294967296.
    Z.div_mod_to_equations. lia.
  - intros a Ha. rewrite !lookup_insert_ne by congruence. reflexivity.
  - rewrite <- !app_assoc, requests_app. reflexivity.
Qed.

(** A 32-bit read from a window device at rest succeeds, leaves the memory
    alone and returns the addressed word. *)
Lemma window_read_mem32 (ahi alo : Z) (mem : gmap Z Z) (t : list event)
    (k : list (log_level * string)) (addr old : Z) :
  0 <= default 0 (mem !! window_addr addr) < 2 ^ 32 ->
  exists ahi' alo' t',
    mxl371x_read_mem32 (World (WindowDev AwaitAddrHi ahi alo mem) t k) addr old
      = (0, default 0 (mem !! window_addr addr),
         World (WindowDev AwaitAddrHi ahi' alo' mem) t' k).
Proof.
  intros Hr.
  unfold mxl371x_read_mem32, phy_write, phy_read.
  window_step. change (0 <? 0) with false. cbv iota.
  window_step. change (0 <? 0) with false. cbv iota.
  window_step.
  unfold wd_word, wd_addr. cbn [wd_addr_hi wd_addr_lo wd_mem].
  fold (window_addr addr).
  set (o := default 0 (mem !! window_addr addr)) in *.
  assert (((o / 2 ^ 16) mod 2 ^ 16 <? 0) = false) as ->
    by (apply Z.ltb_ge, Z.mod_pos_bound; lia).
  window_step.
  unfold wd_word, wd_addr. cbn [wd_addr_hi wd_addr_lo wd_mem].
  fold (window_addr addr). fold o.
  assert ((o mod 2 ^ 16 <? 0) = false) as ->
    by (apply Z.ltb_ge, Z.mod_pos_bound; lia).
  eexists _, _, _. f_equal. f_equal.
  unfold u16. rewrite lor_shiftl_low by (try apply Z.mod_pos_bound; lia).
  change (2 ^ 16) with 65536 in *. change (2 ^ 32) with 4294967296 in *.
  Z.div_mod_to_equations. lia.
Qed.

(** C1: transport round-trip.  Over a bus that follows the access protocol
    (address high half, address low half, data high half, data low half),
    writing the 32-bit value [v] to any address and then reading that
    address returns exactly [v]; both calls succeed. *)
Theorem transport_round_trip (d : window_dev) (t : list event)
    (k : list (log_level * string)) (addr v old : Z) :
  wd_phase d = AwaitAddrHi ->
  0 <= v < 2 ^ 32 ->
  exists w1 w2,
    mxl371x_write_mem32 (World d t k) addr v = (0, w1) /\
    mxl371x_read_mem32 w1 addr old = (0, v, w2).
Proof.
  intros Hph Hv. destruct d as [ph ahi alo mem]. cbn in Hph. subst ph.
  destruct (window_write_mem32 ahi alo mem t k addr v)
    as (d' & t' & Hw & Hph' & Hlook & _ & _).
  destruct d' as [ph' ahi' alo' mem']. cbn in Hph', Hlook. subst ph'.
  assert (Hword : default 0 (mem' !! window_addr addr) = v).
  { rewrite Hlook. cbn. apply Z.mod_small. lia. }
  destruct (window_read_mem32 ahi' alo' mem' t' k addr old)
    as (ahi2 & alo2 & t2 & Hr).
  { rewrite Hword. lia. }
  rewrite Hword in Hr.
  eexists _, _. split; [exact Hw | exact Hr].
Qed.

Lemma transport_round_trip_witness :
  exists w1 w2,
    mxl371x_write_mem32 (World (window_idle ∅) [] []) 0x0c100020 0xdeadbeef
      = (0, w1) /\
    mxl371x_read_mem32 w1 0x0c100020 0 = (0, 0xdeadbeef, w2).
Proof.
  apply transport_round_trip; [reflexivity | lia].
Defined.

(** ** Temperature calibration *)

Lemma calc_temp_formula (t0 t1 : Z) :
  0 <= t0 < 2 ^ 32 -> 0 <= t1 < 2 ^ 32 -> t0 <= t1 ->
  mxl371x_calc_temp t0 t1 = s32 (temp_formula t0 t1).
Proof.
  intros H0 H1 Hle. unfold mxl371x_calc_temp, temp_formula.
  assert ((t1 <? t0) = false) as -> by (apply Z.ltb_ge; lia).
  rewrite (u32_small (t1 - t0)) by lia.
  rewrite (s64_small (t1 - t0)) by lia.
  unfold MXL371X_TSENS_COEFF_A, MXL371X_TSENS_RSSI_MAX, MXL371X_TSENS_COEFF_B.
  rewrite (s64_small ((t1 - t0) * 1338680)) by lia.
  rewrite Z.quot_div_nonneg by lia.
  assert (0 <= (t1 - t0) * 1338680 / 524288 < 2 ^ 34).
  { split; [apply Z.div_pos; lia |].
    apply Z.div_lt_upper_bound; lia. }
  rewrite (s64_small ((t1 - t0) * 1338680 / 524288)) by lia.
  rewrite s64_small by lia. reflexivity.
Qed.

(** The narrowing to [int] loses nothing up to [TEMP_DELTA_MAX], and that
    bound is sharp. *)
Lemma temp_formula_fits (t0 t1 : Z) :
  0 <= t1 - t0 <= TEMP_DELTA_MAX ->
  - 2 ^ 31 <= temp_formula t0 t1 < 2 ^ 31.
Proof.
  unfold temp_formula, TEMP_DELTA_MAX. intros Hd.
  assert (0 <= (t1 - t0) * 1338680 / 524288 <= 841161097 * 1338680 / 524288).
  { split; [apply Z.div_pos; lia |]. apply Z.div_le_mono; lia. }
  assert (841161097 * 1338680 / 524288 = 2147761416) as E by reflexivity.
  lia.
Qed.

Remark temp_delta_max_sharp :
  temp_formula 0 TEMP_DELTA_MAX = 2 ^ 31 - 2 /\
  2 ^ 31 <= temp_formula 0 (TEMP_DELTA_MAX + 1).
Proof. vm_compute. split; [reflexivity | discriminate]. Qed.

(** C3 as stated fails at the largest difference of two samples: the
    formula's value does not fit an [int]. *)
Lemma calc_temp_counterexample :
  0 <= 0 < 2 ^ 32 /\ 0 <= 4294967295 < 2 ^ 32 /\ 0 <= 4294967295 /\
  mxl371x_calc_temp 0 4294967295 = -1918713101 /\
  temp_formula 0 4294967295 = 10966188787 /\
  mxl371x_calc_temp 0 4294967295 <> temp_formula 0 4294967295.
Proof. vm_compute. repeat split; discriminate. Qed.

(** C3 (amended): temperature calibration.  For 32-bit samples with
    [t1 >= t0] the result is the formula
    [(t1 - t0) * 1338680 / 524288 - 277770], computed in 64 bits and then
    narrowed to [int]; it is the formula's value itself whenever
    [t1 - t0 <= 841161097], in particular [calc(0, 524288) = 1060910].
    For [t1 < t0] the result is [-EINVAL]. *)
Theorem calc_temp_amended (t0 t1 : Z) :
  0 <= t0 < 2 ^ 32 -> 0 <= t1 < 2 ^ 32 ->
  (t0 <= t1 -> mxl371x_calc_temp t0 t1 = s32 (temp_formula t0 t1)) /\
  (t0 <= t1 -> t1 - t0 <= TEMP_DELTA_MAX ->
     mxl371x_calc_temp t0 t1 = temp_formula t0 t1) /\
  (t1 < t0 -> mxl371x_calc_temp t0 t1 = - EINVAL) /\
  mxl371x_calc_temp 0 524288 = 1060910 /\
  mxl371x_calc_temp 100 50 = - EINVAL.
Proof.
  intros H0 H1. split; [| split; [| split; [| split]]].
  - intros Hle. apply calc_temp_formula; assumption.
  - intros Hle Hd. rewrite calc_temp_formula by assumption.
    apply s32_small. apply temp_formula_fits. lia.
  - intros Hlt. unfold mxl371x_calc_temp.
    apply Z.ltb_lt in Hlt. rewrite Hlt. reflexivity.
  - reflexivity.
  - reflexivity.
Qed.

Lemma calc_temp_amended_witness :
  mxl371x_calc_temp 1000 525288 = temp_formula 1000 525288 /\
  mxl371x_calc_temp 525288 1000 = - EINVAL.
Proof.
  pose proof (calc_temp_amended 1000 525288 ltac:(lia) ltac:(lia))
    as (_ & Hfit & _).
  pose proof (calc_temp_amended 525288 1000 ltac:(lia) ltac:(lia))
    as (_ & _ & Hinv & _).
  split.
  - apply Hfit; unfold TEMP_DELTA_MAX; lia.
  - apply Hinv. lia.
Defined.

(** In [mxl371x_hwmon_read] the value -22 of a valid pair of samples is
    taken for the error code: [t1 - t0 = 108779] gives exactly -22. *)
Remark calc_temp_minus_22 :
  mxl371x_calc_temp 0 108779 = - EINVAL /\ temp_formula 0 108779 = -22.
Proof. vm_compute. split; reflexivity. Qed.

(** ** Firmware loader *)

Lemma is_bytes_nth (data : list Z) (n : nat) :
  is_bytes data -> 0 <= nth n data 0 < 256.
Proof.
  intros Hb. destruct (Nat.lt_ge_cases n (length data)) as [Hn | Hn].
  - unfold is_bytes in Hb. rewrite forallb_forall in Hb.
    specialize (Hb (nth n data 0) (nth_In data 0 Hn)).
    apply andb_true_iff in Hb as [Hlo Hhi].
    apply Z.leb_le in Hlo. apply Z.ltb_lt in Hhi. lia.
  - rewrite nth_overflow by exact Hn. lia.
Qed.

Lemma lor_byte (x b n : Z) :
  0 <= n -> n + 8 <= 32 -> 0 <= x < 2 ^ n -> 0 <= b < 256 ->
  Z.lor x (u32 (Z.shiftl b n)) = x + b * 2 ^ n /\
  0 <= x + b * 2 ^ n < 2 ^ (n + 8).
Proof.
  intros Hn Hn' Hx Hb.
  assert (Hp : 0 < 2 ^ n) by (apply Z.pow_pos_nonneg; lia).
  assert (Hpp : 2 ^ (n + 8) = 2 ^ n * 256)
    by (rewrite Z.pow_add_r by lia; reflexivity).
  assert (Hle : 2 ^ (n + 8) <= 2 ^ 32) by (apply Z.pow_le_mono_r; lia).
  assert (Hb1 : 0 <= b * 2 ^ n < 2 ^ 32 /\ 0 <= x + b * 2 ^ n < 2 ^ (n + 8)).
  { rewrite Hpp in *. generalize dependent (2 ^ n). intros P. intros. nia. }
  rewrite Z.shiftl_mul_pow2 by lia.
  rewrite u32_small by lia.
  pose proof (lor_shiftl_low b x n Hn Hx) as E.
  rewrite Z.shiftl_mul_pow2 in E by lia.
  rewrite Z.lor_comm, E. split; [apply Z.add_comm | apply Hb1].
Qed.

(** The inner loop packs little-endian and pads with zeros. *)
Lemma fw_word_le (data : list Z) (k : nat) :
  is_bytes data -> (4 * k < length data)%nat ->
  fw_word data (4 * Z.of_nat k) = le_word data k.
Proof.
  intros Hb Hk. unfold fw_word, le_word, fw_byte.
  pose proof (is_bytes_nth data (4 * k) Hb) as B0.
  pose proof (is_bytes_nth data (4 * k + 1) Hb) as B1.
  pose proof (is_bytes_nth data (4 * k + 2) Hb) as B2.
  pose proof (is_bytes_nth data (4 * k + 3) Hb) as B3.
  cbn [fw_word_loop].
  replace (Z.to_nat (4 * Z.of_nat k + 0)) with (4 * k)%nat by lia.
  replace (Z.to_nat (4 * Z.of_nat k + (0 + 1))) with (4 * k + 1)%nat by lia.
  replace (Z.to_nat (4 * Z.of_nat k + (0 + 1 + 1))) with (4 * k + 2)%nat by lia.
  replace (Z.to_nat (4 * Z.of_nat k + (0 + 1 + 1 + 1))) with (4 * k + 3)%nat by lia.
  change (0 + 1 + 1 + 1) with 3. change (0 + 1 + 1) with 2. change (0 + 1) with 1.
  change (0 <? 4) with true. change (1 <? 4) with true.
  change (2 <? 4) with true. change (3 <? 4) with true.
  cbn [andb].
  change (0 * 8) with 0. change (1 * 8) with 8.
  change (2 * 8) with 16. change (3 * 8) with 24.
  destruct (lor_byte 0 (nth (4 * k) data 0) 0
              ltac:(lia) ltac:(lia) ltac:(lia) B0) as [E0 R0].
  cbn [Z.add] in R0. rewrite Z.add_0_l in E0, R0. rewrite Z.mul_1_r in E0, R0.
  destruct (lor_byte _ (nth (4 * k + 1) data 0) 8
              ltac:(lia) ltac:(lia) R0 B1) as [E1 R1].
  destruct (lor_byte _ (nth (4 * k + 2) data 0) 16
              ltac:(lia) ltac:(lia) R1 B2) as [E2 R2].
  destruct (lor_byte _ (nth (4 * k + 3) data 0) 24
              ltac:(lia) ltac:(lia) R2 B3) as [E3 R3].
  assert ((4 * Z.of_nat k + 0 <? Z.of_nat (length data)) = true) as ->
    by (apply Z.ltb_lt; lia).
  destruct (Z.ltb_spec (4 * Z.of_nat k + 1) (Z.of_nat (length data))) as [L1 | L1].
  2:{ rewrite E0.
      rewrite (nth_overflow data (n := 4 * k + 1)),
        (nth_overflow data (n := 4 * k + 2)),
        (nth_overflow data (n := 4 * k + 3)) by lia. lia. }
  destruct (Z.ltb_spec (4 * Z.of_nat k + 2) (Z.of_nat (length data))) as [L2 | L2].
  2:{ rewrite E0, E1.
      rewrite (nth_overflow data (n := 4 * k + 2)),
        (nth_overflow data (n := 4 * k + 3)) by lia. lia. }
  destruct (Z.ltb_spec (4 * Z.of_nat k + 3) (Z.of_nat (length data))) as [L3 | L3].
  2:{ rewrite E0, E1, E2.
      rewrite (nth_overflow data (n := 4 * k + 3)) by lia. lia. }
  rewrite E0, E1, E2, E3. lia.
Qed.

Section LoaderProps.
Context {B : Type} `{MdioBus B}.

(** The upload loop from word [k] on, with [m] words left: it never runs
    out of fuel when given at least [m]; it aborts exactly when a transfer
    fails; when it completes it has written the [m] words in order. *)
Lemma fw_upload_loop_spec (data : list Z) :
  Z.of_nat (length data) <= MXL371X_MAX_FW_SIZE ->
  forall (m k fuel : nat) (w : world B) (ret : Z),
    (k + m = words_of (length data))%nat ->
    (m <= fuel)%nat ->
    exists aborted ret' w' evs,
      fw_upload_loop fuel w data (4 * Z.of_nat k) ret = Some (aborted, ret', w') /\
      trace w' = trace w ++ evs /\
      forallb is_bus_write evs = true /\
      (aborted = existsb ev_failed evs) /\
      (aborted = true -> ret' < 0 /\ (mem32_ops evs <= m)%nat) /\
      (aborted = false ->
         requests evs =
           concat (map (fun j => wr32_xfer (MXL371X_FW_BASE_ADDR + 4 * Z.of_nat j)
                                           (fw_word data (4 * Z.of_nat j)))
                       (seq k m)) /\
         mem32_ops evs = m).
Proof.
  intros HN. unfold MXL371X_MAX_FW_SIZE in HN. unfold words_of.
  set (N := Z.of_nat (length data)) in *.
  assert (Htot : 0 <= (N + 3) / 4 /\ 4 * ((N + 3) / 4) < N + 4 /\
                 N <= 4 * ((N + 3) / 4)).
  { subst N. Z.div_mod_to_equations. lia. }
  induction m as [| m IH]; intros k fuel w ret Hk Hfuel.
  - assert (Hge : N <= 4 * Z.of_nat k) by lia.
    exists false, ret, w, [].
    destruct fuel; cbn [fw_upload_loop]; fold N;
      (assert ((4 * Z.of_nat k <? N) = false) as -> by (apply Z.ltb_ge; lia));
      rewrite app_nil_r; repeat split; try reflexivity; try discriminate.
  - destruct fuel as [| fuel]; [lia |].
    assert (Hlt : 4 * Z.of_nat k < N) by lia.
    cbn [fw_upload_loop]. fold N.
    assert ((4 * Z.of_nat k <? N) = true) as -> by (apply Z.ltb_lt; lia).
    unfold MXL371X_FW_BASE_ADDR at 1. rewrite Z.add_0_l.
    rewrite (u32_small (4 * Z.of_nat k)) by lia.
    destruct (write_mem32_spec w (4 * Z.of_nat k) (fw_word data (4 * Z.of_nat k)))
      as (r & w1 & e1 & -> & Ht1 & Hk1 & Hn1 & Hb1 & Hc1).
    destruct Hc1 as [(Hr & Hq1 & Hf1) | (Hr & Hf1)].
    + assert ((r <? 0) = false) as -> by (apply Z.ltb_ge; lia).
      rewrite (u32_small (4 * Z.of_nat k + 4)) by lia.
      replace (4 * Z.of_nat k + 4) with (4 * Z.of_nat (S k)) by lia.
      match goal with
      | |- context [fw_upload_loop fuel ?x _ _ _] => set (w1' := x)
      end.
      assert (Ht1' : trace w1' = trace w1)
        by (subst w1'; destruct (_ && _); reflexivity).
      destruct (IH (S k) fuel w1' r ltac:(lia) ltac:(lia))
        as (ab & ret' & w' & evs & -> & Ht & Hbw & Hab & Htrue & Hfalse).
      exists ab, ret', w', (e1 ++ evs).
      split; [reflexivity |].
      split; [rewrite Ht, Ht1', Ht1, app_assoc; reflexivity |].
      split; [rewrite forallb_app, Hb1, Hbw; reflexivity |].
      split; [rewrite existsb_app, Hf1; exact Hab |].
      split.
      * intros Ha. destruct (Htrue Ha) as [? ?]. split; [assumption |].
        rewrite mem32_ops_app, Hn1. lia.
      * intros Ha. destruct (Hfalse Ha) as (Hq & Hn).
        rewrite mem32_ops_app, requests_app, Hn1, Hn, Hq, Hq1.
        split; [| reflexivity].
        cbn [seq map concat]. unfold MXL371X_FW_BASE_ADDR.
        rewrite Z.add_0_l. reflexivity.
    + apply Z.ltb_lt in Hr as Hr'. rewrite Hr'.
      exists true, r, (dev_err w1 "Firmware write failed at offset %u"), e1.
      split; [reflexivity |].
      split; [exact Ht1 |].
      split; [exact Hb1 |].
      split; [symmetry; exact Hf1 |].
      split; [| discriminate].
      intros _. split; [assumption |]. rewrite Hn1. lia.
Qed.

(** On an image of bytes the words the loop builds are the little-endian
    words of the image. *)
Lemma word_xfers_le (data : list Z) (m k : nat) :
  is_bytes data -> (k + m <= words_of (length data))%nat ->
  concat (map (fun j => wr32_xfer (MXL371X_FW_BASE_ADDR + 4 * Z.of_nat j)
                                  (fw_word data (4 * Z.of_nat j)))
              (seq k m))
  = word_xfers data k m.
Proof.
  intros Hb. unfold word_xfers. revert k.
  induction m as [| m IH]; intros k Hk; [reflexivity |].
  cbn [seq map concat]. rewrite IH by lia.
  rewrite fw_word_le; [reflexivity | assumption |].
  unfold words_of in Hk.
  assert (Z.of_nat (S k) <= (Z.of_nat (length data) + 3) / 4) by lia.
  assert (4 * ((Z.of_nat (length data) + 3) / 4) < Z.of_nat (length data) + 4)
    by (Z.div_mod_to_equations; lia).
  lia.
Qed.

Lemma words_of_le (n : nat) : (words_of n <= n)%nat.
Proof. unfold words_of. Z.div_mod_to_equations. lia. Qed.

(** *** The ready poll *)

Lemma slept_ms_app (t1 t2 : list event) :
  slept_ms (t1 ++ t2) = slept_ms t1 + slept_ms t2.
Proof.
  induction t1 as [| e t1 IH]; [reflexivity |].
  cbn [app slept_ms fold_right]. fold (slept_ms (t1 ++ t2)). fold (slept_ms t1).
  rewrite IH. destruct e; lia.
Qed.

Lemma slept_ms_transfers (t : list event) :
  forallb is_bus_transfer t = true -> slept_ms t = 0.
Proof.
  induction t as [| e t IH]; [reflexivity |].
  cbn [forallb]. intros Hall. apply andb_true_iff in Hall as [He Ht].
  cbn [slept_ms fold_right]. fold (slept_ms t). rewrite (IH Ht).
  destruct e; try discriminate; reflexivity.
Qed.

(** The value left in [fw_status] before a poll does not matter. *)
Lemma fw_poll_loop_status_irrelevant (n : nat) (phydev : phy_device)
    (w : world B) (st st' : Z) :
  fw_poll_loop n phydev w st = fw_poll_loop n phydev w st'.
Proof.
  destruct n as [| n]; [reflexivity |].
  cbn [fw_poll_loop].
  destruct (read_mem32_uniform w MXL371X_FW_STATUS_REG)
    as (r & v & w' & evs & _ & _ & _ & _ & Hu).
  rewrite !Hu. destruct (r <? 0); reflexivity.
Qed.

(** The loop polls at most [n] times; it returns 0 only with the flag set,
    and otherwise a negative code with the device data untouched. *)
Lemma fw_poll_loop_bound (n : nat) (phydev : phy_device) (w : world B) (st : Z) :
  exists ret phydev' w' evs,
    fw_poll_loop n phydev w st = (ret, phydev', w') /\
    trace w' = trace w ++ evs /\
    (mem32_ops evs <= n)%nat /\
    ((ret = 0 /\ phydev' = set_priv (set_fw_loaded true (priv phydev)) phydev)
     \/ (ret < 0 /\ phydev' = phydev)).
Proof.
  revert w st. induction n as [| n IH]; intros w st.
  - eexists _, _, _, []. cbn [fw_poll_loop].
    split; [reflexivity |]. cbn [trace dev_err dev_log].
    rewrite app_nil_r. repeat split; try reflexivity.
    right. split; [unfold ETIMEDOUT; lia | reflexivity].
  - cbn [fw_poll_loop].
    destruct (read_mem32_spec w MXL371X_FW_STATUS_REG st)
      as (r & v & w1 & e1 & -> & Ht1 & _ & Hn1 & _ & Hc1).
    assert (Hone : (mem32_ops e1 <= S n)%nat) by lia.
    destruct Hc1 as [(-> & _) | (Hneg & _)].
    2:{ apply Z.ltb_lt in Hneg as Hneg'. rewrite Hneg'.
        eexists _, _, _, e1. split; [reflexivity |].
        repeat split; try assumption. right. split; [assumption | reflexivity]. }
    cbn [Z.ltb Z.compare].
    destruct (negb (Z.land v MXL371X_FW_RUNNING =? 0)).
    { eexists _, _, _, e1. split; [reflexivity |].
      repeat split; try assumption. left. split; reflexivity. }
    destruct (negb (Z.land v MXL371X_FW_ERROR =? 0)).
    { eexists _, _, _, e1. split; [reflexivity |].
      repeat split; try assumption.
      right. split; [unfold EIO; lia | reflexivity]. }
    destruct (IH (msleep w1 100) v)
      as (ret & phydev' & w' & evs & -> & Ht & Hn & Hc).
    exists ret, phydev', w', (e1 ++ [EvMsleep 100] ++ evs).
    split; [reflexivity |].
    split; [rewrite Ht; cbn [trace msleep]; rewrite Ht1, <- !app_assoc;
            reflexivity |].
    split; [| exact Hc].
    rewrite !mem32_ops_app, Hn1. cbn. lia.
Qed.

(** [k] idle polls are the first [k] iterations of the loop. *)
Lemma idle_polls_spec (k : nat) :
  forall (w w1 : world B),
    idle_polls k w = Some w1 ->
    (exists evs, trace w1 = trace w ++ evs /\
       requests evs = idle_poll_xfers k /\ mem32_ops evs = k /\
       slept_ms evs = 100 * Z.of_nat k) /\
    klog w1 = klog w /\
    forall n phydev st,
      fw_poll_loop (k + n) phydev w st = fw_poll_loop n phydev w1 st.
Proof.
  induction k as [| k IH]; intros w w1 Hidle.
  - cbn in Hidle. injection Hidle as <-.
    split; [exists []; rewrite app_nil_r; repeat split; reflexivity |].
    split; reflexivity.
  - cbn [idle_polls] in Hidle.
    destruct (read_mem32_spec w MXL371X_FW_STATUS_REG 0)
      as (r & v & w0 & e1 & Heq & Ht1 & Hk1 & Hn1 & Hb1 & Hc1).
    rewrite Heq in Hidle.
    destruct Hc1 as [(-> & _ & Hq1 & _ & Hany) | (Hneg & _)].
    2:{ apply Z.ltb_lt in Hneg. rewrite Hneg in Hidle. discriminate. }
    cbn [Z.ltb Z.compare] in Hidle.
    destruct (Z.land v MXL371X_FW_RUNNING =? 0) eqn:Erun; [| discriminate].
    destruct (Z.land v MXL371X_FW_ERROR =? 0) eqn:Eerr; [| discriminate].
    cbn [andb] in Hidle.
    destruct (IH _ _ Hidle) as ((evs & Ht & Hq & Hn & Hs) & Hk & Hloop).
    split; [| split].
    + exists (e1 ++ [EvMsleep 100] ++ evs).
      split; [rewrite Ht; cbn [trace msleep]; rewrite Ht1, <- !app_assoc;
              reflexivity |].
      rewrite !requests_app, !mem32_ops_app, !slept_ms_app, Hq, Hq1, Hn, Hn1, Hs.
      rewrite (slept_ms_transfers e1 Hb1).
      split; [reflexivity |].
      split; [reflexivity |].
      cbn [slept_ms fold_right]. lia.
    + rewrite Hk. cbn [klog msleep]. exact Hk1.
    + intros n phydev st. cbn [Nat.add fw_poll_loop].
      rewrite (Hany st). cbn [Z.ltb Z.compare]. rewrite Erun, Eerr. cbn [negb].
      rewrite Hloop. apply fw_poll_loop_status_irrelevant.
Qed.

(** The ready poll as a loop of 50 iterations, from the world [w] in which
    it starts: the outcome after [k < 50] idle polls and a poll showing the
    running bit, or the error bit alone, and after 50 idle polls. *)
Lemma fw_poll_loop_polling (phydev : phy_device) (w : world B) (st0 : Z) :
  (exists ret phydev' w' evs,
     fw_poll_loop 50 phydev w st0 = (ret, phydev', w') /\
     trace w' = trace w ++ evs /\ (mem32_ops evs <= 50)%nat) /\
  (forall k w1 x st w2,
     (k < 50)%nat -> idle_polls k w = Some w1 ->
     mxl371x_read_mem32 w1 MXL371X_FW_STATUS_REG x = (0, st, w2) ->
     Z.land st MXL371X_FW_RUNNING <> 0 ->
     fw_poll_loop 50 phydev w st0
       = (0, set_priv (set_fw_loaded true (priv phydev)) phydev,
          dev_info w2 "Firmware started successfully") /\
     exists evs, trace w2 = trace w ++ evs /\
       requests evs = idle_poll_xfers k ++ rd32_xfer MXL371X_FW_STATUS_REG /\
       mem32_ops evs = S k /\ slept_ms evs = 100 * Z.of_nat k) /\
  (forall k w1 x st w2,
     (k < 50)%nat -> idle_polls k w = Some w1 ->
     mxl371x_read_mem32 w1 MXL371X_FW_STATUS_REG x = (0, st, w2) ->
     Z.land st MXL371X_FW_RUNNING = 0 -> Z.land st MXL371X_FW_ERROR <> 0 ->
     fw_poll_loop 50 phydev w st0
       = (- EIO, phydev,
          dev_err w2 "Firmware error detected (status: 0x%08x)") /\
     exists evs, trace w2 = trace w ++ evs /\
       requests evs = idle_poll_xfers k ++ rd32_xfer MXL371X_FW_STATUS_REG /\
       mem32_ops evs = S k /\ slept_ms evs = 100 * Z.of_nat k) /\
  (forall w1,
     idle_polls 50 w = Some w1 ->
     fw_poll_loop 50 phydev w st0
       = (- ETIMEDOUT, phydev,
          dev_err w1 "Firmware start timeout (status: 0x%08x)") /\
     exists evs, trace w1 = trace w ++ evs /\
       requests evs = idle_poll_xfers 50 /\
       mem32_ops evs = 50%nat /\ slept_ms evs = 5000) /\
  (forall w1 x st w2,
     idle_polls 2 w = Some w1 ->
     mxl371x_read_mem32 w1 MXL371X_FW_STATUS_REG x = (0, st, w2) ->
     Z.land st MXL371X_FW_RUNNING <> 0 ->
     fst (fst (fw_poll_loop 50 phydev w st0)) = 0 /\
     mem32_ops (trace w2) = (mem32_ops (trace w) + 3)%nat).
Proof.
  assert (Hstep : forall k w1 x st w2,
     (k < 50)%nat -> idle_polls k w = Some w1 ->
     mxl371x_read_mem32 w1 MXL371X_FW_STATUS_REG x = (0, st, w2) ->
     fw_poll_loop 50 phydev w st0
       = (if negb (Z.land st MXL371X_FW_RUNNING =? 0)
          then (0, set_priv (set_fw_loaded true (priv phydev)) phydev,
                dev_info w2 "Firmware started successfully")
          else if negb (Z.land st MXL371X_FW_ERROR =? 0)
          then (- EIO, phydev,
                dev_err w2 "Firmware error detected (status: 0x%08x)")
          else fw_poll_loop (49 - k) phydev (msleep w2 100) st) /\
     exists evs, trace w2 = trace w ++ evs /\
       requests evs = idle_poll_xfers k ++ rd32_xfer MXL371X_FW_STATUS_REG /\
       mem32_ops evs = S k /\ slept_ms evs = 100 * Z.of_nat k).
  { intros k w1 x st w2 Hk Hidle Hread.
    destruct (idle_polls_spec k w w1 Hidle)
      as ((evs & Ht & Hq & Hn & Hs) & _ & Hloop).
    destruct (read_mem32_spec w1 MXL371X_FW_STATUS_REG x)
      as (r & v & w2' & e1 & Heq & Ht1 & _ & Hn1 & Hb1 & Hc1).
    rewrite Hread in Heq. injection Heq as <- <- <-.
    destruct Hc1 as [(_ & _ & Hq1 & _ & Hany) | (Hneg & _)]; [| lia].
    split.
    - replace 50%nat with (k + S (49 - k))%nat by lia.
      rewrite Hloop. cbn [fw_poll_loop]. rewrite (Hany st0). reflexivity.
    - exists (evs ++ e1).
      split; [rewrite Ht1, Ht, app_assoc; reflexivity |].
      rewrite requests_app, mem32_ops_app, slept_ms_app, Hq, Hq1, Hn, Hn1, Hs.
      rewrite (slept_ms_transfers e1 Hb1).
      repeat split; lia. }
  split; [| split; [| split; [| split]]].
  - destruct (fw_poll_loop_bound 50 phydev w st0)
      as (ret & phydev' & w' & evs & Heq & Ht & Hn & _).
    exists ret, phydev', w', evs. auto.
  - intros k w1 x st w2 Hk Hidle Hread Hrun.
    destruct (Hstep k w1 x st w2 Hk Hidle Hread) as [Heq Hev].
    split; [| exact Hev].
    rewrite Heq. apply Z.eqb_neq in Hrun. rewrite Hrun. reflexivity.
  - intros k w1 x st w2 Hk Hidle Hread Hrun Herr.
    destruct (Hstep k w1 x st w2 Hk Hidle Hread) as [Heq Hev].
    split; [| exact Hev].
    rewrite Heq. apply Z.eqb_eq in Hrun. apply Z.eqb_neq in Herr.
    rewrite Hrun, Herr. reflexivity.
  - intros w1 Hidle.
    destruct (idle_polls_spec 50 w w1 Hidle)
      as ((evs & Ht & Hq & Hn & Hs) & _ & Hloop).
    split.
    + replace 50%nat with (50 + 0)%nat at 1 by reflexivity.
      rewrite Hloop. reflexivity.
    + exists evs. repeat split; assumption.
  - intros w1 x st w2 Hidle Hread Hrun.
    destruct (Hstep 2%nat w1 x st w2 ltac:(lia) Hidle Hread)
      as [Heq (evs & Ht & _ & Hn & _)].
    rewrite Heq. apply Z.eqb_neq in Hrun. rewrite Hrun.
    split; [reflexivity |].
    rewrite Ht, mem32_ops_app, Hn. lia.
Qed.

(** *** Results of the loader *)

Lemma fw_upload_loop_abort (data : list Z) (fuel : nat) :
  forall (w w' : world B) (i ret r : Z),
    fw_upload_loop fuel w data i ret = Some (true, r, w') -> r < 0.
Proof.
  induction fuel as [| fuel IH]; intros w w' i ret r.
  - cbn [fw_upload_loop]. destruct (i <? _); discriminate.
  - cbn [fw_upload_loop]. destruct (i <? _); [| discriminate].
    destruct (mxl371x_write_mem32 w _ _) as [r1 w1].
    destruct (Z.ltb_spec r1 0) as [Hneg | Hpos].
    + intros Heq. injection Heq as <- _. exact Hneg.
    + apply IH.
Qed.

End LoaderProps.

(** ** Firmware state *)

Section DriverProps.
Context {B : Type} `{MdioBus B} `{PhyLib B}.
Variable K : host.

Lemma check_firmware_running_ret (w : world B) :
  fst (mxl371x_check_firmware_running w) = 0 \/
  fst (mxl371x_check_firmware_running w) = 1.
Proof.
  unfold mxl371x_check_firmware_running.
  destruct (mxl371x_read_mem32 w _ _) as [[r v] w1].
  destruct (r <? 0); [left; reflexivity |].
  destruct (negb (_ =? 0)); [right; reflexivity |].
  destruct (negb (_ =? 0)); left; reflexivity.
Qed.

(** The loader always returns. *)
Lemma load_firmware_total (phydev : phy_device) (w : world B) :
  exists ret phydev' w', mxl371x_load_firmware K phydev w = Some (ret, phydev', w').
Proof.
  unfold mxl371x_load_firmware.
  destruct (fw_loaded (priv phydev)); [eauto |].
  destruct (mxl371x_check_firmware_running w) as [running w1].
  destruct (negb (running =? 0)); [eauto |].
  destruct (request_firmware K _) as [ret fw].
  destruct (negb (ret =? 0)); [eauto |].
  destruct (Z.of_nat (length fw) =? 0) eqn:E0; [cbn [orb]; eauto |].
  destruct (Z.gtb_spec (Z.of_nat (length fw)) MXL371X_MAX_FW_SIZE) as [Hbig | Hok];
    [cbn [orb]; eauto |].
  cbn [orb].
  destruct (mxl371x_write_mem32 _ SRE_CPU_SRC_SEL_CSR 8) as [r1 w2].
  destruct (r1 <? 0); [eauto |].
  pose proof (words_of_le (length fw)) as Hle.
  match goal with
  | |- context [fw_upload_loop _ ?x fw 0 r1] =>
      destruct (fw_upload_loop_spec fw Hok (words_of (length fw)) 0%nat
                  (S (length fw)) x r1 ltac:(lia) ltac:(lia))
        as (ab & r2 & w3 & evs & Heq & _)
  end.
  change (4 * Z.of_nat 0) with 0 in Heq. rewrite Heq.
  destruct ab; [eauto |].
  destruct (mxl371x_write_mem32 _ SRE_CPU_SRC_SEL_CSR 0) as [r3 w4].
  destruct (r3 <? 0); [eauto |].
  destruct (fw_poll_loop 50 phydev _ 0) as [[r4 d4] w5]. eauto.
Qed.

Lemma load_firmware_success_sets_flag (phydev phydev' : phy_device) (w w' : world B) :
  mxl371x_load_firmware K phydev w = Some (0, phydev', w') ->
  fw_loaded (priv phydev') = true.
Proof.
  unfold mxl371x_load_firmware.
  destruct (fw_loaded (priv phydev)) eqn:Eloaded.
  { intros Heq. injection Heq as <- <-. exact Eloaded. }
  destruct (mxl371x_check_firmware_running w) as [running w1].
  destruct (negb (running =? 0)).
  { intros Heq. injection Heq as <- <-. reflexivity. }
  destruct (request_firmware K _) as [ret fw].
  destruct (ret =? 0) eqn:Eret; cbn [negb].
  2:{ intros Heq. injection Heq as -> _ _. discriminate. }
  destruct (_ || _).
  { intros Heq. injection Heq as Hbad _ _. discriminate. }
  destruct (mxl371x_write_mem32 _ SRE_CPU_SRC_SEL_CSR 8) as [r1 w2].
  destruct (Z.ltb_spec r1 0).
  { intros Heq. injection Heq as -> _ _. lia. }
  destruct (fw_upload_loop _ _ fw 0 r1) as [[[ab r2] w3] |] eqn:Eup; [| discriminate].
  destruct ab.
  { intros Heq. injection Heq as -> _ _.
    apply fw_upload_loop_abort in Eup. lia. }
  destruct (mxl371x_write_mem32 _ SRE_CPU_SRC_SEL_CSR 0) as [r3 w4].
  destruct (Z.ltb_spec r3 0).
  { intros Heq. injection Heq as -> _ _. lia. }
  match goal with
  | |- context [fw_poll_loop 50 phydev ?x 0] =>
      destruct (fw_poll_loop_bound 50 phydev x 0)
        as (r4 & d4 & w5 & evs & -> & _ & _ & Hc)
  end.
  intros Heq. injection Heq as -> <- _.
  destruct Hc as [(_ & ->) | (Hneg & _)]; [reflexivity | lia].
Qed.

(** When the stages before it go through, the loader's result is the
    result of the ready poll (then the image is released). *)
Lemma load_firmware_reaches_poll (phydev : phy_device) (w w1 w2 w3 w4 : world B)
    (fw : list Z) (r1 r2 r3 : Z) :
  fw_loaded (priv phydev) = false ->
  mxl371x_check_firmware_running w = (0, w1) ->
  request_firmware K (fw_name (priv phydev)) = (0, fw) ->
  0 < Z.of_nat (length fw) <= MXL371X_MAX_FW_SIZE ->
  mxl371x_write_mem32
    (dev_info (host_event (dev_info w1 "Loading firmware %s...")
                 (EvRequestFw (fw_name (priv phydev)) 0))
       "Firmware size: %zu bytes") SRE_CPU_SRC_SEL_CSR 0x8 = (r1, w2) ->
  0 <= r1 ->
  fw_upload_loop (S (length fw))
    (dev_info (msleep w2 100) "Uploading firmware...") fw 0 r1
    = Some (false, r2, w3) ->
  mxl371x_write_mem32 (dev_info w3 "Firmware upload complete (%zu bytes)")
    SRE_CPU_SRC_SEL_CSR 0x0 = (r3, w4) ->
  0 <= r3 ->
  mxl371x_load_firmware K phydev w =
    (let '(ret, phydev', w5) :=
       fw_poll_loop 50 phydev
         (msleep (dev_info w4 "Waiting for firmware to start...") 500) 0 in
     Some (ret, phydev', release_firmware w5)).
Proof.
  intros Hl Hchk Hreq HN Hreset Hr1 Hup Hrel Hr3.
  unfold mxl371x_load_firmware.
  rewrite Hl, Hchk. cbn [Z.eqb negb]. rewrite Hreq. cbn [Z.eqb negb].
  assert ((Z.of_nat (length fw) =? 0) = false) as -> by (apply Z.eqb_neq; lia).
  assert ((Z.of_nat (length fw) >? MXL371X_MAX_FW_SIZE) = false) as ->
    by (rewrite Z.gtb_ltb; apply Z.ltb_ge; lia).
  cbn [orb]. rewrite Hreset.
  assert ((r1 <? 0) = false) as -> by (apply Z.ltb_ge; lia).
  rewrite Hup, Hrel.
  assert ((r3 <? 0) = false) as -> by (apply Z.ltb_ge; lia).
  reflexivity.
Qed.

(** C4: upload chunking.  On a cold boot with an image of [N] bytes,
    [0 < N <= 4 MiB], once the SoC is held in reset the loader sleeps
    100 ms and uploads: the transfers [evs] that follow are bus writes
    only.  Either one of them fails, and the loader returns a negative
    code after releasing the image; or none fails, and they are exactly
    [ceil(N/4)] 32-bit writes, word [k] of the image going to address
    [base + 4k], each word packed little-endian and the last one padded
    with zeros, and what the loader does next is the write that releases
    the SoC from reset.  A 6-byte image takes exactly two writes, and the
    second word is below 2^16: its upper two bytes are zero. *)
Theorem fw_upload_chunking (phydev : phy_device) (w w1 w2 : world B)
    (fw : list Z) (r1 : Z) :
  fw_loaded (priv phydev) = false ->
  mxl371x_check_firmware_running w = (0, w1) ->
  request_firmware K (fw_name (priv phydev)) = (0, fw) ->
  0 < Z.of_nat (length fw) <= MXL371X_MAX_FW_SIZE ->
  is_bytes fw ->
  mxl371x_write_mem32
    (dev_info (host_event (dev_info w1 "Loading firmware %s...")
                 (EvRequestFw (fw_name (priv phydev)) 0))
       "Firmware size: %zu bytes") SRE_CPU_SRC_SEL_CSR 0x8 = (r1, w2) ->
  0 <= r1 ->
  (exists ret phydev' w' evs tail,
     mxl371x_load_firmware K phydev w = Some (ret, phydev', w') /\
     trace w' = trace w2 ++ [EvMsleep 100] ++ evs ++ tail /\
     forallb is_bus_write evs = true /\
     ((existsb ev_failed evs = true /\ ret < 0 /\ phydev' = phydev /\
       tail = [EvReleaseFw] /\
       (mem32_ops evs <= Z.to_nat ((Z.of_nat (length fw) + 3) / 4))%nat)
      \/
      (existsb ev_failed evs = false /\
       requests evs = upload_xfers fw /\
       mem32_ops evs = Z.to_nat ((Z.of_nat (length fw) + 3) / 4) /\
       exists w3 r3 w4 more,
         trace w3 = trace w2 ++ [EvMsleep 100] ++ evs /\
         mxl371x_write_mem32
           (dev_info w3 "Firmware upload complete (%zu bytes)")
           SRE_CPU_SRC_SEL_CSR 0x0 = (r3, w4) /\
         trace w' = trace w4 ++ more))) /\
  (length fw = 6%nat ->
     upload_xfers fw =
       wr32_xfer MXL371X_FW_BASE_ADDR (le_word fw 0) ++
       wr32_xfer (MXL371X_FW_BASE_ADDR + 4) (le_word fw 1) /\
     le_word fw 1 = fw_byte fw 4 + fw_byte fw 5 * 2 ^ 8 /\
     0 <= le_word fw 1 < 2 ^ 16).
Proof.
  intros Hl Hchk Hreq HN Hb Hreset Hr1. split.
  - unfold mxl371x_load_firmware.
    rewrite Hl, Hchk. cbn [Z.eqb negb]. rewrite Hreq. cbn [Z.eqb negb].
    assert ((Z.of_nat (length fw) =? 0) = false) as ->
      by (apply Z.eqb_neq; lia).
    assert ((Z.of_nat (length fw) >? MXL371X_MAX_FW_SIZE) = false) as ->
      by (rewrite Z.gtb_ltb; apply Z.ltb_ge; lia).
    cbn [orb]. rewrite Hreset.
    assert ((r1 <? 0) = false) as -> by (apply Z.ltb_ge; lia).
    pose proof (words_of_le (length fw)) as Hle.
    destruct (fw_upload_loop_spec fw ltac:(lia)
                (words_of (length fw)) 0%nat (S (length fw))
                (dev_info (msleep w2 100) "Uploading firmware...") r1
                ltac:(lia) ltac:(lia))
      as (ab & r2 & w3 & evs & Heq & Ht & Hbw & Hab & Htrue & Hfalse).
    change (4 * Z.of_nat 0) with 0 in Heq. rewrite Heq.
    assert (Ht3 : trace w3 = trace w2 ++ [EvMsleep 100] ++ evs).
    { rewrite Ht. unfold dev_info, dev_log, msleep. cbn [trace].
      rewrite <- app_assoc. reflexivity. }
    destruct ab.
    + destruct (Htrue eq_refl) as [Hneg Hn].
      exists r2, phydev, (release_firmware w3), evs, [EvReleaseFw].
      split; [reflexivity |].
      split; [unfold release_firmware, host_event; cbn [trace];
              rewrite Ht3, <- !app_assoc; reflexivity |].
      split; [exact Hbw |].
      left. split; [symmetry; exact Hab |]. split; [exact Hneg |].
      split; [reflexivity |]. split; [reflexivity |]. exact Hn.
    + destruct (Hfalse eq_refl) as [Hq Hn].
      rewrite word_xfers_le in Hq by (try assumption; lia).
      destruct (mxl371x_write_mem32
                  (dev_info w3 "Firmware upload complete (%zu bytes)")
                  SRE_CPU_SRC_SEL_CSR 0) as [r3 w4] eqn:Hrel.
      assert (Hfin : forall ret pd (w' : world B) more,
                trace w' = trace w4 ++ more ->
                exists ret0 phydev' (w0 : world B) evs0 tail,
                  Some (ret, pd, w') = Some (ret0, phydev', w0) /\
                  trace w0 = trace w2 ++ [EvMsleep 100] ++ evs0 ++ tail /\
                  forallb is_bus_write evs0 = true /\
                  ((existsb ev_failed evs0 = true /\ ret0 < 0 /\
                    phydev' = phydev /\ tail = [EvReleaseFw] /\
                    (mem32_ops evs0
                     <= Z.to_nat ((Z.of_nat (length fw) + 3) / 4))%nat)
                   \/
                   (existsb ev_failed evs0 = false /\
                    requests evs0 = upload_xfers fw /\
                    mem32_ops evs0
                    = Z.to_nat ((Z.of_nat (length fw) + 3) / 4) /\
                    exists (w3' : world B) r3' (w4' : world B) more',
                      trace w3' = trace w2 ++ [EvMsleep 100] ++ evs0 /\
                      mxl371x_write_mem32
                        (dev_info w3' "Firmware upload complete (%zu bytes)")
                        SRE_CPU_SRC_SEL_CSR 0x0 = (r3', w4') /\
                      trace w0 = trace w4' ++ more'))).
      { intros ret pd w' more Hmore.
        destruct (write_mem32_spec
                    (dev_info w3 "Firmware upload complete (%zu bytes)")
                    SRE_CPU_SRC_SEL_CSR 0)
          as (r3' & w4' & e3 & Heq3 & Ht4 & _).
        rewrite Hrel in Heq3. injection Heq3 as <- <-.
        exists ret, pd, w', evs, (e3 ++ more).
        split; [reflexivity |].
        split; [rewrite Hmore, Ht4; unfold dev_info, dev_log; cbn [trace];
                rewrite Ht3, <- !app_assoc; reflexivity |].
        split; [exact Hbw |].
        right. split; [symmetry; exact Hab |]. split; [exact Hq |].
        split; [exact Hn |].
        exists w3, r3, w4, more.
        split; [exact Ht3 |]. split; [exact Hrel | exact Hmore]. }
      destruct (r3 <? 0).
      * apply (Hfin _ _ _ [EvReleaseFw]). reflexivity.
      * match goal with
        | |- context [fw_poll_loop 50 phydev ?x 0] =>
            destruct (fw_poll_loop_bound 50 phydev x 0)
              as (r4 & d4 & w5 & e5 & -> & Ht5 & _ & _)
        end.
        apply (Hfin _ _ _ ([EvMsleep 500] ++ e5 ++ [EvReleaseFw])).
        unfold release_firmware, host_event. cbn [trace]. rewrite Ht5.
        unfold msleep, dev_info, dev_log. cbn [trace].
        rewrite <- !app_assoc. reflexivity.
  - intros H6. unfold upload_xfers, word_xfers. rewrite H6.
    change (words_of 6) with 2%nat. cbn [seq map concat].
    rewrite app_nil_r.
    split; [reflexivity |].
    unfold le_word, fw_byte.
    rewrite (nth_overflow fw (n := 4 * 1 + 2)),
      (nth_overflow fw (n := 4 * 1 + 3)) by lia.
    pose proof (is_bytes_nth fw (4 * 1) Hb).
    pose proof (is_bytes_nth fw (4 * 1 + 1) Hb).
    change (4 * 1 + 1)%nat with 5%nat in *. change (4 * 1)%nat with 4%nat in *.
    lia.
Qed.

(** C2: firmware ready-polling.  On a cold boot, once the image is
    uploaded and the SoC released from reset, the loader sleeps 500 ms and
    polls the status register, from the world [wp]; then it releases the
    image and returns.  It polls at most 50 times.  If the first [k < 50]
    polls succeed and show neither bit (each is followed by a 100 ms
    sleep) and poll [k + 1] shows the running bit, the loader returns 0
    with the loaded flag set, after exactly [k + 1] reads; if that poll
    shows the error bit with the running bit clear, it returns -EIO after
    exactly [k + 1] reads; if all 50 polls show neither bit, it returns
    -ETIMEDOUT after exactly 50 reads.  In particular a register that
    reports running on the 3rd poll gives success after exactly 3
    reads. *)
Theorem fw_ready_polling (phydev : phy_device) (w w1 w2 w3 w4 : world B)
    (fw : list Z) (r1 r2 r3 : Z) :
  fw_loaded (priv phydev) = false ->
  mxl371x_check_firmware_running w = (0, w1) ->
  request_firmware K (fw_name (priv phydev)) = (0, fw) ->
  0 < Z.of_nat (length fw) <= MXL371X_MAX_FW_SIZE ->
  mxl371x_write_mem32
    (dev_info (host_event (dev_info w1 "Loading firmware %s...")
                 (EvRequestFw (fw_name (priv phydev)) 0))
       "Firmware size: %zu bytes") SRE_CPU_SRC_SEL_CSR 0x8 = (r1, w2) ->
  0 <= r1 ->
  fw_upload_loop (S (length fw))
    (dev_info (msleep w2 100) "Uploading firmware...") fw 0 r1
    = Some (false, r2, w3) ->
  mxl371x_write_mem32 (dev_info w3 "Firmware upload complete (%zu bytes)")
    SRE_CPU_SRC_SEL_CSR 0x0 = (r3, w4) ->
  0 <= r3 ->
  let wp := msleep (dev_info w4 "Waiting for firmware to start...") 500 in
  (exists ret phydev' w' evs,
     mxl371x_load_firmware K phydev w = Some (ret, phydev', w') /\
     trace w' = trace wp ++ evs ++ [EvReleaseFw] /\
     (mem32_ops evs <= 50)%nat) /\
  (forall k wi x st wr,
     (k < 50)%nat -> idle_polls k wp = Some wi ->
     mxl371x_read_mem32 wi MXL371X_FW_STATUS_REG x = (0, st, wr) ->
     Z.land st MXL371X_FW_RUNNING <> 0 ->
     mxl371x_load_firmware K phydev w
       = Some (0, set_priv (set_fw_loaded true (priv phydev)) phydev,
               release_firmware (dev_info wr "Firmware started successfully")) /\
     exists evs, trace wr = trace wp ++ evs /\
       requests evs = idle_poll_xfers k ++ rd32_xfer MXL371X_FW_STATUS_REG /\
       mem32_ops evs = S k /\ slept_ms evs = 100 * Z.of_nat k) /\
  (forall k wi x st wr,
     (k < 50)%nat -> idle_polls k wp = Some wi ->
     mxl371x_read_mem32 wi MXL371X_FW_STATUS_REG x = (0, st, wr) ->
     Z.land st MXL371X_FW_RUNNING = 0 -> Z.land st MXL371X_FW_ERROR <> 0 ->
     mxl371x_load_firmware K phydev w
       = Some (- EIO, phydev,
               release_firmware
                 (dev_err wr "Firmware error detected (status: 0x%08x)")) /\
     exists evs, trace wr = trace wp ++ evs /\
       requests evs = idle_poll_xfers k ++ rd32_xfer MXL371X_FW_STATUS_REG /\
       mem32_ops evs = S k /\ slept_ms evs = 100 * Z.of_nat k) /\
  (forall wi,
     idle_polls 50 wp = Some wi ->
     mxl371x_load_firmware K phydev w
       = Some (- ETIMEDOUT, phydev,
               release_firmware
                 (dev_err wi "Firmware start timeout (status: 0x%08x)")) /\
     exists evs, trace wi = trace wp ++ evs /\
       requests evs = idle_poll_xfers 50 /\
       mem32_ops evs = 50%nat /\ slept_ms evs = 5000) /\
  (forall wi x st wr,
     idle_polls 2 wp = Some wi ->
     mxl371x_read_mem32 wi MXL371X_FW_STATUS_REG x = (0, st, wr) ->
     Z.land st MXL371X_FW_RUNNING <> 0 ->
     (exists phydev' w',
        mxl371x_load_firmware K phydev w = Some (0, phydev', w') /\
        trace w' = trace wr ++ [EvReleaseFw]) /\
     mem32_ops (trace wr) = (mem32_ops (trace wp) + 3)%nat).
Proof.
  intros Hl Hchk Hreq HN Hreset Hr1 Hup Hrel Hr3 wp.
  pose proof (load_firmware_reaches_poll phydev w w1 w2 w3 w4 fw r1 r2 r3
                Hl Hchk Hreq HN Hreset Hr1 Hup Hrel Hr3) as Hload.
  fold wp in Hload.
  destruct (fw_poll_loop_polling phydev wp 0)
    as (Hbound & Hrun & Herr & Htime & Hthird).
  split; [| split; [| split; [| split]]].
  - destruct Hbound as (ret & phydev' & w' & evs & Heq & Ht & Hn).
    rewrite Heq in Hload.
    exists ret, phydev', (release_firmware w'), evs.
    split; [exact Hload |].
    split; [| exact Hn].
    unfold release_firmware, host_event. cbn [trace].
    rewrite Ht, <- app_assoc. reflexivity.
  - intros k wi x st wr Hk Hidle Hread Hbit.
    destruct (Hrun k wi x st wr Hk Hidle Hread Hbit) as [Heq Hev].
    rewrite Heq in Hload. split; [exact Hload | exact Hev].
  - intros k wi x st wr Hk Hidle Hread Hbit Hbit'.
    destruct (Herr k wi x st wr Hk Hidle Hread Hbit Hbit') as [Heq Hev].
    rewrite Heq in Hload. split; [exact Hload | exact Hev].
  - intros wi Hidle.
    destruct (Htime wi Hidle) as [Heq Hev].
    rewrite Heq in Hload. split; [exact Hload | exact Hev].
  - intros wi x st wr Hidle Hread Hbit.
    destruct (Hrun 2%nat wi x st wr ltac:(lia) Hidle Hread Hbit) as [Heq _].
    destruct (Hthird wi x st wr Hidle Hread Hbit) as [_ Hn].
    rewrite Heq in Hload. split; [| exact Hn].
    eexists _, _. split; [exact Hload |]. reflexivity.
Qed.

(** C5: loader idempotence.  Called with the loaded flag set, the loader
    returns 0 at once and hands back the very same device data and world:
    no bus read, no bus write, nothing logged.  Every call that returns 0
    leaves the flag set, so a second call after a successful one is such a
    no-op. *)
Theorem loader_idempotent (phydev phydev' : phy_device) (w w' : world B) :
  (fw_loaded (priv phydev) = true ->
     mxl371x_load_firmware K phydev w = Some (0, phydev, w)) /\
  (mxl371x_load_firmware K phydev w = Some (0, phydev', w') ->
     fw_loaded (priv phydev') = true /\
     mxl371x_load_firmware K phydev' w' = Some (0, phydev', w')).
Proof.
  split.
  - intros Hl. unfold mxl371x_load_firmware. rewrite Hl. reflexivity.
  - intros Heq. pose proof (load_firmware_success_sets_flag _ _ _ _ Heq) as Hl.
    split; [exact Hl |].
    unfold mxl371x_load_firmware. rewrite Hl. reflexivity.
Qed.

(** *** Who writes [fw_loaded] *)

Lemma read_moca_status_fw_loaded (phydev : phy_device) (w : world B) :
  fw_loaded (priv (fst (mxl371x_read_moca_status phydev w)))
  = fw_loaded (priv phydev).
Proof.
  unfold mxl371x_read_moca_status.
  do 9 read32_step.
  cbn [fst]. rewrite priv_set_priv.
  repeat rewrite get_if by (intros; reflexivity). reflexivity.
Qed.

Lemma update_stats_fw_loaded (phydev : phy_device) (w : world B) :
  fw_loaded (priv (fst (mxl371x_update_stats phydev w)))
  = fw_loaded (priv phydev).
Proof.
  unfold mxl371x_update_stats.
  repeat match goal with
  | |- context [mxl371x_read_mem64 ?w ?a ?v] =>
      destruct (mxl371x_read_mem64 w a v) as [[? ?] ?]
  end.
  reflexivity.
Qed.

(** The poller, where it has a result, leaves the device data alone. *)
Lemma stats_poll_work_idle (stray : bool) (phydev phydev' : phy_device)
    (w w' : world B) :
  mxl371x_stats_poll_work stray phydev w = Some (phydev', w') ->
  phydev' = phydev /\ w' = host_event w EvSchedulePoll /\
  (fw_loaded (priv phydev) = false \/ stray = false).
Proof.
  unfold mxl371x_stats_poll_work.
  destruct (fw_loaded (priv phydev)), stray; cbn [andb];
    try discriminate; intros Heq; injection Heq as <- <-; auto.
Qed.

Lemma get_device_info_fw_loaded (phydev : phy_device) (w : world B) :
  fw_loaded (priv (snd (fst (mxl371x_get_device_info phydev w))))
  = fw_loaded (priv phydev).
Proof.
  unfold mxl371x_get_device_info.
  destruct (mxl371x_read_mem32 w _ _) as [[r1 v1] w1].
  destruct (r1 <? 0); [reflexivity |].
  destruct (mxl371x_read_mem32 _ _ _) as [[r2 v2] w2].
  destruct (r2 <? 0); [reflexivity |].
  cbn [fst snd]. rewrite priv_set_priv.
  destruct (_ || _); reflexivity.
Qed.

Lemma config_sgmii_priv (phydev : phy_device) (w : world B) :
  priv (snd (fst (mxl371x_config_sgmii phydev w))) = priv phydev.
Proof.
  unfold mxl371x_config_sgmii.
  destruct (interface phydev); cbv beta iota zeta.
  4:{ destruct (mxl371x_detect_sgmii_mode w 0) as [[r m] w1].
      destruct (r =? 0); [destruct (m =? _) |]; cbv beta iota zeta; cbn [negb];
        destruct (phy_modify_paged _ _ _ _ _) as [r2 w2];
        destruct (r2 <? 0); reflexivity. }
  all: cbn [negb]; destruct (phy_modify_paged _ _ _ _ _) as [r2 w2];
    destruct (r2 <? 0); reflexivity.
Qed.

Lemma hwmon_init_fw_loaded (phydev : phy_device) (w : world B) :
  fw_loaded (priv (snd (fst (mxl371x_hwmon_init K phydev w))))
  = fw_loaded (priv phydev).
Proof.
  unfold mxl371x_hwmon_init. destruct (_ <? 0); reflexivity.
Qed.

Lemma read_status_fw_loaded (phydev : phy_device) (w : world B) :
  fw_loaded (priv (snd (fst (mxl371x_read_status phydev w))))
  = fw_loaded (priv phydev).
Proof.
  unfold mxl371x_read_status.
  destruct (lib_genphy_read_status _ _) as [[r l] b].
  destruct (r <? 0); [reflexivity |].
  cbn [priv set_lstate].
  destruct (fw_loaded (priv phydev)) eqn:E; [| exact E].
  match goal with
  | |- context [mxl371x_read_moca_status ?d ?x] =>
      pose proof (read_moca_status_fw_loaded d x) as H2;
      destruct (mxl371x_read_moca_status d x) as [d2 w2]
  end.
  cbn [fst snd priv set_lstate] in *. rewrite H2. exact E.
Qed.

(** The loader only ever sets the flag. *)
Lemma load_firmware_keeps_flag (phydev phydev' : phy_device) (w w' : world B)
    (ret : Z) :
  mxl371x_load_firmware K phydev w = Some (ret, phydev', w') ->
  fw_loaded (priv phydev) = true -> fw_loaded (priv phydev') = true.
Proof.
  intros Heq Hl. unfold mxl371x_load_firmware in Heq. rewrite Hl in Heq.
  injection Heq as _ <- _. exact Hl.
Qed.

Lemma config_init_keeps_flag (phydev phydev' : phy_device) (w w' : world B)
    (ret : Z) :
  mxl371x_config_init K phydev w = Some (ret, phydev', w') ->
  fw_loaded (priv phydev) = true -> fw_loaded (priv phydev') = true.
Proof.
  unfold mxl371x_config_init. intros Heq Hl.
  pose proof (get_device_info_fw_loaded phydev w) as Hg.
  destruct (mxl371x_get_device_info phydev w) as [[r0 d0] w0].
  cbn [fst snd] in Hg. rewrite Hl in Hg.
  destruct (r0 <? 0). { injection Heq as _ <- _. exact Hg. }
  destruct (mxl371x_check_firmware_running w0) as [running w1].
  set (d1 := fst (if negb (running =? 0)
                  then (set_priv (set_fw_loaded true (priv d0)) d0,
                        dev_info w1 "Warm boot detected, skipping firmware load")
                  else (d0, w1))) in *.
  assert (Hd1 : fw_loaded (priv d1) = true).
  { subst d1. destruct (negb (running =? 0)); [reflexivity | exact Hg]. }
  destruct (if negb (running =? 0) then _ else _) as [d1' w1'] eqn:E1.
  cbn [fst] in d1. subst d1.
  unfold mxl371x_load_firmware in Heq. rewrite Hd1 in Heq.
  cbn [Z.ltb Z.compare] in Heq.
  destruct (mxl371x_set_default_guid K d1' w1') as [rg wg].
  pose proof (read_moca_status_fw_loaded d1' (if rg <? 0 then dev_warn wg "Failed to set MoCA GUID: %d" else wg)) as Hs.
  destruct (mxl371x_read_moca_status d1' _) as [d2 w2].
  cbn [fst] in Hs.
  pose proof (config_sgmii_priv d2 w2) as Hc.
  destruct (mxl371x_config_sgmii d2 w2) as [[r3 d3] w3].
  cbn [fst snd] in Hc.
  destruct (r3 <? 0). { injection Heq as _ <- _. rewrite Hc. congruence. }
  destruct (sysfs_create_group K <? 0). { injection Heq as _ <- _. rewrite Hc. congruence. }
  pose proof (hwmon_init_fw_loaded d3 (host_event w3 (EvSysfsCreate (sysfs_create_group K)))) as Hh.
  destruct (mxl371x_hwmon_init K d3 _) as [[r4 d4] w4].
  cbn [fst snd] in Hh.
  injection Heq as _ <- _. rewrite Hh, Hc. congruence.
Qed.

(** [mxl371x_config_init] always returns. *)
Lemma config_init_total (phydev : phy_device) (w : world B) :
  exists ret phydev' w',
    mxl371x_config_init K phydev w = Some (ret, phydev', w').
Proof.
  unfold mxl371x_config_init.
  destruct (mxl371x_get_device_info phydev w) as [[r0 pd0] w0].
  destruct (r0 <? 0); [eauto |].
  destruct (mxl371x_check_firmware_running w0) as [running w1].
  set (warm := negb (running =? 0)). clearbody warm.
  match goal with
  | |- context [if warm then (?a, ?b) else (?c, ?d)] =>
      set (pw := if warm then (a, b) else (c, d)); clearbody pw
  end.
  destruct pw as [pd1 wa].
  destruct (load_firmware_total pd1 wa) as (rl & pdl & wl & ->).
  destruct (rl <? 0); [eauto |].
  destruct (mxl371x_set_default_guid K pdl wl) as [rg wg].
  cbv zeta.
  destruct (mxl371x_read_moca_status pdl _) as [pdm wm].
  destruct (mxl371x_config_sgmii pdm wm) as [[rs pds] ws].
  destruct (rs <? 0); [eauto |].
  destruct (sysfs_create_group K <? 0); [eauto |].
  destruct (mxl371x_hwmon_init K pds _) as [[rh pdh] wh].
  eauto.
Qed.

(** C8 (amended): who changes the firmware-loaded flag.  Of all functions
    of the driver, only four assign [fw_loaded]: the firmware loader and
    [mxl371x_config_init] (its own warm-boot detection, and the loader it
    calls), which only ever set it; [mxl371x_resume], which clears it; and
    [mxl371x_probe], which allocates the zeroed data.  Every other
    function that returns leaves it as it was.  Every function returns,
    but for the periodic poller when the flag is set and the stray word it
    takes for [attached_dev] is non-null: there it runs the readers on a
    pointer that is not the device, and has no defined behaviour; in all
    other cases the poller leaves the whole device data untouched. *)
Theorem fw_loaded_writers (f : driver_fn) (phydev phydev' : phy_device)
    (w w' : world B) :
  (run_fn K f phydev w = Some (phydev', w') ->
   (writes_fw_loaded f = false ->
      fw_loaded (priv phydev') = fw_loaded (priv phydev)) /\
   (f = FnLoadFirmware \/ f = FnConfigInit ->
      fw_loaded (priv phydev) = true -> fw_loaded (priv phydev') = true) /\
   (f = FnResume -> fw_loaded (priv phydev') = false) /\
   (f = FnProbe -> fw_loaded (priv phydev') = false \/ phydev' = phydev) /\
   (forall stray, f = FnStatsPollWork stray ->
      phydev' = phydev /\ w' = host_event w EvSchedulePoll /\
      (fw_loaded (priv phydev) = false \/ stray = false))) /\
  (run_fn K f phydev w = None <->
   f = FnStatsPollWork true /\ fw_loaded (priv phydev) = true).
Proof.
  split.
  - intros Hrun.
    split; [| split; [| split; [| split]]].
    + intros Hw. destruct f; try discriminate Hw; cbn [run_fn] in Hrun.
      all: try (injection Hrun as <- _; reflexivity).
      * injection Hrun as Hrun.
        rewrite <- (update_stats_fw_loaded phydev w), Hrun. reflexivity.
      * injection Hrun as Hrun.
        rewrite <- (read_moca_status_fw_loaded phydev w), Hrun. reflexivity.
      * apply stats_poll_work_idle in Hrun as (-> & _). reflexivity.
      * pose proof (hwmon_init_fw_loaded phydev w) as Hh.
        destruct (mxl371x_hwmon_init K phydev w) as [[r d] w1].
        injection Hrun as <- _. exact Hh.
      * pose proof (get_device_info_fw_loaded phydev w) as Hh.
        destruct (mxl371x_get_device_info phydev w) as [[r d] w1].
        injection Hrun as <- _. exact Hh.
      * pose proof (config_sgmii_priv phydev w) as Hh.
        destruct (mxl371x_config_sgmii phydev w) as [[r d] w1].
        injection Hrun as <- _. cbn [fst snd] in Hh. rewrite Hh. reflexivity.
      * pose proof (read_status_fw_loaded phydev w) as Hh.
        destruct (mxl371x_read_status phydev w) as [[r d] w1].
        injection Hrun as <- _. exact Hh.
      * unfold mxl371x_suspend in Hrun.
        destruct (lib_genphy_suspend _) as [r b].
        injection Hrun as <- _. reflexivity.
    + intros [-> | ->] Hl; cbn [run_fn] in Hrun.
      * destruct (mxl371x_load_firmware K phydev w) as [[[r d] w1] |] eqn:E;
          [| discriminate].
        injection Hrun as <- _. eapply load_firmware_keeps_flag; eassumption.
      * destruct (mxl371x_config_init K phydev w) as [[[r d] w1] |] eqn:E;
          [| discriminate].
        injection Hrun as <- _. eapply config_init_keeps_flag; eassumption.
    + intros ->. cbn [run_fn] in Hrun. unfold mxl371x_resume in Hrun.
      destruct (lib_genphy_resume _) as [r b].
      injection Hrun as <- _. reflexivity.
    + intros ->. cbn [run_fn] in Hrun. unfold mxl371x_probe in Hrun.
      destruct (devm_kzalloc_ok K); injection Hrun as <- _;
        [left; reflexivity | right; reflexivity].
    + intros stray ->. cbn [run_fn] in Hrun.
      apply stats_poll_work_idle in Hrun. exact Hrun.
  - split.
    + intros Hnone. destruct f; cbn [run_fn] in Hnone; try discriminate Hnone.
      * unfold mxl371x_stats_poll_work in Hnone.
        destruct (fw_loaded (priv phydev)), stray_attached_dev;
          cbn [andb] in Hnone; try discriminate Hnone.
        split; reflexivity.
      * destruct (mxl371x_hwmon_init K phydev w) as [[r d] w1].
        discriminate Hnone.
      * destruct (mxl371x_get_device_info phydev w) as [[r d] w1].
        discriminate Hnone.
      * destruct (load_firmware_total phydev w) as (r & d & w1 & E).
        rewrite E in Hnone. discriminate Hnone.
      * destruct (mxl371x_config_sgmii phydev w) as [[r d] w1].
        discriminate Hnone.
      * destruct (config_init_total phydev w) as (r & d & w1 & E).
        rewrite E in Hnone. discriminate Hnone.
      * destruct (mxl371x_read_status phydev w) as [[r d] w1].
        discriminate Hnone.
      * destruct (mxl371x_suspend phydev w) as [[r d] w1].
        discriminate Hnone.
      * destruct (mxl371x_resume phydev w) as [[r d] w1].
        discriminate Hnone.
    + intros [-> Hl]. cbn [run_fn]. unfold mxl371x_stats_poll_work.
      rewrite Hl. reflexivity.
Qed.

(** *** GUID resolver *)

(** Step 1 when the high register reads back non-zero: the existing value
    is kept, after the two reads and nothing else. *)
Lemma guid_kept_when_hi_nonzero (phydev : phy_device) (w w1 w2 : world B)
    (x y hi lo : Z) :
  mxl371x_read_mem32 w MOCA_MAC_ADDR_HI x = (0, hi, w1) -> hi <> 0 ->
  mxl371x_read_mem32 w1 MOCA_MAC_ADDR_LO y = (0, lo, w2) ->
  mxl371x_set_default_guid K phydev w
    = (0, dev_info w2 "Using existing MoCA GUID: %pM") /\
  exists evs, trace w2 = trace w ++ evs /\
    requests evs = rd32_xfer MOCA_MAC_ADDR_HI ++ rd32_xfer MOCA_MAC_ADDR_LO /\
    existsb is_random evs = false.
Proof.
  intros H1 Hhi H2.
  destruct (read_mem32_spec w MOCA_MAC_ADDR_HI x)
    as (r1 & v1 & w1' & e1 & Heq1 & Ht1 & _ & _ & Hb1 & Hc1).
  rewrite H1 in Heq1. injection Heq1 as <- <- <-.
  destruct Hc1 as [(_ & _ & Hq1 & _ & Hany1) | (Hneg & _)]; [| lia].
  destruct (read_mem32_spec w1 MOCA_MAC_ADDR_LO y)
    as (r2 & v2 & w2' & e2 & Heq2 & Ht2 & _ & _ & Hb2 & Hc2).
  rewrite H2 in Heq2. injection Heq2 as <- <- <-.
  destruct Hc2 as [(_ & _ & Hq2 & _ & Hany2) | (Hneg & _)]; [| lia].
  split.
  - unfold mxl371x_set_default_guid. rewrite (Hany1 0).
    apply Z.eqb_neq in Hhi. rewrite Hhi. cbn [Z.eqb negb andb orb].
    rewrite (Hany2 0). reflexivity.
  - exists (e1 ++ e2).
    split; [rewrite Ht2, Ht1, app_assoc; reflexivity |].
    rewrite requests_app, Hq1, Hq2. split; [reflexivity |].
    rewrite existsb_app.
    assert (Hnr : forall l, forallb is_bus_transfer l = true ->
                            existsb is_random l = false).
    { induction l as [| e l IH]; [reflexivity |]. cbn [forallb existsb].
      intros Hall. apply andb_true_iff in Hall as [He Hl].
      rewrite (IH Hl). destruct e; try discriminate; reflexivity. }
    rewrite (Hnr e1 Hb1), (Hnr e2 Hb2). reflexivity.
Qed.

End DriverProps.

(** C6: a GUID held in the low register alone is not kept.  The device
    holds GUID 00:00:00:00:00:01 (high register 0, low register
    0x00010000, which reads back non-zero); there is no device-tree address
    and no attached net device.  The resolver never reads the low register:
    it asks for random bytes and writes both registers, replacing the
    existing value. *)
Theorem guid_low_register_only_is_overwritten :
  let w := world0 (window_idle {[ MOCA_MAC_ADDR_LO := 0x00010000 ]}) in
  let K := host_with [] [0xaa; 0xbb; 0xcc] in
  fst (fst (mxl371x_read_mem32 w MOCA_MAC_ADDR_HI 0)) = 0 /\
  snd (fst (mxl371x_read_mem32 w MOCA_MAC_ADDR_HI 0)) = 0 /\
  fst (fst (mxl371x_read_mem32 w MOCA_MAC_ADDR_LO 0)) = 0 /\
  snd (fst (mxl371x_read_mem32 w MOCA_MAC_ADDR_LO 0)) = 0x00010000 /\
  fst (mxl371x_set_default_guid K phydev0 w) = 0 /\
  existsb is_random (trace (snd (mxl371x_set_default_guid K phydev0 w))) = true /\
  requests (trace (snd (mxl371x_set_default_guid K phydev0 w))) =
    rd32_xfer MOCA_MAC_ADDR_HI ++ [EvRandom 3] ++
    wr32_xfer MOCA_MAC_ADDR_HI 0x02243eaa ++
    wr32_xfer MOCA_MAC_ADDR_LO 0xbbcc0000 /\
  wd_mem (bus (snd (mxl371x_set_default_guid K phydev0 w))) !! MOCA_MAC_ADDR_LO
    = Some 0xbbcc0000.
Proof. vm_compute. repeat split; reflexivity. Qed.

(** C8 as stated fails: [mxl371x_resume] is not the firmware loader and
    clears the flag. *)
Lemma fw_loaded_resume_counterexample :
  ~ (forall (f : driver_fn) (phydev phydev' : phy_device)
            (w w' : world script_bus),
       is_load_firmware f = false ->
       run_fn (host_with [] []) f phydev w = Some (phydev', w') ->
       fw_loaded (priv phydev') = fw_loaded (priv phydev)).
Proof.
  intros Hclaim.
  specialize (Hclaim FnResume phydev_loaded
                (set_priv (set_fw_loaded false (priv phydev_loaded)) phydev_loaded)
                (world0 (ScriptBus [] []))
                (World (ScriptBus [] []) [EvSchedulePoll; EvGenphy "resume" 0] [])
                eq_refl eq_refl).
  discriminate Hclaim.
Qed.

(** Warm boot at initialization: [mxl371x_config_init] itself sets the flag
    (the loader it then calls returns at its first test and does not touch
    the bus: the status register is read once, by [config_init]). *)
Remark config_init_warm_boot_sets_flag :
  let w := world0 (window_idle {[ MXL371X_FW_STATUS_REG := 2 ]}) in
  match mxl371x_config_init (host_with [] [1; 2; 3]) phydev0 w with
  | Some (ret, phydev', w') =>
      ret = 0 /\ fw_loaded (priv phydev0) = false /\
      fw_loaded (priv phydev') = true /\
      List.filter (fun m => String.eqb (snd m) "Skipping firmware load (already running)")
                  (klog w') = [] /\
      List.filter (fun m => String.eqb (snd m) "Warm boot detected, skipping firmware load")
                  (klog w') = [(KInfo, "Warm boot detected, skipping firmware load"%string)]
  | None => False
  end.
Proof. vm_compute. repeat split; reflexivity. Qed.

(** A cold boot from end to end on the scripted bus: status not running,
    a 6-byte image, running on the 3rd poll. *)
Example load_firmware_cold_boot :
  let w := world0 (ScriptBus [] [0; 0; 0; 0; 0; 0; 0; 2]) in
  match mxl371x_load_firmware (host_with [1; 2; 3; 4; 5; 6] []) phydev0 w with
  | Some (ret, phydev', w') =>
      ret = 0 /\ fw_loaded (priv phydev') = true /\
      requests (trace w') =
        rd32_xfer MXL371X_FW_STATUS_REG ++ [EvRequestFw None 0] ++
        wr32_xfer SRE_CPU_SRC_SEL_CSR 0x8 ++ [EvMsleep 100] ++
        upload_xfers [1; 2; 3; 4; 5; 6] ++
        wr32_xfer SRE_CPU_SRC_SEL_CSR 0x0 ++ [EvMsleep 500] ++
        idle_poll_xfers 2 ++ rd32_xfer MXL371X_FW_STATUS_REG ++ [EvReleaseFw]
  | None => False
  end.
Proof. vm_compute. repeat split; reflexivity. Qed.

(** One failed read out of nine: the third status read fails at its first
    transfer; the other eight fields are updated, the third keeps its
    value, and the warning is logged. *)
Example read_moca_status_one_failure :
  let w := world0 (ScriptBus [0; 0; 0; 0; -5]
                     [0; 1; 0; 100; 0; 4; 0; 5; 0; 6; 0; 2; 0; 255; 0; 1]) in
  let p := set_moca_version 0x25 priv_zero in
  let r := mxl371x_read_moca_status (set_priv p phydev0) w in
  let p' := priv (fst r) in
  link_status p' = 1 /\ phy_rate p' = 100 /\ moca_version p' = 0x25 /\
  node_id p' = 4 /\ nc_node_id p' = 5 /\ lof p' = 6 /\
  network_state p' = 2 /\ active_nodes p' = 255 /\
  security_enabled p' = true /\
  klog (snd r) = [(KWarn, "Failed to read MoCA status"%string)] /\
  mem32_ops (trace (snd r)) = 9%nat.
Proof. vm_compute. repeat split; reflexivity. Qed.

(** ** Instances at concrete inputs *)

Lemma read_mem64_composition_witness :
  exists w2,
    mxl371x_read_mem64 (world0 (ScriptBus [] [1; 2; 3; 4])) MOCA_STATS_TX_TOTAL_PKTS 0
      = (0, 0x0003000400010002, w2).
Proof.
  pose (W := world0 (ScriptBus [] [1; 2; 3; 4])).
  let r := eval vm_compute in (mxl371x_read_mem32 W MOCA_STATS_TX_TOTAL_PKTS 0) in
  match r with (_, ?v, ?x) => pose (lo := v); pose (w1 := x) end.
  let r := eval vm_compute in
    (mxl371x_read_mem32 w1 (u32 (MOCA_STATS_TX_TOTAL_PKTS + 4)) 0) in
  match r with (_, ?v, ?x) => pose (hi := v); pose (w2 := x) end.
  destruct (read_mem64_composition W MOCA_STATS_TX_TOTAL_PKTS 0) as (Hc & _).
  destruct (Hc 0 0 lo w1 hi w2 ltac:(vm_compute; reflexivity)
              ltac:(vm_compute; reflexivity)) as (Heq & _).
  exists w2. exact Heq.
Defined.

Lemma transport_read_error_atomic_witness :
  snd (fst (mxl371x_read_mem32 (world0 (ScriptBus [] [-5])) MOCA_LINK_LOF_REG 77)) = 77 /\
  snd (fst (mxl371x_read_mem64 (world0 (ScriptBus [] [1; 2; -5])) MOCA_STATS_RX_TOTAL_PKTS 77)) = 77.
Proof.
  split.
  - set (W := world0 (ScriptBus [] [-5])).
    destruct (transport_read_error_atomic W MOCA_LINK_LOF_REG 77) as (H32 & _).
    destruct (mxl371x_read_mem32 W MOCA_LINK_LOF_REG 77) as [[r v] w'] eqn:E.
    destruct (H32 r v w' eq_refl) as [_ ->]; [| reflexivity].
    vm_compute in E. injection E as <- _ _. discriminate.
  - set (W := world0 (ScriptBus [] [1; 2; -5])).
    destruct (transport_read_error_atomic W MOCA_STATS_RX_TOTAL_PKTS 77) as (_ & H64).
    destruct (mxl371x_read_mem64 W MOCA_STATS_RX_TOTAL_PKTS 77) as [[r v] w'] eqn:E.
    destruct (H64 r v w' eq_refl) as [_ ->]; [| reflexivity].
    vm_compute in E. injection E as <- _ _. discriminate.
Defined.

Lemma loader_idempotent_witness :
  mxl371x_load_firmware (host_with [1; 2; 3; 4; 5; 6] []) phydev_loaded
      (world0 (ScriptBus [] []))
    = Some (0, phydev_loaded, world0 (ScriptBus [] [])).
Proof.
  apply (proj1 (loader_idempotent (host_with [1; 2; 3; 4; 5; 6] [])
                  phydev_loaded phydev_loaded
                  (world0 (ScriptBus [] [])) (world0 (ScriptBus [] [])))).
  reflexivity.
Defined.

Lemma fw_loaded_writers_witness :
  exists phydev' w',
    run_fn (host_with [] []) FnReadStatus phydev_loaded
      (world0 (ScriptBus [] [0; 1; 0; 600])) = Some (phydev', w') /\
    link_status (priv phydev') = 1 /\ phy_rate (priv phydev') = 600 /\
    fw_loaded (priv phydev') = fw_loaded (priv phydev_loaded).
Proof.
  pose (W := world0 (ScriptBus [] [0; 1; 0; 600])).
  let r := eval vm_compute in
    (run_fn (host_with [] []) FnReadStatus phydev_loaded W) in
  match r with Some (?d, ?x) => pose (pd := d); pose (w' := x) end.
  assert (Hrun : run_fn (host_with [] []) FnReadStatus phydev_loaded W
                 = Some (pd, w')) by (vm_compute; reflexivity).
  exists pd, w'.
  split; [exact Hrun |]. split; [reflexivity |]. split; [reflexivity |].
  exact (proj1 (proj1 (fw_loaded_writers (host_with [] []) FnReadStatus
                         phydev_loaded pd W w') Hrun) eq_refl).
Defined.

Lemma fw_ready_polling_witness :
  exists wr evs,
    mxl371x_load_firmware (host_with [1; 2; 3; 4; 5; 6] []) phydev0
      (world0 (ScriptBus [] [0; 0; 0; 0; 0; 0; 0; 2]))
    = Some (0, set_priv (set_fw_loaded true (priv phydev0)) phydev0,
            release_firmware (dev_info wr "Firmware started successfully")) /\
    requests evs = idle_poll_xfers 2 ++ rd32_xfer MXL371X_FW_STATUS_REG /\
    mem32_ops evs = 3%nat /\ slept_ms evs = 200.
Proof.
  pose (K := host_with [1; 2; 3; 4; 5; 6] []).
  pose (W := world0 (ScriptBus [] [0; 0; 0; 0; 0; 0; 0; 2])).
  let r := eval vm_compute in (mxl371x_check_firmware_running W) in
  match r with (_, ?x) => pose (w1 := x) end.
  let r := eval vm_compute in
    (mxl371x_write_mem32
       (dev_info (host_event (dev_info w1 "Loading firmware %s...")
                    (EvRequestFw (fw_name (priv phydev0)) 0))
          "Firmware size: %zu bytes") SRE_CPU_SRC_SEL_CSR 0x8) in
  match r with (?r, ?x) => pose (r1 := r); pose (w2 := x) end.
  let r := eval vm_compute in
    (fw_upload_loop 7 (dev_info (msleep w2 100) "Uploading firmware...")
       [1; 2; 3; 4; 5; 6] 0 r1) in
  match r with Some (_, ?r, ?x) => pose (r2 := r); pose (w3 := x) end.
  let r := eval vm_compute in
    (mxl371x_write_mem32 (dev_info w3 "Firmware upload complete (%zu bytes)")
       SRE_CPU_SRC_SEL_CSR 0x0) in
  match r with (?r, ?x) => pose (r3 := r); pose (w4 := x) end.
  pose (wp := msleep (dev_info w4 "Waiting for firmware to start...") 500).
  let r := eval vm_compute in (idle_polls 2 wp) in
  match r with Some ?x => pose (wi := x) end.
  let r := eval vm_compute in (mxl371x_read_mem32 wi MXL371X_FW_STATUS_REG 0) in
  match r with (_, ?s, ?x) => pose (st := s); pose (wr := x) end.
  pose proof (fw_ready_polling K phydev0 W w1 w2 w3 w4 [1; 2; 3; 4; 5; 6]
                r1 r2 r3) as Hthm.
  specialize (Hthm ltac:(reflexivity) ltac:(vm_compute; reflexivity)
                ltac:(reflexivity)
                ltac:(vm_compute; split; [reflexivity | discriminate])
                ltac:(vm_compute; reflexivity) ltac:(vm_compute; discriminate)
                ltac:(vm_compute; reflexivity) ltac:(vm_compute; reflexivity)
                ltac:(vm_compute; discriminate)).
  destruct Hthm as (_ & Hrun & _).
  destruct (Hrun 2%nat wi 0 st wr ltac:(lia) ltac:(vm_compute; reflexivity)
              ltac:(vm_compute; reflexivity) ltac:(vm_compute; discriminate))
    as (Heq & evs & _ & Hq & Hn & Hs).
  exists wr, evs.
  split; [exact Heq |]. split; [exact Hq |]. split; [exact Hn | exact Hs].
Defined.

Lemma fw_upload_chunking_witness :
  exists phydev' w' (w2 : world script_bus) evs tail,
    mxl371x_load_firmware (host_with [1; 2; 3; 4; 5; 6] []) phydev0
      (world0 (ScriptBus [] [0; 0; 0; 2])) = Some (0, phydev', w') /\
    trace w' = trace w2 ++ [EvMsleep 100] ++ evs ++ tail /\
    requests evs = wr32_xfer 0 0x04030201 ++ wr32_xfer 4 0x00000605 /\
    mem32_ops evs = 2%nat.
Proof.
  pose (K := host_with [1; 2; 3; 4; 5; 6] []).
  pose (W := world0 (ScriptBus [] [0; 0; 0; 2])).
  let r := eval vm_compute in (mxl371x_check_firmware_running W) in
  match r with (_, ?x) => pose (w1 := x) end.
  let r := eval vm_compute in
    (mxl371x_write_mem32
       (dev_info (host_event (dev_info w1 "Loading firmware %s...")
                    (EvRequestFw (fw_name (priv phydev0)) 0))
          "Firmware size: %zu bytes") SRE_CPU_SRC_SEL_CSR 0x8) in
  match r with (?r, ?x) => pose (r1 := r); pose (w2 := x) end.
  pose proof (fw_upload_chunking K phydev0 W w1 w2 [1; 2; 3; 4; 5; 6] r1)
    as Hthm.
  specialize (Hthm ltac:(reflexivity) ltac:(vm_compute; reflexivity)
                ltac:(reflexivity)
                ltac:(vm_compute; split; [reflexivity | discriminate])
                ltac:(vm_compute; reflexivity)
                ltac:(vm_compute; reflexivity) ltac:(vm_compute; discriminate)).
  destruct Hthm as ((ret & pd & w' & evs & tail & Heq & Ht & _ & Hc) & _).
  assert (Hret : ret = 0).
  { assert (E : fst (fst (default (1, phydev0, W)
                            (mxl371x_load_firmware K phydev0 W))) = 0)
      by (vm_compute; reflexivity).
    rewrite Heq in E. exact E. }
  subst ret.
  destruct Hc as [(_ & Hneg & _) | (_ & Hq & Hn & _)]; [lia |].
  exists pd, w', w2, evs, tail.
  split; [exact Heq |]. split; [exact Ht |].
  split; [rewrite Hq; vm_compute; reflexivity |].
  rewrite Hn. vm_compute. reflexivity.
Defined.

(** * Further properties of the driver

    ** Transport, transfer by transfer *)

Section TransportExtra.
Context {B : Type} `{MdioBus B}.

(** X1 (32-bit read, transfer by transfer): a read issues the four
    transfers of [rd32_xfer] in order and stops at the first one that
    fails: only the last transfer made can have failed, a negative return
    value is the code of that transfer, and a return of 0 means all four
    were made and the value is the high half (first read) times 2^16 plus
    the low half (second read), each taken as 16 bits. *)
Theorem read_mem32_stops_at_first_failure (w : world B) (addr val : Z) :
  exists ret v w' evs,
    mxl371x_read_mem32 w addr val = (ret, v, w') /\
    trace w' = trace w ++ evs /\
    (1 <= length evs <= 4)%nat /\
    requests evs = firstn (length evs) (rd32_xfer addr) /\
    existsb ev_failed (List.removelast evs) = false /\
    (ret < 0 -> ret = ev_ret (List.last evs EvReleaseFw) /\
                ev_failed (List.last evs EvReleaseFw) = true) /\
    (ret = 0 -> exists a1 a2 r1 r2 hi lo,
        evs = [EvWrite MXL371X_MDIO_ADDR_REG a1 r1;
               EvWrite (MXL371X_MDIO_ADDR_REG + 1) a2 r2;
               EvRead MXL371X_MDIO_DATA_REG hi;
               EvRead (MXL371X_MDIO_DATA_REG + 1) lo] /\
        v = (hi mod 2 ^ 16) * 2 ^ 16 + lo mod 2 ^ 16) /\
    (ret = 0 \/ ret < 0).
Proof.
  unfold mxl371x_read_mem32, phy_write, phy_read.
  bus_step. split_neg r E1.
  { eexists _, _, _, _. split; [reflexivity |]. cbn [bus trace klog].
    split; [reflexivity |]. cbn [length firstn List.removelast existsb List.last ev_ret ev_failed].
    split; [lia |]. split; [reflexivity |]. split; [reflexivity |].
    split; [intros _; split; [reflexivity | apply Z.ltb_lt; assumption] |].
    split; [lia | right; assumption]. }
  apply Z.ltb_ge in E1 as E1'.
  bus_step. split_neg r0 E2.
  { eexists _, _, _, _. split; [reflexivity |]. cbn [bus trace klog].
    rewrite <- app_assoc.
    split; [reflexivity |]. cbn [app length firstn List.removelast existsb List.last ev_ret ev_failed].
    rewrite E1'.
    split; [lia |]. split; [reflexivity |]. split; [reflexivity |].
    split; [intros _; split; [reflexivity | apply Z.ltb_lt; assumption] |].
    split; [lia | right; assumption]. }
  apply Z.ltb_ge in E2 as E2'.
  bus_step. split_neg r1 E3.
  { eexists _, _, _, _. split; [reflexivity |]. cbn [bus trace klog].
    rewrite <- !app_assoc.
    split; [reflexivity |]. cbn [app length firstn List.removelast existsb List.last ev_ret ev_failed].
    rewrite E1', E2'.
    split; [lia |]. split; [reflexivity |]. split; [reflexivity |].
    split; [intros _; split; [reflexivity | apply Z.ltb_lt; assumption] |].
    split; [lia | right; assumption]. }
  apply Z.ltb_ge in E3 as E3'.
  bus_step. split_neg r2 E4.
  { eexists _, _, _, _. split; [reflexivity |]. cbn [bus trace klog].
    rewrite <- !app_assoc.
    split; [reflexivity |]. cbn [app length firstn List.removelast existsb List.last ev_ret ev_failed].
    rewrite E1', E2', E3'.
    split; [lia |]. split; [reflexivity |]. split; [reflexivity |].
    split; [intros _; split; [reflexivity | apply Z.ltb_lt; assumption] |].
    split; [lia | right; assumption]. }
  apply Z.ltb_ge in E4 as E4'.
  eexists _, _, _, _. split; [reflexivity |]. cbn [bus trace klog].
  rewrite <- !app_assoc.
  split; [reflexivity |]. cbn [app length firstn List.removelast existsb List.last ev_ret ev_failed].
  rewrite E1', E2', E3'.
  split; [lia |]. split; [reflexivity |]. split; [reflexivity |].
  split; [lia |].
  split; [| left; reflexivity].
  intros _. eexists _, _, _, _, _, _. split; [reflexivity |].
  apply join_halves; apply u16_range.
Qed.

(** X2 (32-bit write, transfer by transfer): a write issues the four
    transfers of [wr32_xfer] in order and stops at the first one that
    fails; its return value is the return code of the last transfer it
    made, so a non-negative return means all four were made. *)
Theorem write_mem32_stops_at_first_failure (w : world B) (addr val : Z) :
  exists ret w' evs,
    mxl371x_write_mem32 w addr val = (ret, w') /\
    trace w' = trace w ++ evs /\ klog w' = klog w /\
    (1 <= length evs <= 4)%nat /\
    requests evs = firstn (length evs) (wr32_xfer addr val) /\
    existsb ev_failed (List.removelast evs) = false /\
    ret = ev_ret (List.last evs EvReleaseFw) /\
    (0 <= ret -> length evs = 4%nat).
Proof.
  unfold mxl371x_write_mem32, phy_write.
  bus_step. split_neg r E1.
  { eexists _, _, _. split; [reflexivity |]. cbn [bus trace klog].
    split; [reflexivity |]. split; [reflexivity |].
    cbn [length firstn List.removelast existsb List.last ev_ret ev_failed].
    repeat split; try reflexivity; lia. }
  apply Z.ltb_ge in E1 as E1'.
  bus_step. split_neg r0 E2.
  { eexists _, _, _. split; [reflexivity |]. cbn [bus trace klog].
    rewrite <- app_assoc.
    split; [reflexivity |]. split; [reflexivity |].
    cbn [app length firstn List.removelast existsb List.last ev_ret ev_failed].
    rewrite E1'. repeat split; try reflexivity; lia. }
  apply Z.ltb_ge in E2 as E2'.
  bus_step. split_neg r1 E3.
  { eexists _, _, _. split; [reflexivity |]. cbn [bus trace klog].
    rewrite <- !app_assoc.
    split; [reflexivity |]. split; [reflexivity |].
    cbn [app length firstn List.removelast existsb List.last ev_ret ev_failed].
    rewrite E1', E2'. repeat split; try reflexivity; lia. }
  apply Z.ltb_ge in E3 as E3'.
  bus_step.
  eexists _, _, _. split; [reflexivity |]. cbn [bus trace klog].
  rewrite <- !app_assoc.
  split; [reflexivity |]. split; [reflexivity |].
  cbn [app length firstn List.removelast existsb List.last ev_ret ev_failed].
  rewrite E1', E2', E3'. repeat split; try reflexivity; lia.
Qed.

End TransportExtra.

(** ** Temperature sampling and hwmon *)

(** Collect the trace and the failure flags of a chain of accesses, and
    step over the next write or read of the chain. *)
Ltac chain_trace :=
  repeat match goal with
  | Ht : trace ?x = _ |- context [trace ?x] => rewrite Ht; clear Ht
  | |- context [trace (usleep_range ?x ?lo ?hi)] =>
      change (trace (usleep_range x lo hi)) with (trace x ++ [EvUsleep lo hi])
  end;
  rewrite <- ?app_assoc.

Ltac chain_failed :=
  rewrite ?existsb_app;
  repeat match goal with
  | Hf : existsb ev_failed ?e = _ |- context [existsb ev_failed ?e] =>
      rewrite Hf; clear Hf
  end;
  cbn [existsb ev_failed orb]; rewrite ?orb_true_r; try reflexivity.

Ltac wr32_go :=
  match goal with
  | |- context [mxl371x_write_mem32 ?w ?a ?v] =>
      let r := fresh "r" in let w' := fresh "w" in let e := fresh "e" in
      let Ht := fresh "Ht" in let Hr := fresh "Hr" in let Hq := fresh "Hq" in
      let Hf := fresh "Hf" in
      destruct (write_mem32_spec w a v)
        as (r & w' & e & -> & Ht & _ & _ & _ & [(Hr & Hq & Hf) | (Hr & Hf)]);
      [ (assert ((r <? 0) = false) as -> by (apply Z.ltb_ge; lia)); clear Hr
      | (assert ((r <? 0) = true) as -> by (apply Z.ltb_lt; lia)) ]
  end.

Ltac rd32_go old :=
  match goal with
  | |- context [mxl371x_read_mem32 ?w ?a old] =>
      let r := fresh "r" in let v := fresh "v" in let w' := fresh "w" in
      let e := fresh "e" in
      let Ht := fresh "Ht" in let Hr := fresh "Hr" in let Hq := fresh "Hq" in
      let Hf := fresh "Hf" in let Hv := fresh "Hv" in
      destruct (read_mem32_spec w a old)
        as (r & v & w' & e & -> & Ht & _ & _ & _ &
            [(-> & Hv & Hq & Hf & _) | (Hr & -> & Hf & _)]);
      [ change (0 <? 0) with false
      | (assert ((r <? 0) = true) as -> by (apply Z.ltb_lt; lia)) ]
  end.

(** Leave through an error exit of [mxl371x_read_temp_raw]. *)
Ltac fail_out :=
    eexists _, _, _, _, _; split; [reflexivity |];
    split; [chain_trace; reflexivity |];
    right; split; [assumption |]; split; [chain_failed | reflexivity].

Section TempExtra.
Context {B : Type} `{MdioBus B}.

(** The sampling sequence: success after the complete sequence
    [temp_xfers] with two 32-bit samples, or the error of the first failed
    access. *)
Lemma read_temp_raw_spec (w : world B) (t0 t1 : Z) :
  exists ret t0' t1' w' evs,
    mxl371x_read_temp_raw w t0 t1 = (ret, t0', t1', w') /\
    trace w' = trace w ++ evs /\
    ((ret = 0 /\ requests evs = temp_xfers /\ existsb ev_failed evs = false /\
      0 <= t0' < 2 ^ 32 /\ 0 <= t1' < 2 ^ 32)
     \/
     (ret < 0 /\ existsb ev_failed evs = true /\ t1' = t1)).
Proof.
  unfold mxl371x_read_temp_raw.
  wr32_go; [| fail_out].
  wr32_go; [| fail_out].
  wr32_go; [| fail_out].
  wr32_go; [| fail_out].
  rd32_go t0; [| fail_out].
  wr32_go; [| fail_out].
  wr32_go; [| fail_out].
  wr32_go; [| fail_out].
  wr32_go; [| fail_out].
  rd32_go t1; [| fail_out].
  eexists _, _, _, _, _; split; [reflexivity |].
  split; [chain_trace; reflexivity |].
  left. split; [reflexivity |].
  split.
  { rewrite !requests_app.
    repeat match goal with Hq : requests _ = _ |- _ => rewrite Hq; clear Hq end.
    reflexivity. }
  split; [chain_failed |].
  split; assumption.
Qed.

(** An [int] is an [int]. *)
Lemma s32_range (x : Z) : - 2 ^ 31 <= s32 x < 2 ^ 31.
Proof.
  unfold s32. pose proof (Z.mod_pos_bound (x + 2 ^ 31) (2 ^ 32) ltac:(lia)). lia.
Qed.

(** The result of the calibration fits an [int]. *)
Lemma calc_temp_int_range (t0 t1 : Z) :
  - 2 ^ 31 <= mxl371x_calc_temp t0 t1 < 2 ^ 31.
Proof.
  unfold mxl371x_calc_temp. destruct (t1 <? t0).
  - unfold EINVAL. lia.
  - apply s32_range.
Qed.

(** X3 (hwmon read): [mxl371x_hwmon_read] returns -EOPNOTSUPP without
    touching the bus for everything but the temperature input.  For the
    temperature input it returns 0 only after the complete sampling
    sequence [temp_xfers] with no failed transfer, and then the value is an
    [int] different from -EINVAL; on every other outcome the return value
    is negative and the output is left as it was. *)
Theorem hwmon_read_outcomes (w : world B) (type : hwmon_sensor_types)
    (attr : hwmon_temp_attributes) (val : Z) :
  exists ret v w' evs,
    mxl371x_hwmon_read w type attr val = (ret, v, w') /\
    trace w' = trace w ++ evs /\
    (ret = 0 \/ ret < 0) /\
    (ret <> 0 -> v = val) /\
    (ret = 0 ->
       type = hwmon_temp /\ attr = hwmon_temp_input /\
       requests evs = temp_xfers /\ existsb ev_failed evs = false /\
       - 2 ^ 31 <= v < 2 ^ 31 /\ v <> - EINVAL) /\
    (type <> hwmon_temp \/ attr <> hwmon_temp_input ->
       ret = - EOPNOTSUPP /\ w' = w).
Proof.
  unfold mxl371x_hwmon_read.
  assert (Hns : type <> hwmon_temp \/ attr <> hwmon_temp_input ->
            exists ret v w' evs,
            (- EOPNOTSUPP, val, w) = (ret, v, w') /\
            trace w' = trace w ++ evs /\
            (ret = 0 \/ ret < 0) /\ (ret <> 0 -> v = val) /\
            (ret = 0 ->
               type = hwmon_temp /\ attr = hwmon_temp_input /\
               requests evs = temp_xfers /\ existsb ev_failed evs = false /\
               - 2 ^ 31 <= v < 2 ^ 31 /\ v <> - EINVAL) /\
            (type <> hwmon_temp \/ attr <> hwmon_temp_input ->
               ret = - EOPNOTSUPP /\ w' = w)).
  { intros _. exists (- EOPNOTSUPP), val, w, []. rewrite app_nil_r.
    unfold EOPNOTSUPP.
    split; [reflexivity |]. split; [reflexivity |].
    split; [right; lia |]. split; [reflexivity |].
    split; [lia |]. intros _. split; reflexivity. }
  destruct type; try (apply Hns; left; discriminate).
  destruct attr; try (apply Hns; right; discriminate).
  clear Hns.
  destruct (read_temp_raw_spec w 0 0)
    as (ret & t0' & t1' & w' & evs & -> & Ht & Hc).
  destruct Hc as [(-> & Hq & Hf & _ & _) | (Hneg & Hf & _)].
  - change (0 <? 0) with false. cbv iota.
    destruct (Z.eqb_spec (mxl371x_calc_temp t0' t1') (- EINVAL)) as [E | E].
    + exists (- EINVAL), val, w', evs. unfold EINVAL.
      split; [reflexivity |]. split; [assumption |].
      split; [right; lia |]. split; [reflexivity |].
      split; [lia |]. intros [? | ?]; congruence.
    + exists 0, (mxl371x_calc_temp t0' t1'), w', evs.
      pose proof (calc_temp_int_range t0' t1').
      split; [reflexivity |]. split; [assumption |].
      split; [left; reflexivity |]. split; [congruence |].
      split; [| intros [? | ?]; congruence].
      intros _. repeat split; try assumption; lia.
  - assert ((ret <? 0) = true) as -> by (apply Z.ltb_lt; lia).
    exists ret, val, w', evs.
    split; [reflexivity |]. split; [assumption |].
    split; [right; assumption |]. split; [reflexivity |].
    split; [lia |]. intros [? | ?]; congruence.
Qed.

End TempExtra.

(** X4 (calibration within the sensor span): for samples whose difference
    is at most [MXL371X_TSENS_RSSI_MAX] the computed temperature lies between
    -COEFF_B and COEFF_A - COEFF_B millidegrees, grows with the second
    sample, and depends on the two samples only through their
    difference. *)
Theorem calc_temp_sensor_span (t0 t1 t1' : Z) :
  0 <= t0 -> t0 <= t1 -> t1 <= t1' -> t1' < 2 ^ 32 ->
  t1' - t0 <= MXL371X_TSENS_RSSI_MAX ->
  - MXL371X_TSENS_COEFF_B <= mxl371x_calc_temp t0 t1 /\
  mxl371x_calc_temp t0 t1 <= mxl371x_calc_temp t0 t1' /\
  mxl371x_calc_temp t0 t1' <= MXL371X_TSENS_COEFF_A - MXL371X_TSENS_COEFF_B /\
  mxl371x_calc_temp t0 t1 = mxl371x_calc_temp 0 (t1 - t0).
Proof.
  unfold MXL371X_TSENS_RSSI_MAX, MXL371X_TSENS_COEFF_A, MXL371X_TSENS_COEFF_B.
  intros H0 H1 H2 H3 Hs.
  rewrite (calc_temp_formula t0 t1), (calc_temp_formula t0 t1'),
    (calc_temp_formula 0 (t1 - t0)) by lia.
  rewrite !s32_small
    by (apply temp_formula_fits; unfold TEMP_DELTA_MAX; lia).
  unfold temp_formula. rewrite Z.sub_0_r.
  assert (0 <= (t1 - t0) * 1338680 / 524288) by (apply Z.div_pos; lia).
  assert ((t1 - t0) * 1338680 / 524288 <= (t1' - t0) * 1338680 / 524288)
    by (apply Z.div_le_mono; lia).
  assert ((t1' - t0) * 1338680 / 524288 <= 524288 * 1338680 / 524288)
    by (apply Z.div_le_mono; lia).
  change (524288 * 1338680 / 524288) with 1338680 in *.
  lia.
Qed.

(** ** Firmware loader: warm boot, unusable images, the flag *)

Section LoaderExtra.
Context {B : Type} `{MdioBus B}.
Variable K : host.

(** X5 (loader, warm boot): with the flag clear, if the status register
    reads back with the running bit set the loader returns 0 and sets the
    flag after that single read: no firmware is requested and nothing is
    written. *)
Theorem load_firmware_warm_boot (phydev : phy_device) (w w1 : world B)
    (x st : Z) :
  fw_loaded (priv phydev) = false ->
  mxl371x_read_mem32 w MXL371X_FW_STATUS_REG x = (0, st, w1) ->
  Z.land st MXL371X_FW_RUNNING <> 0 ->
  exists w', 
    mxl371x_load_firmware K phydev w
      = Some (0, set_priv (set_fw_loaded true (priv phydev)) phydev, w') /\
    bus w' = bus w1 /\ trace w' = trace w1 /\
    exists evs, trace w' = trace w ++ evs /\
      requests evs = rd32_xfer MXL371X_FW_STATUS_REG.
Proof.
  intros Hl Hread Hrun.
  destruct (read_mem32_spec w MXL371X_FW_STATUS_REG x)
    as (r & v & w1' & e1 & Heq & Ht1 & _ & _ & _ & Hc).
  rewrite Hread in Heq. injection Heq as <- <- <-.
  destruct Hc as [(_ & _ & Hq & _ & Hany) | (Hneg & _)]; [| lia].
  unfold mxl371x_load_firmware, mxl371x_check_firmware_running.
  rewrite Hl, (Hany 0). change (0 <? 0) with false. cbv iota.
  apply Z.eqb_neq in Hrun. rewrite Hrun. cbn [negb Z.eqb].
  eexists. split; [reflexivity |].
  split; [reflexivity |]. split; [reflexivity |].
  exists e1. split; [exact Ht1 | exact Hq].
Qed.

(** X6 (loader, unusable image): on a cold boot, a failing
    [request_firmware] makes the loader return its code with no further
    event; an image that is empty or larger than 4 MiB makes it return
    -EINVAL after releasing the image, before any write to the device.  The
    device data is unchanged in both cases. *)
Theorem load_firmware_rejects_image (phydev : phy_device) (w w1 : world B)
    (ret : Z) (fw : list Z) :
  fw_loaded (priv phydev) = false ->
  mxl371x_check_firmware_running w = (0, w1) ->
  request_firmware K (fw_name (priv phydev)) = (ret, fw) ->
  (ret <> 0 ->
     exists w', mxl371x_load_firmware K phydev w = Some (ret, phydev, w') /\
       bus w' = bus w1 /\
       trace w' = trace w1 ++ [EvRequestFw (fw_name (priv phydev)) ret]) /\
  (ret = 0 ->
   length fw = 0%nat \/ MXL371X_MAX_FW_SIZE < Z.of_nat (length fw) ->
     exists w', mxl371x_load_firmware K phydev w = Some (- EINVAL, phydev, w') /\
       bus w' = bus w1 /\
       trace w' = trace w1 ++
         [EvRequestFw (fw_name (priv phydev)) 0; EvReleaseFw]).
Proof.
  intros Hl Hchk Hreq. unfold mxl371x_load_firmware.
  rewrite Hl, Hchk, Hreq. cbn [Z.eqb negb].
  split.
  - intros Hret. apply Z.eqb_neq in Hret. rewrite Hret. cbn [negb].
    eexists. split; [reflexivity |]. split; reflexivity.
  - intros -> Hsize. cbn [Z.eqb negb].
    assert (((Z.of_nat (length fw) =? 0)
             || (Z.of_nat (length fw) >? MXL371X_MAX_FW_SIZE)) = true) as ->.
    { destruct Hsize as [-> | Hbig]; [reflexivity |].
      apply orb_true_iff. right. rewrite Z.gtb_ltb. apply Z.ltb_lt. exact Hbig. }
    eexists. split; [reflexivity |].
    split; [reflexivity |]. cbn [trace release_firmware host_event dev_err dev_log dev_info].
    rewrite <- app_assoc. reflexivity.
Qed.

(** The three ways the loader ends: nothing to do, flag newly set, or an
    error that leaves the device data alone. *)
Lemma load_firmware_cases (phydev phydev' : phy_device) (w w' : world B)
    (ret : Z) :
  mxl371x_load_firmware K phydev w = Some (ret, phydev', w') ->
  (ret = 0 /\ phydev' = phydev /\ fw_loaded (priv phydev) = true) \/
  (ret = 0 /\ fw_loaded (priv phydev) = false /\
   phydev' = set_priv (set_fw_loaded true (priv phydev)) phydev) \/
  (ret <> 0 /\ fw_loaded (priv phydev) = false /\ phydev' = phydev /\
   (ret < 0 \/ ret = fst (request_firmware K (fw_name (priv phydev))))).
Proof.
  unfold mxl371x_load_firmware.
  destruct (fw_loaded (priv phydev)) eqn:Eloaded.
  { intros Heq. injection Heq as <- <- <-. left. auto. }
  assert (Hsame : forall r wx, Some (r, phydev, wx) = Some (ret, phydev', w') ->
            r <> 0 ->
            r < 0 \/ r = fst (request_firmware K (fw_name (priv phydev))) ->
            (ret = 0 /\ phydev' = phydev /\ false = true) \/
            (ret = 0 /\ false = false /\
             phydev' = set_priv (set_fw_loaded true (priv phydev)) phydev) \/
            (ret <> 0 /\ false = false /\ phydev' = phydev /\
             (ret < 0 \/
              ret = fst (request_firmware K (fw_name (priv phydev)))))).
  { intros r wx Heq Hr Hc. injection Heq as <- <- <-. right. right. auto. }
  assert (Hset : forall wx,
            Some (0, set_priv (set_fw_loaded true (priv phydev)) phydev, wx)
              = Some (ret, phydev', w') ->
            (ret = 0 /\ phydev' = phydev /\ false = true) \/
            (ret = 0 /\ false = false /\
             phydev' = set_priv (set_fw_loaded true (priv phydev)) phydev) \/
            (ret <> 0 /\ false = false /\ phydev' = phydev /\
             (ret < 0 \/
              ret = fst (request_firmware K (fw_name (priv phydev)))))).
  { intros wx Heq. injection Heq as <- <- <-. right. left. auto. }
  destruct (mxl371x_check_firmware_running w) as [running w1].
  destruct (negb (running =? 0)); [apply Hset |].
  destruct (request_firmware K _) as [r0 fw] eqn:Ereq.
  destruct (Z.eqb_spec r0 0) as [-> | Hr0]; cbn [negb];
    [| intros Heq; eapply Hsame; [eassumption | assumption | right; reflexivity]].
  destruct (_ || _).
  { intros Heq; eapply Hsame;
      [eassumption | unfold EINVAL; lia | left; unfold EINVAL; lia]. }
  destruct (mxl371x_write_mem32 _ SRE_CPU_SRC_SEL_CSR 8) as [r1 w2].
  destruct (Z.ltb_spec r1 0).
  { intros Heq; eapply Hsame; [eassumption | lia | left; lia]. }
  destruct (fw_upload_loop _ _ fw 0 r1) as [[[ab r2] w3] |] eqn:Eup;
    [| discriminate].
  destruct ab.
  { apply fw_upload_loop_abort in Eup.
    intros Heq; eapply Hsame; [eassumption | lia | left; lia]. }
  destruct (mxl371x_write_mem32 _ SRE_CPU_SRC_SEL_CSR 0) as [r3 w4].
  destruct (Z.ltb_spec r3 0).
  { intros Heq; eapply Hsame; [eassumption | lia | left; lia]. }
  match goal with
  | |- context [fw_poll_loop 50 phydev ?x 0] =>
      destruct (fw_poll_loop_bound 50 phydev x 0)
        as (r4 & d4 & w5 & evs & -> & _ & _ & Hc)
  end.
  destruct Hc as [(-> & ->) | (Hneg & ->)].
  - apply Hset.
  - intros Heq; eapply Hsame; [eassumption | lia | left; lia].
Qed.

(** X7 (loader, result and flag): whatever the loader returns, the device
    data is either unchanged or differs by the flag being set; it is
    unchanged whenever the return value is not 0; and starting with the flag
    clear, the flag is set afterwards exactly when the return value is 0. *)
Theorem load_firmware_result (phydev phydev' : phy_device) (w w' : world B)
    (ret : Z) :
  mxl371x_load_firmware K phydev w = Some (ret, phydev', w') ->
  (ret <> 0 -> phydev' = phydev) /\
  (phydev' = phydev \/
   phydev' = set_priv (set_fw_loaded true (priv phydev)) phydev) /\
  (fw_loaded (priv phydev) = false ->
     (fw_loaded (priv phydev') = true <-> ret = 0)).
Proof.
  intros Heq.
  destruct (load_firmware_cases _ _ _ _ _ Heq)
    as [(-> & -> & Hl) | [(-> & Hl & ->) | (Hr & Hl & -> & _)]].
  - split; [reflexivity |]. split; [left; reflexivity |]. congruence.
  - split; [congruence |]. split; [right; reflexivity |].
    intros _. split; reflexivity.
  - split; [reflexivity |]. split; [left; reflexivity |].
    intros _. rewrite Hl. split; [discriminate | contradiction].
Qed.

End LoaderExtra.

(** ** GUID registers *)

(** The low byte. *)
Lemma land_ff (x : Z) : Z.land x 0xff = x mod 2 ^ 8.
Proof. change 0xff with (Z.ones 8). apply Z.land_ones. lia. Qed.

(** A list of six bytes, spelled out. *)
Lemma six_bytes (mac : list Z) :
  length mac = 6%nat -> is_bytes mac ->
  exists b0 b1 b2 b3 b4 b5,
    mac = [b0; b1; b2; b3; b4; b5] /\
    0 <= b0 < 256 /\ 0 <= b1 < 256 /\ 0 <= b2 < 256 /\
    0 <= b3 < 256 /\ 0 <= b4 < 256 /\ 0 <= b5 < 256.
Proof.
  intros Hlen Hb.
  destruct mac as [| b0 [| b1 [| b2 [| b3 [| b4 [| b5 [| ? ?]]]]]]];
    try discriminate Hlen.
  exists b0, b1, b2, b3, b4, b5. split; [reflexivity |].
  pose proof (is_bytes_nth _ 0 Hb). pose proof (is_bytes_nth _ 1 Hb).
  pose proof (is_bytes_nth _ 2 Hb). pose proof (is_bytes_nth _ 3 Hb).
  pose proof (is_bytes_nth _ 4 Hb). pose proof (is_bytes_nth _ 5 Hb).
  cbn [nth] in *. repeat split; lia.
Qed.

(** [lor_shiftl_low] with the shift written as a product. *)
Lemma lor_mul_low (a b n : Z) :
  0 <= n -> 0 <= b < 2 ^ n -> Z.lor (a * 2 ^ n) b = a * 2 ^ n + b.
Proof.
  intros Hn Hb. rewrite <- (lor_shiftl_low a b n Hn Hb).
  rewrite Z.shiftl_mul_pow2 by lia. reflexivity.
Qed.

(** The two GUID registers as sums, for bytes. *)
Lemma guid_hi_sum (b0 b1 b2 b3 b4 b5 : Z) :
  0 <= b0 < 256 -> 0 <= b1 < 256 -> 0 <= b2 < 256 -> 0 <= b3 < 256 ->
  guid_hi [b0; b1; b2; b3; b4; b5]
    = b0 * 16777216 + b1 * 65536 + b2 * 256 + b3.
Proof.
  intros H0 H1 H2 H3. unfold guid_hi, mac_byte. cbn [nth].
  rewrite !Z.shiftl_mul_pow2 by lia.
  assert (E1 : Z.lor (b0 * 2 ^ 24) (b1 * 2 ^ 16) = b0 * 16777216 + b1 * 65536).
  { rewrite lor_mul_low;
      change (2 ^ 24) with 16777216; change (2 ^ 16) with 65536; lia. }
  rewrite E1.
  assert (E2 : Z.lor (b0 * 16777216 + b1 * 65536) (b2 * 2 ^ 8)
               = b0 * 16777216 + b1 * 65536 + b2 * 256).
  { replace (b0 * 16777216 + b1 * 65536) with ((b0 * 256 + b1) * 2 ^ 16)
      by (change (2 ^ 16) with 65536; lia).
    rewrite lor_mul_low;
      change (2 ^ 16) with 65536; change (2 ^ 8) with 256; lia. }
  rewrite E2.
  assert (E3 : Z.lor (b0 * 16777216 + b1 * 65536 + b2 * 256) b3
               = b0 * 16777216 + b1 * 65536 + b2 * 256 + b3).
  { replace (b0 * 16777216 + b1 * 65536 + b2 * 256)
      with ((b0 * 65536 + b1 * 256 + b2) * 2 ^ 8)
      by (change (2 ^ 8) with 256; lia).
    rewrite lor_mul_low; change (2 ^ 8) with 256; lia. }
  rewrite E3.
  apply u32_small. change (2 ^ 32) with 4294967296. lia.
Qed.

Lemma guid_lo_sum (b0 b1 b2 b3 b4 b5 : Z) :
  0 <= b4 < 256 -> 0 <= b5 < 256 ->
  guid_lo [b0; b1; b2; b3; b4; b5] = b4 * 16777216 + b5 * 65536.
Proof.
  intros H4 H5. unfold guid_lo, mac_byte. cbn [nth].
  rewrite !Z.shiftl_mul_pow2 by lia.
  assert (E1 : Z.lor (b4 * 2 ^ 24) (b5 * 2 ^ 16) = b4 * 16777216 + b5 * 65536).
  { rewrite lor_mul_low;
      change (2 ^ 24) with 16777216; change (2 ^ 16) with 65536; lia. }
  rewrite E1. apply u32_small. change (2 ^ 32) with 4294967296. lia.
Qed.

(** Unpacking undoes packing. *)
Lemma guid_bytes_inverse (mac : list Z) :
  length mac = 6%nat -> is_bytes mac ->
  guid_bytes (guid_hi mac) (guid_lo mac) = mac.
Proof.
  intros Hlen Hb.
  destruct (six_bytes mac Hlen Hb)
    as (b0 & b1 & b2 & b3 & b4 & b5 & -> & H0 & H1 & H2 & H3 & H4 & H5).
  rewrite guid_hi_sum, guid_lo_sum by assumption.
  unfold guid_bytes. rewrite !land_ff, !Z.shiftr_div_pow2 by lia.
  change (2 ^ 24) with 16777216. change (2 ^ 16) with 65536.
  change (2 ^ 8) with 256. change (2 ^ 0) with 1.
  f_equal; [| f_equal; [| f_equal; [| f_equal; [| f_equal; [| f_equal]]]]];
    Z.div_mod_to_equations; lia.
Qed.

(** X8 (GUID registers): packing six bytes into the two GUID registers
    and unpacking them gives the six bytes back; both register values are
    32-bit, the low 16 bits of the low register are 0, and the address is
    all-zero exactly when both registers are 0. *)
Theorem guid_registers_round_trip (mac : list Z) :
  length mac = 6%nat -> is_bytes mac ->
  guid_bytes (guid_hi mac) (guid_lo mac) = mac /\
  0 <= guid_hi mac < 2 ^ 32 /\ 0 <= guid_lo mac < 2 ^ 32 /\
  guid_lo mac mod 2 ^ 16 = 0 /\
  (is_zero_ether_addr mac = true <-> guid_hi mac = 0 /\ guid_lo mac = 0).
Proof.
  intros Hlen Hb.
  split; [apply guid_bytes_inverse; assumption |].
  destruct (six_bytes mac Hlen Hb)
    as (b0 & b1 & b2 & b3 & b4 & b5 & -> & H0 & H1 & H2 & H3 & H4 & H5).
  rewrite guid_hi_sum, guid_lo_sum by assumption.
  change (2 ^ 32) with 4294967296. change (2 ^ 16) with 65536.
  split; [lia |]. split; [lia |].
  split; [Z.div_mod_to_equations; lia |].
  unfold is_zero_ether_addr, mac_byte. cbn [seq forallb nth].
  rewrite !andb_true_iff, !Z.eqb_eq. lia.
Qed.

(** ** The moca_guid attribute *)

(** Lengths of the sysfs texts. *)
Lemma string_length_append (s1 s2 : string) :
  String.length (String.append s1 s2)
  = (String.length s1 + String.length s2)%nat.
Proof.
  induction s1 as [| c s1 IH]; simpl; [reflexivity | f_equal; exact IH].
Qed.

Lemma hex_digit_length (d : Z) :
  0 <= d < 16 -> String.length (hex_digit d) = 1%nat.
Proof.
  intros Hd.
  assert (E : exists n, (n < 16)%nat /\ d = Z.of_nat n)
    by (exists (Z.to_nat d); lia).
  destruct E as (n & Hn & ->).
  do 16 (destruct n as [| n]; [reflexivity |]). lia.
Qed.

Lemma hex_digits_length (n : nat) (x : Z) :
  String.length (hex_digits n x) = n.
Proof.
  revert x. induction n as [| n IH]; intros x; cbn [hex_digits];
    [reflexivity |].
  rewrite string_length_append, IH, hex_digit_length
    by (apply Z.mod_pos_bound; lia).
  lia.
Qed.

Lemma format_mac_length (mac : list Z) :
  String.length (format_mac mac) = 17%nat.
Proof.
  unfold format_mac. cbn [seq map String.concat].
  rewrite !string_length_append, !hex_digits_length. reflexivity.
Qed.

Section GuidExtra.
Context {B : Type} `{MdioBus B}.
Variable K : host.

(** X9 (sysfs moca_guid, show): the attribute reads the two GUID
    registers, high first, and returns 18 with a text of 18 characters; if
    either read fails it returns -EIO with no text.  It logs nothing and
    makes no other transfer. *)
Theorem moca_guid_show_outcomes (w : world B) :
  exists ret out w' evs,
    moca_guid_show w = (ret, out, w') /\
    trace w' = trace w ++ evs /\ klog w' = klog w /\
    forallb is_bus_transfer evs = true /\
    ((ret = 18 /\ String.length out = 18%nat /\
      requests evs = rd32_xfer MOCA_MAC_ADDR_HI ++ rd32_xfer MOCA_MAC_ADDR_LO /\
      existsb ev_failed evs = false)
     \/
     (ret = - EIO /\ out = EmptyString /\ existsb ev_failed evs = true)).
Proof.
  unfold moca_guid_show.
  destruct (read_mem32_spec w MOCA_MAC_ADDR_HI 0)
    as (r1 & hi & w1 & e1 & -> & Ht1 & Hk1 & _ & Hb1 &
        [(-> & Hv1 & Hq1 & Hf1 & _) | (Hr1 & _ & Hf1 & _)]).
  2: { assert ((r1 <? 0) = true) as -> by (apply Z.ltb_lt; lia).
       exists (- EIO), EmptyString, w1, e1.
       split; [reflexivity |]. split; [exact Ht1 |]. split; [exact Hk1 |].
       split; [exact Hb1 |]. right. auto. }
  change (0 <? 0) with false. cbv iota.
  destruct (read_mem32_spec w1 MOCA_MAC_ADDR_LO 0)
    as (r2 & lo & w2 & e2 & -> & Ht2 & Hk2 & _ & Hb2 &
        [(-> & Hv2 & Hq2 & Hf2 & _) | (Hr2 & _ & Hf2 & _)]).
  2: { assert ((r2 <? 0) = true) as -> by (apply Z.ltb_lt; lia).
       exists (- EIO), EmptyString, w2, (e1 ++ e2).
       split; [reflexivity |].
       split; [rewrite Ht2, Ht1, app_assoc; reflexivity |].
       split; [congruence |].
       split; [rewrite forallb_app, Hb1, Hb2; reflexivity |].
       right. split; [reflexivity |]. split; [reflexivity |].
       rewrite existsb_app, Hf2. apply orb_true_r. }
  change (0 <? 0) with false. cbv iota.
  unfold sprintf_line.
  eexists _, _, w2, (e1 ++ e2).
  split; [reflexivity |].
  split; [rewrite Ht2, Ht1, app_assoc; reflexivity |].
  split; [congruence |].
  split; [rewrite forallb_app, Hb1, Hb2; reflexivity |].
  left.
  assert (L : String.length
                (String.append (format_mac (guid_bytes hi lo)) newline) = 18%nat).
  { rewrite string_length_append, format_mac_length. reflexivity. }
  split; [rewrite L; reflexivity |]. split; [exact L |].
  split; [rewrite requests_app, Hq1, Hq2; reflexivity |].
  rewrite existsb_app, Hf1, Hf2. reflexivity.
Qed.

(** X10 (sysfs moca_guid, store): a text that does not parse gives
    -EINVAL and an all-zero address -EADDRNOTAVAIL, both without any bus
    transfer.  Otherwise the two registers are written, high first: the
    call returns [count] after both writes succeeded and logs the new
    GUID, or -EIO after the first failed transfer. *)
Theorem moca_guid_store_outcomes (w : world B) (buf : string) (count : Z) :
  exists ret w' evs,
    moca_guid_store K w buf count = (ret, w') /\
    trace w' = trace w ++ evs /\
    forallb is_bus_write evs = true /\
    match mac_pton K buf with
    | None => ret = - EINVAL /\ w' = w
    | Some mac =>
        if is_zero_ether_addr mac then ret = - EADDRNOTAVAIL /\ w' = w
        else
          (ret = count /\ existsb ev_failed evs = false /\
           requests evs = wr32_xfer MOCA_MAC_ADDR_HI (guid_hi mac)
                          ++ wr32_xfer MOCA_MAC_ADDR_LO (guid_lo mac) /\
           klog w' = klog w ++ [(KInfo, "MoCA GUID set to %pM"%string)])
          \/
          (ret = - EIO /\ existsb ev_failed evs = true /\ klog w' = klog w /\
           (1 <= mem32_ops evs <= 2)%nat)
    end.
Proof.
  unfold moca_guid_store.
  destruct (mac_pton K buf) as [mac |].
  2: { exists (- EINVAL), w, []. rewrite app_nil_r. auto. }
  destruct (is_zero_ether_addr mac).
  { exists (- EADDRNOTAVAIL), w, []. rewrite app_nil_r. auto. }
  destruct (write_mem32_spec w MOCA_MAC_ADDR_HI (guid_hi mac))
    as (r1 & w1 & e1 & -> & Ht1 & Hk1 & Hn1 & Hb1 &
        [(Hr1 & Hq1 & Hf1) | (Hr1 & Hf1)]).
  2: { assert ((r1 <? 0) = true) as -> by (apply Z.ltb_lt; lia).
       exists (- EIO), w1, e1.
       split; [reflexivity |]. split; [exact Ht1 |]. split; [exact Hb1 |].
       right. split; [reflexivity |]. split; [exact Hf1 |].
       split; [exact Hk1 |]. lia. }
  assert ((r1 <? 0) = false) as -> by (apply Z.ltb_ge; lia).
  destruct (write_mem32_spec w1 MOCA_MAC_ADDR_LO (guid_lo mac))
    as (r2 & w2 & e2 & -> & Ht2 & Hk2 & Hn2 & Hb2 &
        [(Hr2 & Hq2 & Hf2) | (Hr2 & Hf2)]).
  2: { assert ((r2 <? 0) = true) as -> by (apply Z.ltb_lt; lia).
       exists (- EIO), w2, (e1 ++ e2).
       split; [reflexivity |].
       split; [rewrite Ht2, Ht1, app_assoc; reflexivity |].
       split; [rewrite forallb_app, Hb1, Hb2; reflexivity |].
       right. split; [reflexivity |].
       split; [rewrite existsb_app, Hf2; apply orb_true_r |].
       split; [congruence |]. rewrite mem32_ops_app. lia. }
  assert ((r2 <? 0) = false) as -> by (apply Z.ltb_ge; lia).
  eexists count, _, (e1 ++ e2).
  split; [reflexivity |].
  cbn [trace klog dev_info dev_log].
  split; [unfold dev_info, dev_log; cbn [trace];
          rewrite Ht2, Ht1, app_assoc; reflexivity |].
  split; [rewrite forallb_app, Hb1, Hb2; reflexivity |].
  left. split; [reflexivity |].
  split; [rewrite existsb_app, Hf1, Hf2; reflexivity |].
  split; [rewrite requests_app, Hq1, Hq2; reflexivity |].
  unfold dev_info, dev_log; cbn [klog]. congruence.
Qed.

End GuidExtra.

(** ** GUID resolver *)

(** An address with the locally administered bit set never gives a zero
    high register, whatever its other bytes are. *)
Lemma guid_hi_bit25 (mac : list Z) :
  Z.testbit (mac_byte mac 0) 1 = true -> guid_hi mac <> 0.
Proof.
  intros Hb E.
  assert (T : Z.testbit (guid_hi mac) 25 = true).
  { unfold guid_hi, u32. rewrite Z.mod_pow2_bits_low by lia.
    rewrite !Z.lor_spec, Z.shiftl_spec by lia.
    change (25 - 24) with 1. rewrite Hb. reflexivity. }
  rewrite E, Z.bits_0 in T. discriminate.
Qed.

Section ResolverExtra.
Context {B : Type} `{MdioBus B}.
Variable K : host.

(** The code from [set_guid:] on: the two writes, high register first,
    stopping at the first failure. *)
Lemma guid_set_guid_spec (w : world B) (mac : list Z) :
  exists ret w' evs,
    guid_set_guid w mac = (ret, w') /\
    trace w' = trace w ++ evs /\ klog w' = klog w /\
    forallb is_bus_write evs = true /\
    (1 <= mem32_ops evs <= 2)%nat /\
    ((ret = 0 /\ existsb ev_failed evs = false /\
      requests evs = wr32_xfer MOCA_MAC_ADDR_HI (guid_hi mac)
                     ++ wr32_xfer MOCA_MAC_ADDR_LO (guid_lo mac))
     \/ (ret < 0 /\ existsb ev_failed evs = true)).
Proof.
  unfold guid_set_guid. cbv zeta.
  destruct (write_mem32_spec w MOCA_MAC_ADDR_HI (guid_hi mac))
    as (r1 & w1 & e1 & -> & Ht1 & Hk1 & Hn1 & Hb1 &
        [(Hr1 & Hq1 & Hf1) | (Hr1 & Hf1)]).
  2: { assert ((r1 <? 0) = true) as -> by (apply Z.ltb_lt; lia).
       exists r1, w1, e1.
       split; [reflexivity |]. split; [exact Ht1 |]. split; [exact Hk1 |].
       split; [exact Hb1 |]. split; [lia |]. right. auto. }
  assert ((r1 <? 0) = false) as -> by (apply Z.ltb_ge; lia).
  destruct (write_mem32_spec w1 MOCA_MAC_ADDR_LO (guid_lo mac))
    as (r2 & w2 & e2 & -> & Ht2 & Hk2 & Hn2 & Hb2 &
        [(Hr2 & Hq2 & Hf2) | (Hr2 & Hf2)]).
  2: { assert ((r2 <? 0) = true) as -> by (apply Z.ltb_lt; lia).
       exists r2, w2, (e1 ++ e2).
       split; [reflexivity |].
       split; [rewrite Ht2, Ht1, app_assoc; reflexivity |].
       split; [congruence |].
       split; [rewrite forallb_app, Hb1, Hb2; reflexivity |].
       split; [rewrite mem32_ops_app; lia |].
       right. split; [exact Hr2 |].
       rewrite existsb_app, Hf2. apply orb_true_r. }
  assert ((r2 <? 0) = false) as -> by (apply Z.ltb_ge; lia).
  exists 0, w2, (e1 ++ e2).
  split; [reflexivity |].
  split; [rewrite Ht2, Ht1, app_assoc; reflexivity |].
  split; [congruence |].
  split; [rewrite forallb_app, Hb1, Hb2; reflexivity |].
  split; [rewrite mem32_ops_app; lia |].
  left. split; [reflexivity |].
  split; [rewrite existsb_app, Hf1, Hf2; reflexivity |].
  rewrite requests_app, Hq1, Hq2. reflexivity.
Qed.

(** The fallback chain (steps 2 to 4): at most one draw of random bytes,
    before the writes, and none when the device tree or the net device
    supplies an address. *)
Lemma guid_from_device_tree_spec (phydev : phy_device) (w : world B) :
  exists ret w' rnd writes,
    guid_from_device_tree K phydev w = (ret, w') /\
    trace w' = trace w ++ rnd ++ writes /\
    (rnd = [] \/ rnd = [EvRandom 3]) /\
    forallb is_bus_write writes = true /\
    (1 <= mem32_ops writes <= 2)%nat /\
    (ret = 0 \/ ret < 0) /\
    (ret = 0 <-> existsb ev_failed writes = false) /\
    ((exists mac, of_node phydev = Some (0, mac)) -> rnd = []) /\
    ((exists a, attached_dev phydev = Some a /\ is_zero_ether_addr a = false)
     -> rnd = []).
Proof.
  assert (Gen : forall w0 : world B, exists ret w' writes,
            guid_generate K w0 = (ret, w') /\
            trace w' = trace w0 ++ [EvRandom 3] ++ writes /\
            forallb is_bus_write writes = true /\
            (1 <= mem32_ops writes <= 2)%nat /\
            (ret = 0 \/ ret < 0) /\
            (ret = 0 <-> existsb ev_failed writes = false)).
  { intros w0. unfold guid_generate. cbv zeta.
    match goal with |- context [guid_set_guid ?x ?m] =>
      destruct (guid_set_guid_spec x m)
        as (r & w' & e & -> & Ht & _ & Hb & Hn & Hc) end.
    exists r, w', e. split; [reflexivity |].
    split; [rewrite Ht; cbn [trace dev_info dev_log host_event];
            unfold dev_info, dev_log, host_event; cbn [trace];
            rewrite <- app_assoc; reflexivity |].
    split; [exact Hb |]. split; [exact Hn |].
    destruct Hc as [(-> & Hf & _) | (Hr & Hf)].
    - split; [left; reflexivity |]. split; auto.
    - split; [right; exact Hr |]. rewrite Hf. split; [lia | discriminate]. }
  assert (Set_ : forall (w0 : world B) msg mac, exists ret w' writes,
            guid_set_guid (dev_info w0 msg) mac = (ret, w') /\
            trace w' = trace w0 ++ [] ++ writes /\
            forallb is_bus_write writes = true /\
            (1 <= mem32_ops writes <= 2)%nat /\
            (ret = 0 \/ ret < 0) /\
            (ret = 0 <-> existsb ev_failed writes = false)).
  { intros w0 msg mac.
    destruct (guid_set_guid_spec (dev_info w0 msg) mac)
      as (r & w' & e & -> & Ht & _ & Hb & Hn & Hc).
    exists r, w', e. split; [reflexivity |].
    split; [rewrite Ht; reflexivity |].
    split; [exact Hb |]. split; [exact Hn |].
    destruct Hc as [(-> & Hf & _) | (Hr & Hf)].
    - split; [left; reflexivity |]. split; auto.
    - split; [right; exact Hr |]. rewrite Hf. split; [lia | discriminate]. }
  assert (Net : exists ret w' rnd writes,
            guid_from_netdev K phydev w = (ret, w') /\
            trace w' = trace w ++ rnd ++ writes /\
            (rnd = [] \/ rnd = [EvRandom 3]) /\
            forallb is_bus_write writes = true /\
            (1 <= mem32_ops writes <= 2)%nat /\
            (ret = 0 \/ ret < 0) /\
            (ret = 0 <-> existsb ev_failed writes = false) /\
            ((exists a, attached_dev phydev = Some a /\
                        is_zero_ether_addr a = false) -> rnd = [])).
  { unfold guid_from_netdev.
    destruct (attached_dev phydev) as [a |].
    - destruct (is_zero_ether_addr a) eqn:Hz; cbn [negb]; cbv zeta.
      + destruct (Gen w) as (r & w' & e & -> & Ht & Hb & Hn & Hr & Hf).
        exists r, w', [EvRandom 3], e.
        repeat (split; [first [reflexivity | assumption | right; reflexivity] |]).
        intros (a' & [= <-] & Hz'). congruence.
      + match goal with |- context [guid_set_guid (dev_info ?x ?msg) ?m] =>
          destruct (Set_ x msg m) as (r & w' & e & -> & Ht & Hb & Hn & Hr & Hf)
        end.
        exists r, w', [], e.
        repeat (split; [first [reflexivity | assumption | left; reflexivity] |]).
        intros _. reflexivity.
    - destruct (Gen w) as (r & w' & e & -> & Ht & Hb & Hn & Hr & Hf).
      exists r, w', [EvRandom 3], e.
      repeat (split; [first [reflexivity | assumption | right; reflexivity] |]).
      intros (a' & [=] & _). }
  unfold guid_from_device_tree.
  destruct (of_node phydev) as [[r mac] |].
  - destruct (Z.eqb_spec r 0) as [-> | Hne].
    + destruct (Set_ w "Using MoCA GUID from device tree: %pM"%string mac)
        as (r & w' & e & -> & Ht & Hb & Hn & Hr & Hf).
      exists r, w', [], e.
      repeat (split; [first [reflexivity | assumption | left; reflexivity] |]).
      split; intros _; reflexivity.
    + destruct Net as (r' & w' & rnd & e & -> & Ht & Hrnd & Hb & Hn & Hr & Hf & Hnet).
      exists r', w', rnd, e.
      repeat (split; [first [reflexivity | assumption] |]).
      split; [| exact Hnet].
      intros (mac' & [= -> _]). congruence.
  - destruct Net as (r' & w' & rnd & e & -> & Ht & Hrnd & Hb & Hn & Hr & Hf & Hnet).
    exists r', w', rnd, e.
    repeat (split; [first [reflexivity | assumption] |]).
    split; [| exact Hnet].
    intros (mac' & [=]).
Qed.

(** X11 (GUID resolver, order of the sources): the resolver makes one or
    two register reads, then draws random bytes at most once, then makes at
    most two register writes.  It draws no random bytes when the device
    tree supplies an address or the attached net device has a non-zero
    one.  Its return value is 0 exactly when no write failed: a failed read
    only makes it fall through to the other sources. *)
Theorem set_default_guid_random_last_resort (phydev : phy_device)
    (w : world B) :
  exists ret w' reads rnd writes,
    mxl371x_set_default_guid K phydev w = (ret, w') /\
    trace w' = trace w ++ reads ++ rnd ++ writes /\
    forallb is_bus_transfer reads = true /\
    (1 <= mem32_ops reads <= 2)%nat /\
    (rnd = [] \/ rnd = [EvRandom 3]) /\
    forallb is_bus_write writes = true /\
    (mem32_ops writes <= 2)%nat /\
    (ret = 0 \/ ret < 0) /\
    (ret = 0 <-> existsb ev_failed writes = false) /\
    ((exists mac, of_node phydev = Some (0, mac)) -> rnd = []) /\
    ((exists a, attached_dev phydev = Some a /\ is_zero_ether_addr a = false)
     -> rnd = []).
Proof.
  assert (Fall : forall (w1 : world B) reads,
            trace w1 = trace w ++ reads ->
            forallb is_bus_transfer reads = true ->
            (1 <= mem32_ops reads <= 2)%nat ->
            exists ret w' reads rnd writes,
              guid_from_device_tree K phydev w1 = (ret, w') /\
              trace w' = trace w ++ reads ++ rnd ++ writes /\
              forallb is_bus_transfer reads = true /\
              (1 <= mem32_ops reads <= 2)%nat /\
              (rnd = [] \/ rnd = [EvRandom 3]) /\
              forallb is_bus_write writes = true /\
              (mem32_ops writes <= 2)%nat /\
              (ret = 0 \/ ret < 0) /\
              (ret = 0 <-> existsb ev_failed writes = false) /\
              ((exists mac, of_node phydev = Some (0, mac)) -> rnd = []) /\
              ((exists a, attached_dev phydev = Some a /\
                          is_zero_ether_addr a = false) -> rnd = [])).
  { intros w1 reads Ht Hb Hn.
    destruct (guid_from_device_tree_spec phydev w1)
      as (r & w' & rnd & e & Heq & Ht' & Hrnd & Hbw & Hnw & Hr & Hf & Hdt & Hnet).
    exists r, w', reads, rnd, e.
    split; [exact Heq |].
    split; [rewrite Ht', Ht, <- app_assoc; reflexivity |].
    split; [exact Hb |]. split; [exact Hn |]. split; [exact Hrnd |].
    split; [exact Hbw |]. split; [lia |]. split; [exact Hr |].
    split; [exact Hf |]. split; assumption. }
  unfold mxl371x_set_default_guid.
  destruct (read_mem32_spec w MOCA_MAC_ADDR_HI 0)
    as (r1 & hi & w1 & e1 & -> & Ht1 & _ & Hn1 & Hb1 &
        [(-> & _ & _ & _ & _) | (Hr1 & _ & _ & _)]).
  2: { assert ((r1 =? 0) = false) as -> by (apply Z.eqb_neq; lia).
       cbn [andb]. apply (Fall w1 e1); [exact Ht1 | exact Hb1 | lia]. }
  change (0 =? 0) with true. cbn [andb].
  destruct (Z.eqb_spec hi 0) as [-> | Hhi]; cbn [negb orb].
  { apply (Fall w1 e1); [exact Ht1 | exact Hb1 | lia]. }
  destruct (read_mem32_spec w1 MOCA_MAC_ADDR_LO 0)
    as (r2 & lo & w2 & e2 & -> & Ht2 & _ & Hn2 & Hb2 &
        [(-> & _ & _ & _ & _) | (Hr2 & _ & _ & _)]).
  2: { assert ((r2 =? 0) = false) as -> by (apply Z.eqb_neq; lia).
       cbn [andb]. apply (Fall w2 (e1 ++ e2)).
       - rewrite Ht2, Ht1, app_assoc. reflexivity.
       - rewrite forallb_app, Hb1, Hb2. reflexivity.
       - rewrite mem32_ops_app. lia. }
  change (0 =? 0) with true. cbn [andb].
  exists 0, (dev_info w2 "Using existing MoCA GUID: %pM"), (e1 ++ e2), [], [].
  split; [reflexivity |].
  split; [unfold dev_info, dev_log; cbn [trace];
          rewrite Ht2, Ht1, !app_nil_r, app_assoc; reflexivity |].
  split; [rewrite forallb_app, Hb1, Hb2; reflexivity |].
  split; [rewrite mem32_ops_app; lia |].
  split; [left; reflexivity |].
  split; [reflexivity |].
  split; [cbn; lia |].
  split; [left; reflexivity |].
  split; [split; reflexivity |].
  split; intros _; reflexivity.
Qed.

End ResolverExtra.

(** ** GUID on a device that follows the access protocol *)

(** [window_read_mem32] with the transfers it adds to the trace. *)
Lemma window_read_mem32_trace (ahi alo : Z) (mem : gmap Z Z) (t : list event)
    (k : list (log_level * string)) (addr old : Z) :
  0 <= default 0 (mem !! window_addr addr) < 2 ^ 32 ->
  exists ahi' alo' evs,
    mxl371x_read_mem32 (World (WindowDev AwaitAddrHi ahi alo mem) t k) addr old
      = (0, default 0 (mem !! window_addr addr),
         World (WindowDev AwaitAddrHi ahi' alo' mem) (t ++ evs) k) /\
    requests evs = rd32_xfer addr.
Proof.
  intros Hr.
  destruct (window_read_mem32 ahi alo mem t k addr old Hr)
    as (ahi' & alo' & t' & E).
  destruct (read_mem32_spec (World (WindowDev AwaitAddrHi ahi alo mem) t k)
              addr old)
    as (r & v & w' & evs & Heq & Ht & _ & _ & _ & Hc).
  rewrite E in Heq. injection Heq as <- <- <-. cbn [trace] in Ht. subst t'.
  destruct Hc as [(_ & _ & Hq & _) | (Hneg & _)]; [| lia].
  exists ahi', alo', evs. split; [exact E | exact Hq].
Qed.

(** The two GUID registers are different words of the device. *)
Lemma window_guid_addrs :
  window_addr MOCA_MAC_ADDR_HI <> window_addr MOCA_MAC_ADDR_LO.
Proof. vm_compute. discriminate. Qed.

(** The register values are 32-bit. *)
Lemma guid_hi_mod (mac : list Z) : guid_hi mac mod 2 ^ 32 = guid_hi mac.
Proof. apply Z.mod_small. unfold guid_hi. apply u32_range. Qed.

Lemma guid_lo_mod (mac : list Z) : guid_lo mac mod 2 ^ 32 = guid_lo mac.
Proof. apply Z.mod_small. unfold guid_lo. apply u32_range. Qed.

(** Writing an address to the two GUID registers of a window device at
    rest. *)
Lemma window_guid_writes (ahi alo : Z) (mem : gmap Z Z) (t : list event)
    (k : list (log_level * string)) (mac : list Z) :
  exists ahi1 alo1 mem1 t1 ahi2 alo2 mem2 t2,
    mxl371x_write_mem32 (World (WindowDev AwaitAddrHi ahi alo mem) t k)
      MOCA_MAC_ADDR_HI (guid_hi mac)
      = (0, World (WindowDev AwaitAddrHi ahi1 alo1 mem1) t1 k) /\
    mxl371x_write_mem32 (World (WindowDev AwaitAddrHi ahi1 alo1 mem1) t1 k)
      MOCA_MAC_ADDR_LO (guid_lo mac)
      = (0, World (WindowDev AwaitAddrHi ahi2 alo2 mem2) t2 k) /\
    mem2 !! window_addr MOCA_MAC_ADDR_HI = Some (guid_hi mac) /\
    mem2 !! window_addr MOCA_MAC_ADDR_LO = Some (guid_lo mac).
Proof.
  destruct (window_write_mem32 ahi alo mem t k MOCA_MAC_ADDR_HI (guid_hi mac))
    as (d1 & t1 & E1 & Hph1 & Hl1 & _ & _).
  destruct d1 as [ph1 ahi1 alo1 mem1].
  cbn [wd_phase wd_mem] in Hph1, Hl1. subst ph1.
  destruct (window_write_mem32 ahi1 alo1 mem1 t1 k MOCA_MAC_ADDR_LO (guid_lo mac))
    as (d2 & t2 & E2 & Hph2 & Hl2 & Ho2 & _).
  destruct d2 as [ph2 ahi2 alo2 mem2].
  cbn [wd_phase wd_mem] in Hph2, Hl2, Ho2. subst ph2.
  exists ahi1, alo1, mem1, t1, ahi2, alo2, mem2, t2.
  split; [exact E1 |]. split; [exact E2 |].
  split.
  - rewrite Ho2 by apply window_guid_addrs. rewrite Hl1, guid_hi_mod. reflexivity.
  - rewrite Hl2, guid_lo_mod. reflexivity.
Qed.

(** X12 (sysfs moca_guid, store then show): on a device that follows the
    access protocol, storing a non-zero address succeeds and a following
    show prints exactly that address. *)
Theorem guid_store_show_round_trip (K : host) (mem : gmap Z Z) (buf : string)
    (count : Z) (mac : list Z) :
  mac_pton K buf = Some mac -> length mac = 6%nat -> is_bytes mac ->
  is_zero_ether_addr mac = false ->
  exists w1 w2,
    moca_guid_store K (world0 (window_idle mem)) buf count = (count, w1) /\
    moca_guid_show w1 = (18, String.append (format_mac mac) newline, w2).
Proof.
  intros Hp Hlen Hb Hz.
  unfold moca_guid_store. rewrite Hp, Hz. unfold world0, window_idle.
  destruct (window_guid_writes 0 0 mem [] [] mac)
    as (ahi1 & alo1 & mem1 & t1 & ahi2 & alo2 & mem2 & t2 & -> & -> & Hhi & Hlo).
  change (0 <? 0) with false. cbv iota.
  set (k1 := [] ++ [(KInfo, "MoCA GUID set to %pM"%string)]).
  destruct (window_read_mem32 ahi2 alo2 mem2 t2 k1 MOCA_MAC_ADDR_HI 0)
    as (ahi3 & alo3 & t3 & E3).
  { rewrite Hhi. cbn [from_option id]. unfold guid_hi. apply u32_range. }
  destruct (window_read_mem32 ahi3 alo3 mem2 t3 k1 MOCA_MAC_ADDR_LO 0)
    as (ahi4 & alo4 & t4 & E4).
  { rewrite Hlo. cbn [from_option id]. unfold guid_lo. apply u32_range. }
  eexists _, _. split; [reflexivity |].
  unfold moca_guid_show, dev_info, dev_log. cbn [bus trace klog].
  fold k1. rewrite E3.
  change (0 <? 0) with false. cbv iota.
  rewrite E4.
  change (0 <? 0) with false. cbv iota.
  rewrite Hhi, Hlo. cbn [from_option id].
  rewrite guid_bytes_inverse by assumption.
  unfold sprintf_line. cbv zeta.
  rewrite string_length_append, format_mac_length. reflexivity.
Qed.

(** Step 1 on a window device whose high GUID register is non-zero. *)
Lemma window_guid_kept (K : host) (phydev : phy_device) (ahi alo : Z)
    (mem : gmap Z Z) (t : list event) (k : list (log_level * string)) :
  0 <= default 0 (mem !! window_addr MOCA_MAC_ADDR_HI) < 2 ^ 32 ->
  default 0 (mem !! window_addr MOCA_MAC_ADDR_HI) <> 0 ->
  0 <= default 0 (mem !! window_addr MOCA_MAC_ADDR_LO) < 2 ^ 32 ->
  exists ahi' alo' evs k',
    mxl371x_set_default_guid K phydev
      (World (WindowDev AwaitAddrHi ahi alo mem) t k)
    = (0, World (WindowDev AwaitAddrHi ahi' alo' mem) (t ++ evs) k') /\
    requests evs = rd32_xfer MOCA_MAC_ADDR_HI ++ rd32_xfer MOCA_MAC_ADDR_LO.
Proof.
  intros Hhi Hne Hlo.
  destruct (window_read_mem32_trace ahi alo mem t k MOCA_MAC_ADDR_HI 0 Hhi)
    as (ahi1 & alo1 & e1 & E1 & Hq1).
  destruct (window_read_mem32_trace ahi1 alo1 mem (t ++ e1) k
              MOCA_MAC_ADDR_LO 0 Hlo)
    as (ahi2 & alo2 & e2 & E2 & Hq2).
  unfold mxl371x_set_default_guid. rewrite E1.
  apply Z.eqb_neq in Hne. rewrite Hne.
  change (0 =? 0) with true. cbn [andb negb orb].
  rewrite E2. change (0 =? 0) with true. cbn [andb].
  eexists ahi2, alo2, (e1 ++ e2), _.
  split.
  - unfold dev_info, dev_log. cbn [bus trace klog].
    rewrite <- app_assoc. reflexivity.
  - rewrite requests_app, Hq1, Hq2. reflexivity.
Qed.

(** [set_guid:] on a window device at rest. *)
Lemma window_guid_set_guid (ahi alo : Z) (mem : gmap Z Z) (t : list event)
    (k : list (log_level * string)) (mac : list Z) :
  exists ahi' alo' mem' t',
    guid_set_guid (World (WindowDev AwaitAddrHi ahi alo mem) t k) mac
      = (0, World (WindowDev AwaitAddrHi ahi' alo' mem') t' k) /\
    mem' !! window_addr MOCA_MAC_ADDR_HI = Some (guid_hi mac) /\
    mem' !! window_addr MOCA_MAC_ADDR_LO = Some (guid_lo mac).
Proof.
  destruct (window_guid_writes ahi alo mem t k mac)
    as (ahi1 & alo1 & mem1 & t1 & ahi2 & alo2 & mem2 & t2 & E1 & E2 & Hhi & Hlo).
  exists ahi2, alo2, mem2, t2.
  split; [| split; assumption].
  unfold guid_set_guid. cbv zeta. rewrite E1.
  change (0 <? 0) with false. cbv iota. rewrite E2. reflexivity.
Qed.

(** Steps 2 to 4 on a window device at rest: they succeed and leave a
    non-zero high register. *)
Lemma window_guid_fallback (K : host) (phydev : phy_device) (ahi alo : Z)
    (mem : gmap Z Z) (t : list event) (k : list (log_level * string)) :
  (forall mac, of_node phydev = Some (0, mac) -> guid_hi mac <> 0) ->
  exists ahi' alo' mem' t' k',
    guid_from_device_tree K phydev
      (World (WindowDev AwaitAddrHi ahi alo mem) t k)
    = (0, World (WindowDev AwaitAddrHi ahi' alo' mem') t' k') /\
    0 <= default 0 (mem' !! window_addr MOCA_MAC_ADDR_HI) < 2 ^ 32 /\
    default 0 (mem' !! window_addr MOCA_MAC_ADDR_HI) <> 0 /\
    0 <= default 0 (mem' !! window_addr MOCA_MAC_ADDR_LO) < 2 ^ 32.
Proof.
  intros Hdt.
  assert (Fin : forall mac t0 k0, guid_hi mac <> 0 ->
            exists ahi' alo' mem' t' k',
              guid_set_guid (World (WindowDev AwaitAddrHi ahi alo mem) t0 k0) mac
              = (0, World (WindowDev AwaitAddrHi ahi' alo' mem') t' k') /\
              0 <= default 0 (mem' !! window_addr MOCA_MAC_ADDR_HI) < 2 ^ 32 /\
              default 0 (mem' !! window_addr MOCA_MAC_ADDR_HI) <> 0 /\
              0 <= default 0 (mem' !! window_addr MOCA_MAC_ADDR_LO) < 2 ^ 32).
  { intros mac t0 k0 Hne.
    destruct (window_guid_set_guid ahi alo mem t0 k0 mac)
      as (ahi' & alo' & mem' & t' & E & Hhi & Hlo).
    exists ahi', alo', mem', t', k0.
    split; [exact E |]. rewrite Hhi, Hlo. cbn [from_option id].
    split; [unfold guid_hi; apply u32_range |].
    split; [exact Hne |]. unfold guid_lo; apply u32_range. }
  assert (Gen : forall t0 k0, exists ahi' alo' mem' t' k',
            guid_generate K (World (WindowDev AwaitAddrHi ahi alo mem) t0 k0)
            = (0, World (WindowDev AwaitAddrHi ahi' alo' mem') t' k') /\
            0 <= default 0 (mem' !! window_addr MOCA_MAC_ADDR_HI) < 2 ^ 32 /\
            default 0 (mem' !! window_addr MOCA_MAC_ADDR_HI) <> 0 /\
            0 <= default 0 (mem' !! window_addr MOCA_MAC_ADDR_LO) < 2 ^ 32).
  { intros t0 k0. unfold guid_generate, dev_info, dev_log, host_event.
    cbn [bus trace klog]. apply Fin. apply guid_hi_bit25. reflexivity. }
  unfold guid_from_device_tree, guid_from_netdev.
  destruct (of_node phydev) as [[r mac] |].
  - destruct (Z.eqb_spec r 0) as [-> | Hr].
    + unfold dev_info, dev_log. cbn [bus trace klog].
      apply Fin. apply Hdt. reflexivity.
    + destruct (attached_dev phydev) as [a |]; [| apply Gen].
      destruct (is_zero_ether_addr a); cbn [negb]; [apply Gen |].
      unfold dev_info, dev_log. cbn [bus trace klog].
      apply Fin. apply guid_hi_bit25. unfold mac_byte. cbn [nth].
      rewrite Z.lor_spec. apply orb_true_r.
  - destruct (attached_dev phydev) as [a |]; [| apply Gen].
    destruct (is_zero_ether_addr a); cbn [negb]; [apply Gen |].
    unfold dev_info, dev_log. cbn [bus trace klog].
    apply Fin. apply guid_hi_bit25. unfold mac_byte. cbn [nth].
    rewrite Z.lor_spec. apply orb_true_r.
Qed.

(** X13 (GUID resolver, second run): on a device that follows the access
    protocol the resolver succeeds and leaves a non-zero high GUID
    register, and running it again only reads the two registers and leaves
    the memory as it is.  A device-tree address is required to have a
    non-zero high register value (its first four bytes not all zero). *)
Theorem set_default_guid_settles (K : host) (phydev : phy_device)
    (mem : gmap Z Z) :
  0 <= default 0 (mem !! window_addr MOCA_MAC_ADDR_HI) < 2 ^ 32 ->
  0 <= default 0 (mem !! window_addr MOCA_MAC_ADDR_LO) < 2 ^ 32 ->
  (forall mac, of_node phydev = Some (0, mac) -> guid_hi mac <> 0) ->
  exists w1 w2 evs,
    mxl371x_set_default_guid K phydev (world0 (window_idle mem)) = (0, w1) /\
    default 0 (wd_mem (bus w1) !! window_addr MOCA_MAC_ADDR_HI) <> 0 /\
    mxl371x_set_default_guid K phydev w1 = (0, w2) /\
    trace w2 = trace w1 ++ evs /\
    requests evs = rd32_xfer MOCA_MAC_ADDR_HI ++ rd32_xfer MOCA_MAC_ADDR_LO /\
    wd_mem (bus w2) = wd_mem (bus w1).
Proof.
  intros Hhi Hlo Hdt. unfold world0, window_idle.
  assert (Again : forall ahi alo mem' t k,
            0 <= default 0 (mem' !! window_addr MOCA_MAC_ADDR_HI) < 2 ^ 32 ->
            default 0 (mem' !! window_addr MOCA_MAC_ADDR_HI) <> 0 ->
            0 <= default 0 (mem' !! window_addr MOCA_MAC_ADDR_LO) < 2 ^ 32 ->
            let w1 := World (WindowDev AwaitAddrHi ahi alo mem') t k in
            exists w2 evs,
              default 0 (wd_mem (bus w1) !! window_addr MOCA_MAC_ADDR_HI) <> 0 /\
              mxl371x_set_default_guid K phydev w1 = (0, w2) /\
              trace w2 = trace w1 ++ evs /\
              requests evs
              = rd32_xfer MOCA_MAC_ADDR_HI ++ rd32_xfer MOCA_MAC_ADDR_LO /\
              wd_mem (bus w2) = wd_mem (bus w1)).
  { intros ahi alo mem' t k H1 H2 H3 w1.
    destruct (window_guid_kept K phydev ahi alo mem' t k H1 H2 H3)
      as (ahi' & alo' & evs & k' & E & Hq).
    eexists _, evs. split; [exact H2 |]. split; [exact E |].
    split; [reflexivity |]. split; [exact Hq | reflexivity]. }
  destruct (Z.eq_dec (default 0 (mem !! window_addr MOCA_MAC_ADDR_HI)) 0)
    as [Hz | Hnz].
  - destruct (window_read_mem32_trace 0 0 mem [] [] MOCA_MAC_ADDR_HI 0 Hhi)
      as (ahi1 & alo1 & e1 & E1 & _).
    unfold mxl371x_set_default_guid at 1. rewrite E1, Hz.
    change (0 =? 0) with true. cbn [andb negb].
    destruct (window_guid_fallback K phydev ahi1 alo1 mem ([] ++ e1) [] Hdt)
      as (ahi' & alo' & mem' & t' & k' & -> & H1 & H2 & H3).
    destruct (Again ahi' alo' mem' t' k' H1 H2 H3) as (w2 & evs & A).
    eexists _, w2, evs. split; [reflexivity | exact A].
  - destruct (window_guid_kept K phydev 0 0 mem [] [] Hhi Hnz Hlo)
      as (ahi' & alo' & e & k' & -> & _).
    destruct (Again ahi' alo' mem ([] ++ e) k' Hhi Hnz Hlo) as (w2 & evs & A).
    eexists _, w2, evs. split; [reflexivity | exact A].
Qed.

(** ** Device identification and SGMII configuration *)

(** The mode field is the low byte. *)
Lemma land_mask_mod (x : Z) : Z.land x MXL371X_SGMII_MODE_MASK = x mod 2 ^ 8.
Proof. apply land_ff. Qed.

Section CallbackTail.
Context {B : Type} `{MdioBus B} `{PhyLib B}.

(** The end of [mxl371x_config_sgmii]: the modify, and duplex on
    success. *)
Lemma config_sgmii_tail (phydev : phy_device) (w w0 : world B)
    (l : link_state) (pre : list event) (mode : Z) :
  trace w0 = trace w ++ pre ->
  exists ret phydev' w' mret,
    (let '(ret, w1) := phy_modify_paged w0 MXL371X_SGMII_CTRL 0x10
                         MXL371X_SGMII_MODE_MASK mode in
     if ret <? 0
     then (ret, set_lstate l phydev,
           dev_err w1 "Failed to configure SGMII mode: %d")
     else (0, set_lstate (set_duplex DUPLEX_FULL l) phydev,
           dev_info w1 "Configured %s @ %dMbps"))
    = (ret, phydev', w') /\
    trace w' = trace w ++ pre ++
      [EvModifyPaged MXL371X_SGMII_CTRL 0x10 MXL371X_SGMII_MODE_MASK mode mret] /\
    priv phydev' = priv phydev /\
    ((mret < 0 /\ ret = mret /\ lstate phydev' = l)
     \/
     (0 <= mret /\ ret = 0 /\ lstate phydev' = set_duplex DUPLEX_FULL l)).
Proof.
  intros Ht. unfold phy_modify_paged.
  destruct (lib_modify_paged (bus w0) MXL371X_SGMII_CTRL 16
              MXL371X_SGMII_MODE_MASK mode) as [mret b].
  destruct (Z.ltb_spec mret 0) as [Hneg | Hpos].
  - eexists mret, _, _, mret. split; [reflexivity |].
    split; [unfold dev_err, dev_log; cbn [trace];
            rewrite Ht, <- app_assoc; reflexivity |].
    split; [reflexivity |]. left. auto.
  - eexists 0, _, _, mret. split; [reflexivity |].
    split; [unfold dev_info, dev_log; cbn [trace];
            rewrite Ht, <- app_assoc; reflexivity |].
    split; [reflexivity |]. right. auto.
Qed.

End CallbackTail.

(** Run the tail of [mxl371x_config_sgmii] from the state the goal shows,
    and discharge everything of the statement of [config_sgmii_outcomes]
    except what it says about the interface mode. *)
Ltac sgmii_tail phydev w pre :=
  match goal with
  | |- context [phy_modify_paged ?w0 _ _ _ ?mode] =>
      match goal with
      | |- context [set_lstate ?l phydev] =>
          let ret := fresh "ret" in let pd := fresh "pd" in
          let w' := fresh "w'" in let mret := fresh "mret" in
          let Ht := fresh "Ht" in let Hp := fresh "Hp" in
          let Hc := fresh "Hc" in
          destruct (config_sgmii_tail phydev w w0 l pre mode)
            as (ret & pd & w' & mret & -> & Ht & Hp & Hc);
          [ unfold dev_info, dev_warn, dev_log; cbn [trace];
            rewrite ?app_nil_r; reflexivity |];
          exists ret, pd, w', pre, mode, mret;
          split; [reflexivity |];
          split; [exact Ht |];
          split; [auto |];
          split; [destruct Hc as [(_ & _ & ->) | (_ & _ & ->)]; reflexivity |];
          split; [destruct Hc as [(_ & _ & ->) | (_ & _ & ->)]; reflexivity |];
          split; [destruct Hc as [(_ & _ & ->) | (_ & _ & ->)]; reflexivity |];
          split; [exact Hp |];
          split;
            [| destruct Hc as [(? & ? & ->) | (? & ? & ->)];
               [left | right]; auto]
      end
  end.

Section CallbackExtra.
Context {B : Type} `{MdioBus B} `{PhyLib B}.

(** X14 (device identification): [mxl371x_get_device_info] reads the
    product family and the device ID registers.  If a read fails it returns
    the error and leaves the device data unchanged.  Otherwise device and
    revision ID are 16-bit, the chip is Leucadia with the Leucadia firmware
    name exactly for device IDs 0x3710 and 0x3711 and Cardiff with the
    Cardiff firmware name otherwise, and the version text has 32 or 33
    characters, within the 64 bytes of [soc_version]. *)
Theorem get_device_info_outcomes (phydev : phy_device) (w : world B) :
  exists ret phydev' w' evs,
    mxl371x_get_device_info phydev w = (ret, phydev', w') /\
    trace w' = trace w ++ evs /\
    forallb is_bus_transfer evs = true /\
    ((ret < 0 /\ phydev' = phydev /\ existsb ev_failed evs = true)
     \/
     (ret = 0 /\
      requests evs
      = rd32_xfer SRE_PRODUCT_FAMILY_ID ++ rd32_xfer SRE_DEVICE_ID /\
      0 <= device_id (priv phydev') < 2 ^ 16 /\
      0 <= revision_id (priv phydev') < 2 ^ 16 /\
      ((soc_chip_type (priv phydev') = MXL_MOCA_SOC_TYPE_LEUCADIA /\
        fw_name (priv phydev') = Some MXL371X_FW_LEUCADIA /\
        (device_id (priv phydev') = 0x3710 \/
         device_id (priv phydev') = 0x3711))
       \/
       (soc_chip_type (priv phydev') = MXL_MOCA_SOC_TYPE_CARDIFF /\
        fw_name (priv phydev') = Some MXL371X_FW_CARDIFF /\
        device_id (priv phydev') <> 0x3710 /\
        device_id (priv phydev') <> 0x3711)) /\
      (32 <= String.length (soc_version (priv phydev')) <= 33)%nat)).
Proof.
  unfold mxl371x_get_device_info.
  destruct (read_mem32_spec w SRE_PRODUCT_FAMILY_ID 0)
    as (r1 & v1 & w1 & e1 & -> & Ht1 & _ & _ & Hb1 &
        [(-> & _ & Hq1 & Hf1 & _) | (Hr1 & _ & Hf1 & _)]).
  2: { assert ((r1 <? 0) = true) as -> by (apply Z.ltb_lt; lia).
       exists r1, phydev, w1, e1.
       split; [reflexivity |]. split; [exact Ht1 |]. split; [exact Hb1 |].
       left. auto. }
  change (0 <? 0) with false. cbv iota zeta.
  match goal with |- context [mxl371x_read_mem32 ?x SRE_DEVICE_ID v1] =>
    destruct (read_mem32_spec x SRE_DEVICE_ID v1)
      as (r2 & v2 & w2 & e2 & -> & Ht2 & _ & _ & Hb2 &
          [(-> & _ & Hq2 & Hf2 & _) | (Hr2 & _ & Hf2 & _)])
  end.
  2: { assert ((r2 <? 0) = true) as -> by (apply Z.ltb_lt; lia).
       exists r2, phydev, w2, (e1 ++ e2).
       split; [reflexivity |].
       split; [rewrite Ht2; unfold dev_info, dev_log; cbn [trace];
               rewrite Ht1, app_assoc; reflexivity |].
       split; [rewrite forallb_app, Hb1, Hb2; reflexivity |].
       left. split; [exact Hr2 |]. split; [reflexivity |].
       rewrite existsb_app, Hf2. apply orb_true_r. }
  change (0 <? 0) with false. cbv iota.
  set (d := Z.land v2 0xffff).
  set (rv := Z.land (Z.shiftr v2 SRE_REVISION_ID_OFFSET) 0xffff).
  assert (Hd : 0 <= d < 2 ^ 16)
    by (unfold d; rewrite land_ffff; apply Z.mod_pos_bound; lia).
  assert (Hrv : 0 <= rv < 2 ^ 16)
    by (unfold rv; rewrite land_ffff; apply Z.mod_pos_bound; lia).
  eexists 0, _, _, (e1 ++ e2).
  split; [reflexivity |].
  split; [unfold dev_info, dev_log; cbn [trace]; rewrite Ht2;
          unfold dev_info, dev_log; cbn [trace];
          rewrite Ht1, app_assoc; reflexivity |].
  split; [rewrite forallb_app, Hb1, Hb2; reflexivity |].
  right. split; [reflexivity |].
  split; [rewrite requests_app, Hq1, Hq2; reflexivity |].
  rewrite priv_set_priv.
  cbn [device_id set_revision_id set_device_id].
  destruct ((d =? 0x3710) || (d =? 0x3711)) eqn:Ec;
    cbn [device_id revision_id soc_chip_type fw_name soc_version
         set_soc_version set_fw_name set_soc_chip_type set_revision_id
         set_device_id].
  - split; [exact Hd |]. split; [exact Hrv |].
    split.
    + left. split; [reflexivity |]. split; [reflexivity |].
      apply orb_true_iff in Ec. rewrite !Z.eqb_eq in Ec. exact Ec.
    + change (MXL_MOCA_SOC_TYPE_LEUCADIA =? MXL_MOCA_SOC_TYPE_LEUCADIA) with true.
      cbv iota.
      rewrite !string_length_append, !hex_digits_length. cbn. lia.
  - split; [exact Hd |]. split; [exact Hrv |].
    split.
    + right. split; [reflexivity |]. split; [reflexivity |].
      apply orb_false_iff in Ec. rewrite !Z.eqb_neq in Ec. exact Ec.
    + change (MXL_MOCA_SOC_TYPE_CARDIFF =? MXL_MOCA_SOC_TYPE_LEUCADIA) with false.
      cbv iota.
      rewrite !string_length_append, !hex_digits_length. cbn. lia.
Qed.

(** X15 (SGMII detection): one paged read and one log line.  A failed
    read returns its code, an unknown mode returns -EINVAL, both leaving the
    output as it was; otherwise the result is 0 and the output is the low
    byte of the register, one of the three known modes. *)
Theorem detect_sgmii_mode_outcomes (w : world B) (m : Z) :
  exists ret m' w' r line,
    mxl371x_detect_sgmii_mode w m = (ret, m', w') /\
    trace w' = trace w ++ [EvReadPaged MXL371X_SGMII_CTRL 0x10 r] /\
    klog w' = klog w ++ [line] /\
    ((ret = 0 /\ 0 <= r /\ m' = Z.land r MXL371X_SGMII_MODE_MASK /\
      (m' = MXL371X_SGMII_MODE_SGMII \/ m' = MXL371X_SGMII_MODE_HSGMII \/
       m' = MXL371X_SGMII_MODE_1000BASE_X))
     \/
     (ret = r /\ r < 0 /\ m' = m)
     \/
     (ret = - EINVAL /\ 0 <= r /\ m' = m /\
      Z.land r MXL371X_SGMII_MODE_MASK <> MXL371X_SGMII_MODE_SGMII /\
      Z.land r MXL371X_SGMII_MODE_MASK <> MXL371X_SGMII_MODE_HSGMII /\
      Z.land r MXL371X_SGMII_MODE_MASK <> MXL371X_SGMII_MODE_1000BASE_X)).
Proof.
  unfold mxl371x_detect_sgmii_mode, phy_read_paged.
  destruct (lib_read_paged (bus w) MXL371X_SGMII_CTRL 16) as [r b].
  destruct (Z.ltb_spec r 0) as [Hr | Hr].
  { eexists r, m, _, r, _. split; [reflexivity |].
    split; [reflexivity |]. split; [reflexivity |]. right. left. auto. }
  cbv zeta.
  assert (Hu : u16 (Z.land r MXL371X_SGMII_MODE_MASK)
               = Z.land r MXL371X_SGMII_MODE_MASK).
  { unfold u16. apply Z.mod_small. rewrite land_mask_mod.
    pose proof (Z.mod_pos_bound r (2 ^ 8)).
    change (2 ^ 8) with 256 in *. change (2 ^ 16) with 65536. lia. }
  rewrite Hu.
  destruct (Z.eqb_spec (Z.land r MXL371X_SGMII_MODE_MASK) MXL371X_SGMII_MODE_SGMII)
    as [E1 | E1].
  { eexists 0, _, _, r, _. split; [reflexivity |].
    split; [reflexivity |]. split; [reflexivity |].
    left. rewrite E1. split; [reflexivity |]. split; [exact Hr |].
    split; [reflexivity |]. auto. }
  destruct (Z.eqb_spec (Z.land r MXL371X_SGMII_MODE_MASK) MXL371X_SGMII_MODE_HSGMII)
    as [E2 | E2].
  { eexists 0, _, _, r, _. split; [reflexivity |].
    split; [reflexivity |]. split; [reflexivity |].
    left. rewrite E2. split; [reflexivity |]. split; [exact Hr |].
    split; [reflexivity |]. auto. }
  destruct (Z.eqb_spec (Z.land r MXL371X_SGMII_MODE_MASK)
              MXL371X_SGMII_MODE_1000BASE_X) as [E3 | E3].
  { eexists 0, _, _, r, _. split; [reflexivity |].
    split; [reflexivity |]. split; [reflexivity |].
    left. rewrite E3. split; [reflexivity |]. split; [exact Hr |].
    split; [reflexivity |]. auto. }
  eexists (- EINVAL), m, _, r, _. split; [reflexivity |].
  split; [reflexivity |]. split; [reflexivity |].
  right. right. split; [reflexivity |]. split; [exact Hr |].
  split; [reflexivity |]. auto.
Qed.

(** X16 (SGMII configuration): the function ends with exactly one
    [phy_modify_paged] of the mode field, with one of the three known
    modes; the speed is 2500 for HSGMII and 1000 otherwise, also when the
    modify fails.  A device-tree interface mode is used without reading the
    hardware; otherwise the hardware is read once and its mode used if it is
    a known one, SGMII if not.  Duplex becomes full only when the modify
    succeeds; link, autoneg and the driver data are not touched. *)
Theorem config_sgmii_outcomes (phydev : phy_device) (w : world B) :
  exists ret phydev' w' pre mode mret,
    mxl371x_config_sgmii phydev w = (ret, phydev', w') /\
    trace w' = trace w ++ pre ++
      [EvModifyPaged MXL371X_SGMII_CTRL 0x10 MXL371X_SGMII_MODE_MASK mode mret] /\
    (mode = MXL371X_SGMII_MODE_SGMII \/ mode = MXL371X_SGMII_MODE_HSGMII \/
     mode = MXL371X_SGMII_MODE_1000BASE_X) /\
    ls_speed (lstate phydev')
    = (if mode =? MXL371X_SGMII_MODE_HSGMII then SPEED_2500 else SPEED_1000) /\
    ls_link (lstate phydev') = ls_link (lstate phydev) /\
    ls_autoneg (lstate phydev') = ls_autoneg (lstate phydev) /\
    priv phydev' = priv phydev /\
    match interface phydev with
    | PHY_INTERFACE_MODE_SGMII => pre = [] /\ mode = MXL371X_SGMII_MODE_SGMII
    | PHY_INTERFACE_MODE_2500BASEX => pre = [] /\ mode = MXL371X_SGMII_MODE_HSGMII
    | PHY_INTERFACE_MODE_1000BASEX =>
        pre = [] /\ mode = MXL371X_SGMII_MODE_1000BASE_X
    | PHY_INTERFACE_MODE_OTHER =>
        exists dret, pre = [EvReadPaged MXL371X_SGMII_CTRL 0x10 dret] /\
          (0 <= dret ->
           Z.land dret MXL371X_SGMII_MODE_MASK = MXL371X_SGMII_MODE_SGMII \/
           Z.land dret MXL371X_SGMII_MODE_MASK = MXL371X_SGMII_MODE_HSGMII \/
           Z.land dret MXL371X_SGMII_MODE_MASK = MXL371X_SGMII_MODE_1000BASE_X ->
           mode = Z.land dret MXL371X_SGMII_MODE_MASK) /\
          (dret < 0 \/
           (Z.land dret MXL371X_SGMII_MODE_MASK <> MXL371X_SGMII_MODE_SGMII /\
            Z.land dret MXL371X_SGMII_MODE_MASK <> MXL371X_SGMII_MODE_HSGMII /\
            Z.land dret MXL371X_SGMII_MODE_MASK
            <> MXL371X_SGMII_MODE_1000BASE_X) ->
           mode = MXL371X_SGMII_MODE_SGMII)
    end /\
    ((mret < 0 /\ ret = mret /\
      ls_duplex (lstate phydev') = ls_duplex (lstate phydev))
     \/
     (0 <= mret /\ ret = 0 /\ ls_duplex (lstate phydev') = DUPLEX_FULL)).
Proof.
  unfold mxl371x_config_sgmii. cbv zeta.
  destruct (interface phydev) eqn:Hi; cbv beta iota zeta; cbn [negb].
  - sgmii_tail phydev w (@nil event). split; reflexivity.
  - sgmii_tail phydev w (@nil event). split; reflexivity.
  - sgmii_tail phydev w (@nil event). split; reflexivity.
  - unfold mxl371x_detect_sgmii_mode, phy_read_paged.
    destruct (lib_read_paged (bus w) MXL371X_SGMII_CTRL 16) as [r b].
    assert (Hu : 0 <= r -> u16 (Z.land r MXL371X_SGMII_MODE_MASK)
                 = Z.land r MXL371X_SGMII_MODE_MASK).
    { intros Hr. unfold u16. apply Z.mod_small. rewrite land_mask_mod.
      pose proof (Z.mod_pos_bound r (2 ^ 8)).
      change (2 ^ 8) with 256 in *. change (2 ^ 16) with 65536. lia. }
    destruct (Z.ltb_spec r 0) as [Hr | Hr].
    { assert ((r =? 0) = false) as -> by (apply Z.eqb_neq; lia).
      cbn [negb].
      sgmii_tail phydev w [EvReadPaged MXL371X_SGMII_CTRL 16 r].
      exists r. split; [reflexivity |]. split; [lia | reflexivity]. }
    cbv zeta. rewrite (Hu Hr).
    destruct (Z.eqb_spec (Z.land r MXL371X_SGMII_MODE_MASK)
                MXL371X_SGMII_MODE_SGMII) as [E1 | E1].
    { change (0 =? 0) with true. cbv iota.
      change (MXL371X_SGMII_MODE_SGMII =? MXL371X_SGMII_MODE_HSGMII) with false.
      cbv iota. cbn [negb].
      sgmii_tail phydev w [EvReadPaged MXL371X_SGMII_CTRL 16 r].
      exists r. split; [reflexivity |].
      split; [intros _ _; congruence | reflexivity]. }
    destruct (Z.eqb_spec (Z.land r MXL371X_SGMII_MODE_MASK)
                MXL371X_SGMII_MODE_HSGMII) as [E2 | E2].
    { change (0 =? 0) with true. cbv iota.
      change (MXL371X_SGMII_MODE_HSGMII =? MXL371X_SGMII_MODE_HSGMII) with true.
      cbv iota. cbn [negb].
      sgmii_tail phydev w [EvReadPaged MXL371X_SGMII_CTRL 16 r].
      exists r. split; [reflexivity |].
      split; [intros _ _; congruence |].
      intros [? | (_ & ? & _)]; [lia | contradiction]. }
    destruct (Z.eqb_spec (Z.land r MXL371X_SGMII_MODE_MASK)
                MXL371X_SGMII_MODE_1000BASE_X) as [E3 | E3].
    { change (0 =? 0) with true. cbv iota.
      change (MXL371X_SGMII_MODE_1000BASE_X =? MXL371X_SGMII_MODE_HSGMII)
        with false.
      cbv iota. cbn [negb].
      sgmii_tail phydev w [EvReadPaged MXL371X_SGMII_CTRL 16 r].
      exists r. split; [reflexivity |].
      split; [intros _ _; congruence |].
      intros [? | (_ & _ & ?)]; [lia | contradiction]. }
    change (- EINVAL =? 0) with false. cbv iota. cbn [negb].
    sgmii_tail phydev w [EvReadPaged MXL371X_SGMII_CTRL 16 r].
    exists r. split; [reflexivity |].
    split; [intros _ [? | [? | ?]]; contradiction | reflexivity].
Qed.

End CallbackExtra.

(** ** PHY matching, read_status and resume *)

(** Masking a 32-bit ID with [MXL371X_OUI_MASK] clears its low 12 bits. *)
Lemma oui_mask_land (x : Z) :
  0 <= x < 2 ^ 32 -> Z.land x MXL371X_OUI_MASK = (x / 2 ^ 12) * 2 ^ 12.
Proof.
  intros Hx. apply Z.bits_inj'. intros n Hn.
  rewrite Z.land_spec.
  change MXL371X_OUI_MASK with (Z.shiftl (Z.ones 20) 12).
  destruct (Z.ltb_spec n 12) as [Hlt | Hge].
  - rewrite Z.shiftl_spec_low, Z.mul_pow2_bits_low by lia.
    apply andb_false_r.
  - rewrite Z.shiftl_spec, Z.mul_pow2_bits by lia.
    rewrite Z.div_pow2_bits by lia.
    replace (n - 12 + 12) with n by lia.
    destruct (Z.ltb_spec n 32) as [Hlt | Hge32].
    + rewrite Z.ones_spec_low by lia. apply andb_true_r.
    + rewrite Z.ones_spec_high by lia. rewrite andb_false_r.
      symmetry. destruct (Z.eq_dec x 0) as [-> | Hne]; [apply Z.bits_0 |].
      apply Z.bits_above_log2; [lia |].
      apply Z.lt_le_trans with 32; [| lia].
      apply Z.log2_lt_pow2; lia.
Qed.

(** X17 (generic match): [mxl371x_match_phy_device] accepts exactly the
    PHY IDs 0x0243E000 to 0x0243EFFF.  The IDs of the two exact entries of
    the driver table, 0x02434770 and 0x02434771, are not among them. *)
Theorem match_phy_device_range (phydev : phy_device) :
  0 <= phy_id phydev < 2 ^ 32 ->
  (mxl371x_match_phy_device phydev = 1 <->
   MXL371X_OUI <= phy_id phydev <= MXL371X_OUI + 0xfff) /\
  (mxl371x_match_phy_device phydev = 0 \/ mxl371x_match_phy_device phydev = 1) /\
  (phy_id phydev = MXL3710_PHY_ID \/ phy_id phydev = MXL3711_PHY_ID ->
   mxl371x_match_phy_device phydev = 0).
Proof.
  intros Hx. unfold mxl371x_match_phy_device.
  rewrite (oui_mask_land _ Hx).
  change (2 ^ 12) with 4096. change (2 ^ 32) with 4294967296 in Hx.
  destruct (Z.eqb_spec (phy_id phydev / 4096 * 4096) MXL371X_OUI) as [E | E];
    unfold MXL371X_OUI, MXL3710_PHY_ID, MXL3711_PHY_ID in *.
  - split; [split; [intros _ | reflexivity] |].
    + Z.div_mod_to_equations. lia.
    + split; [right; reflexivity |].
      intros [Hid | Hid]; rewrite Hid in E; vm_compute in E; discriminate.
  - split; [split; [discriminate | intros Hr; exfalso; apply E] |].
    + Z.div_mod_to_equations. lia.
    + split; [left; reflexivity | reflexivity].
Qed.

Section StatusExtra.
Context {B : Type} `{MdioBus B} `{PhyLib B}.

(** The status reader changes the driver data only. *)
Lemma read_moca_status_only_priv (phydev : phy_device) (w : world B) :
  fst (mxl371x_read_moca_status phydev w)
  = set_priv (priv (fst (mxl371x_read_moca_status phydev w))) phydev.
Proof.
  unfold mxl371x_read_moca_status.
  do 9 read32_step.
  cbn [fst]. rewrite priv_set_priv. reflexivity.
Qed.

(** X18 (read_status): the result is genphy's error, or 0.  Speed, duplex
    and autoneg are always genphy's.  If genphy fails or the firmware is not
    loaded the MoCA registers are not read and the link is genphy's too;
    otherwise the nine status registers are read and the link is 1 exactly
    when the cached MoCA link status is [MOCA_LINK_UP]. *)
Theorem read_status_outcomes (phydev : phy_device) (w : world B) (gret : Z)
    (l : link_state) (b : B) :
  lib_genphy_read_status (bus w) (lstate phydev) = (gret, l, b) ->
  exists ret phydev' w',
    mxl371x_read_status phydev w = (ret, phydev', w') /\
    ret = (if gret <? 0 then gret else 0) /\
    ls_speed (lstate phydev') = ls_speed l /\
    ls_duplex (lstate phydev') = ls_duplex l /\
    ls_autoneg (lstate phydev') = ls_autoneg l /\
    (gret < 0 \/ fw_loaded (priv phydev) = false ->
       phydev' = set_lstate l phydev /\
       w' = World b (trace w ++ [EvGenphy "read_status" gret]) (klog w)) /\
    (0 <= gret -> fw_loaded (priv phydev) = true ->
       mem32_ops (trace w') = (mem32_ops (trace w) + 9)%nat /\
       ls_link (lstate phydev')
       = (if link_status (priv phydev') =? MOCA_LINK_UP then 1 else 0)).
Proof.
  intros Hg. unfold mxl371x_read_status. rewrite Hg.
  destruct (Z.ltb_spec gret 0) as [Hneg | Hpos].
  { eexists _, _, _. split; [reflexivity |].
    cbn [lstate set_lstate].
    repeat (split; [reflexivity |]).
    split; [intros _; split; reflexivity | lia]. }
  cbn [priv set_lstate].
  destruct (fw_loaded (priv phydev)) eqn:El.
  2: { eexists _, _, _. split; [reflexivity |].
       cbn [lstate set_lstate].
       repeat (split; [reflexivity |]).
       split; [intros _; split; reflexivity | discriminate]. }
  match goal with
  | |- context [mxl371x_read_moca_status ?d ?x] =>
      pose proof (read_moca_status_only_priv d x) as Hp;
      destruct (read_moca_status_best_effort d x) as (_ & _ & _ & Hn & _);
      destruct (mxl371x_read_moca_status d x) as [d2 w2]
  end.
  cbn [fst snd] in Hp, Hn.
  eexists _, _, _. split; [reflexivity |].
  split; [reflexivity |].
  rewrite Hp. cbn [lstate set_lstate set_priv set_link ls_speed ls_duplex
                   ls_autoneg ls_link priv].
  repeat (split; [reflexivity |]).
  split; [intros [? | ?]; [lia | discriminate] |].
  intros _ _. split; [| reflexivity].
  rewrite Hn. cbn [trace]. rewrite mem32_ops_app. cbn. lia.
Qed.

(** X19 (resume, then read_status): resume clears the firmware flag, so
    the next [mxl371x_read_status] makes no register access at all and
    reports genphy's link state: the only events of the two calls are the
    rescheduled poll and the two genphy calls. *)
Theorem resume_then_read_status (phydev : phy_device) (w : world B)
    (r1 r2 : Z) (b1 b2 : B) (l2 : link_state) :
  lib_genphy_resume (bus w) = (r1, b1) ->
  lib_genphy_read_status b1 (lstate phydev) = (r2, l2, b2) ->
  exists pd1 w1,
    mxl371x_resume phydev w = (r1, pd1, w1) /\
    fw_loaded (priv pd1) = false /\
    mxl371x_read_status pd1 w1
    = (if r2 <? 0 then r2 else 0, set_lstate l2 pd1,
       World b2 (trace w ++ [EvSchedulePoll; EvGenphy "resume" r1;
                             EvGenphy "read_status" r2]) (klog w)).
Proof.
  intros H1 H2. unfold mxl371x_resume, host_event. cbn [bus trace klog].
  rewrite H1. eexists _, _. split; [reflexivity |].
  split; [reflexivity |].
  unfold mxl371x_read_status. cbn [bus trace klog lstate set_priv].
  rewrite H2. cbn [priv set_lstate set_priv fw_loaded set_fw_loaded].
  rewrite <- !app_assoc. cbn [app].
  destruct (r2 <? 0); reflexivity.
Qed.

End StatusExtra.

(** ** Ranges of the cached status and counters; firmware words *)

(** A field after a batch satisfies what its old value and every decoded
    value satisfy. *)
Lemma field_after_range {A : Type} (P : A -> Prop) (Q : Z -> Prop)
    (rs : list (Z * Z)) (i : nat) (f : Z -> A) (old : A) :
  Forall (fun rv => fst rv < 0 \/ Q (snd rv)) rs ->
  (forall v, Q v -> P (f v)) -> P old -> P (field_after rs i f old).
Proof.
  intros Hrs Hf Hold. unfold field_after.
  destruct (nth_error rs i) as [[r v] |] eqn:E; [| exact Hold].
  apply nth_error_In in E.
  rewrite List.Forall_forall in Hrs. specialize (Hrs _ E). cbn [fst snd] in Hrs.
  destruct (Z.ltb_spec r 0); [exact Hold |].
  apply Hf. destruct Hrs; [lia | assumption].
Qed.

(** Ranges of the masked values. *)
Lemma land_ff_range (v : Z) : 0 <= Z.land v 0xff < 2 ^ 8.
Proof. rewrite land_ff. apply Z.mod_pos_bound. lia. Qed.

Lemma land_ffff_range (v : Z) : 0 <= Z.land v 0xffff < 2 ^ 16.
Proof. rewrite land_ffff. apply Z.mod_pos_bound. lia. Qed.

Lemma land_7_range (v : Z) :
  0 <= Z.land v MOCA_LINK_STATUS_MASK <= MOCA_LINK_STATUS_MASK.
Proof.
  change MOCA_LINK_STATUS_MASK with (Z.ones 3) at 1 2.
  rewrite Z.land_ones by lia.
  pose proof (Z.mod_pos_bound v (2 ^ 3)).
  change (2 ^ 3) with 8 in *. unfold MOCA_LINK_STATUS_MASK. lia.
Qed.

Section RangeExtra.
Context {B : Type} `{MdioBus B}.

(** Every successful read of a batch returns a 32-bit (64-bit) value. *)
Lemma read_batch32_values (w : world B) (addrs : list Z) :
  Forall (fun rv => fst rv < 0 \/ 0 <= snd rv < 2 ^ 32)
    (fst (read_batch32 w addrs)).
Proof.
  revert w. induction addrs as [| a rest IH]; intros w; cbn [read_batch32].
  - constructor.
  - destruct (read_mem32_spec w a 0)
      as (r & v & w1 & e & -> & _ & _ & _ & _ & Hc).
    specialize (IH w1). destruct (read_batch32 w1 rest) as [rs w2].
    cbn [fst] in *. constructor; [| exact IH]. cbn [fst snd].
    destruct Hc as [(_ & Hv & _) | (Hr & _)]; [right; exact Hv | left; exact Hr].
Qed.

Lemma read_batch64_values (w : world B) (addrs : list Z) :
  Forall (fun rv => fst rv < 0 \/ 0 <= snd rv < 2 ^ 64)
    (fst (read_batch64 w addrs)).
Proof.
  revert w. induction addrs as [| a rest IH]; intros w; cbn [read_batch64].
  - constructor.
  - destruct (read_mem64_spec w a 0)
      as (r & v & w1 & e & -> & _ & _ & _ & _ & Hc).
    specialize (IH w1). destruct (read_batch64 w1 rest) as [rs w2].
    cbn [fst] in *. constructor; [| exact IH]. cbn [fst snd].
    destruct Hc as [(_ & Hv & _) | (Hr & _)]; [right; exact Hv | left; exact Hr].
Qed.

(** X20 (status reader, ranges): the status reader keeps every cached
    status field within the range its mask allows (link status at most 7,
    rate 16 bits, version, node IDs and network state 8 bits, the others
    32 bits), whichever reads fail. *)
Theorem read_moca_status_ranges (phydev : phy_device) (w : world B) :
  status_in_range (priv phydev) ->
  status_in_range (priv (fst (mxl371x_read_moca_status phydev w))).
Proof.
  intros (H1 & H2 & H3 & H4 & H5 & H6 & H7 & H8).
  destruct (read_moca_status_best_effort phydev w)
    as (_ & _ & _ & _ & _ & E1 & E2 & E3 & E4 & E5 & E6 & E7 & E8 & _).
  pose proof (read_batch32_values w status_addrs) as Hrs.
  unfold status_in_range.
  rewrite E1, E2, E3, E4, E5, E6, E7, E8.
  split; [apply (field_after_range
                   (fun x => 0 <= x <= MOCA_LINK_STATUS_MASK)
                   (fun v => 0 <= v < 2 ^ 32) _ _ _ _ Hrs);
          [intros v _; apply land_7_range | exact H1] |].
  split; [apply (field_after_range (fun x => 0 <= x < 2 ^ 16)
                   (fun v => 0 <= v < 2 ^ 32) _ _ _ _ Hrs);
          [intros v _; apply land_ffff_range | exact H2] |].
  split; [apply (field_after_range (fun x => 0 <= x < 2 ^ 8)
                   (fun v => 0 <= v < 2 ^ 32) _ _ _ _ Hrs);
          [intros v _; apply land_ff_range | exact H3] |].
  split; [apply (field_after_range (fun x => 0 <= x < 2 ^ 8)
                   (fun v => 0 <= v < 2 ^ 32) _ _ _ _ Hrs);
          [intros v _; apply land_ff_range | exact H4] |].
  split; [apply (field_after_range (fun x => 0 <= x < 2 ^ 8)
                   (fun v => 0 <= v < 2 ^ 32) _ _ _ _ Hrs);
          [intros v _; apply land_ff_range | exact H5] |].
  split; [apply (field_after_range (fun x => 0 <= x < 2 ^ 32)
                   (fun v => 0 <= v < 2 ^ 32) _ _ _ _ Hrs);
          [intros v Hv; exact Hv | exact H6] |].
  split; [apply (field_after_range (fun x => 0 <= x < 2 ^ 8)
                   (fun v => 0 <= v < 2 ^ 32) _ _ _ _ Hrs);
          [intros v _; apply land_ff_range | exact H7] |].
  apply (field_after_range (fun x => 0 <= x < 2 ^ 32)
                   (fun v => 0 <= v < 2 ^ 32) _ _ _ _ Hrs);
    [intros v Hv; exact Hv | exact H8].
Qed.

(** X21 (statistics reader, ranges): the statistics reader keeps all nine
    counters within 64 bits, whichever reads fail, and so the six values
    reported by [mxl371x_get_phy_stats] are 64-bit. *)
Theorem update_stats_ranges (phydev : phy_device) (w : world B) :
  stats_in_range (stats (priv phydev)) ->
  stats_in_range (stats (priv (fst (mxl371x_update_stats phydev w)))) /\
  Forall (fun x => 0 <= x < 2 ^ 64)
    (mxl371x_get_phy_stats (fst (mxl371x_update_stats phydev w))).
Proof.
  intros Hs.
  destruct (update_stats_best_effort phydev w)
    as (_ & _ & _ & _ & _ & E1 & E2 & E3 & E4 & E5 & E6 & E7 & E8 & E9).
  pose proof (read_batch64_values w stats_addrs) as Hrs.
  assert (Hs' : stats_in_range
                  (stats (priv (fst (mxl371x_update_stats phydev w))))).
  { unfold stats_in_range in *.
    rewrite E1, E2, E3, E4, E5, E6, E7, E8, E9.
    repeat match goal with
    | Hp : Forall _ (_ :: _) |- _ => inversion Hp; clear Hp; subst
    end.
    repeat (constructor;
      [apply (field_after_range (fun x => 0 <= x < 2 ^ 64)
                (fun v => 0 <= v < 2 ^ 64) _ _ _ _ Hrs);
       [intros v Hv; exact Hv | assumption] |]).
    constructor. }
  split; [exact Hs' |].
  unfold mxl371x_get_phy_stats, stats_in_range in *.
  repeat match goal with
  | Hp : Forall _ (_ :: _) |- _ => inversion Hp; clear Hp; subst
  end.
  repeat (constructor; [assumption |]). constructor.
Qed.

End RangeExtra.

(** X22 (firmware words are lossless): for an image of bytes, the word
    uploaded for offset 4k is 32-bit and its byte j (bits 8j to 8j+7) is
    byte 4k+j of the image, 0 past its end. *)
Theorem fw_word_bytes_recoverable (data : list Z) (k j : nat) :
  is_bytes data -> (4 * k < length data)%nat -> (j < 4)%nat ->
  0 <= fw_word data (4 * Z.of_nat k) < 2 ^ 32 /\
  (fw_word data (4 * Z.of_nat k) / 2 ^ (8 * Z.of_nat j)) mod 2 ^ 8
  = nth (4 * k + j) data 0.
Proof.
  intros Hb Hk Hj. rewrite (fw_word_le data k Hb Hk).
  unfold le_word, fw_byte.
  pose proof (is_bytes_nth data (4 * k) Hb) as R0.
  pose proof (is_bytes_nth data (4 * k + 1) Hb) as R1.
  pose proof (is_bytes_nth data (4 * k + 2) Hb) as R2.
  pose proof (is_bytes_nth data (4 * k + 3) Hb) as R3.
  change (2 ^ 8) with 256. change (2 ^ 16) with 65536.
  change (2 ^ 24) with 16777216. change (2 ^ 32) with 4294967296.
  split; [lia |].
  destruct j as [| [| [| [| j]]]]; [| | | | lia].
  - replace (4 * k + 0)%nat with (4 * k)%nat by lia.
    change (2 ^ (8 * Z.of_nat 0)) with 1.
    Z.div_mod_to_equations. lia.
  - change (2 ^ (8 * Z.of_nat 1)) with 256.
    Z.div_mod_to_equations. lia.
  - change (2 ^ (8 * Z.of_nat 2)) with 65536.
    Z.div_mod_to_equations. lia.
  - change (2 ^ (8 * Z.of_nat 3)) with 16777216.
    Z.div_mod_to_equations. lia.
Qed.

(** ** config_init *)

Section InitExtra.
Context {B : Type} `{MdioBus B} `{PhyLib B}.
Variable K : host.

(** X23 (config_init, result): provided [request_firmware] returns 0 or a
    negative code, [mxl371x_config_init] terminates with 0 or a negative
    code, and a return of 0 means the firmware flag is set, the sysfs group
    was created, hwmon registration was attempted (its failure is not an
    error) and the statistics poll was scheduled last. *)
Theorem config_init_success (phydev : phy_device) (w : world B) :
  (forall name, fst (request_firmware K name) <= 0) ->
  exists ret phydev' w',
    mxl371x_config_init K phydev w = Some (ret, phydev', w') /\
    (ret = 0 \/ ret < 0) /\
    (ret = 0 ->
       fw_loaded (priv phydev') = true /\
       0 <= sysfs_create_group K /\
       exists t,
         trace w' = t ++ [EvSysfsCreate (sysfs_create_group K);
                          EvHwmonRegister (hwmon_device_register K);
                          EvSchedulePoll]).
Proof.
  intros Hreq. unfold mxl371x_config_init.
  destruct (mxl371x_get_device_info phydev w) as [[r0 pd0] w0].
  destruct (Z.ltb_spec r0 0) as [Hr0 | Hr0].
  { eexists _, _, _. split; [reflexivity |]. split; [right; exact Hr0 | lia]. }
  destruct (mxl371x_check_firmware_running w0) as [running w1].
  set (warm := negb (running =? 0)). clearbody warm.
  match goal with
  | |- context [if warm then (?a, ?b) else (?c, ?d)] =>
      set (pw := if warm then (a, b) else (c, d)); clearbody pw
  end.
  destruct pw as [pd1 wa].
  destruct (load_firmware_total K pd1 wa) as (rl & pdl & wl & El).
  rewrite El.
  destruct (Z.ltb_spec rl 0) as [Hrl | Hrl].
  { eexists _, _, _. split; [reflexivity |].
    split; [right; exact Hrl | lia]. }
  assert (Hloaded : fw_loaded (priv pdl) = true).
  { destruct (load_firmware_cases K _ _ _ _ _ El)
      as [(_ & -> & Hl) | [(_ & _ & ->) | (Hne & _ & _ & [Hneg | Hfw])]].
    - exact Hl.
    - reflexivity.
    - lia.
    - specialize (Hreq (fw_name (priv pd1))). lia. }
  destruct (mxl371x_set_default_guid K pdl wl) as [rg wg].
  cbv zeta.
  match goal with
  | |- context [mxl371x_read_moca_status pdl ?x] =>
      pose proof (read_moca_status_fw_loaded pdl x) as Hm;
      destruct (mxl371x_read_moca_status pdl x) as [pdm wm]
  end.
  cbn [fst] in Hm.
  pose proof (config_sgmii_priv pdm wm) as Hs.
  destruct (mxl371x_config_sgmii pdm wm) as [[rs pds] ws].
  cbn [fst snd] in Hs.
  destruct (Z.ltb_spec rs 0) as [Hrs | Hrs].
  { eexists _, _, _. split; [reflexivity |].
    split; [right; exact Hrs | lia]. }
  destruct (Z.ltb_spec (sysfs_create_group K) 0) as [Hsy | Hsy].
  { eexists _, _, _. split; [reflexivity |].
    split; [right; exact Hsy | lia]. }
  pose proof (hwmon_init_fw_loaded K pds
                (host_event ws (EvSysfsCreate (sysfs_create_group K)))) as Hh.
  unfold mxl371x_hwmon_init in *. cbv zeta in *.
  destruct (hwmon_device_register K <? 0) eqn:Eh;
    cbn [fst snd] in Hh; cbv beta iota zeta; rewrite ?Eh;
    change (0 <? 0) with false; cbv iota.
  - eexists _, _, _. split; [reflexivity |].
    split; [left; reflexivity |]. intros _.
    split; [congruence |]. split; [exact Hsy |].
    exists (trace ws).
    destruct warm; unfold dev_info, dev_warn, dev_log, host_event;
      cbn [trace bus klog]; rewrite <- !app_assoc; reflexivity.
  - eexists _, _, _. split; [reflexivity |].
    split; [left; reflexivity |]. intros _.
    split; [congruence |]. split; [exact Hsy |].
    exists (trace ws).
    destruct warm; unfold dev_info, dev_warn, dev_log, host_event;
      cbn [trace bus klog]; rewrite <- !app_assoc; reflexivity.
Qed.

End InitExtra.

(** ** Consistency between callbacks *)

Section ConsistencyExtra.
Context {B : Type} `{MdioBus B} `{PhyLib B}.

(** X24 (hwmon, visible channels): [mxl371x_hwmon_is_visible] exposes the
    temperature input alone, read-only (0444).  Reading any channel it
    hides returns -EOPNOTSUPP and leaves the world as it is; reading the one
    it exposes always goes to the bus, and a return of 0 means the complete
    sampling sequence was made. *)
Theorem hwmon_visible_channels (w : world B) (type : hwmon_sensor_types)
    (attr : hwmon_temp_attributes) (val : Z) :
  (mxl371x_hwmon_is_visible type attr = 0 \/
   mxl371x_hwmon_is_visible type attr = 292) /\
  (mxl371x_hwmon_is_visible type attr = 0 ->
     mxl371x_hwmon_read w type attr val = (- EOPNOTSUPP, val, w)) /\
  (mxl371x_hwmon_is_visible type attr <> 0 ->
     type = hwmon_temp /\ attr = hwmon_temp_input /\
     exists evs,
       trace (snd (mxl371x_hwmon_read w type attr val)) = trace w ++ evs /\
       evs <> [] /\
       (fst (fst (mxl371x_hwmon_read w type attr val)) = 0 ->
        requests evs = temp_xfers)).
Proof.
  destruct type, attr; cbn [mxl371x_hwmon_is_visible mxl371x_hwmon_read];
    try (split; [left; reflexivity |];
         split; [intros _; reflexivity | intros Hne; contradiction]).
  split; [right; reflexivity |].
  split; [discriminate |]. intros _.
  split; [reflexivity |]. split; [reflexivity |].
  destruct (read_temp_raw_spec w 0 0)
    as (ret & t0' & t1' & w' & evs & -> & Ht & Hc).
  exists evs.
  assert (Hne : evs <> []).
  { destruct Hc as [(_ & Hq & _) | (_ & Hf & _)]; intros ->;
      [discriminate Hq | discriminate Hf]. }
  destruct Hc as [(-> & Hq & _) | (Hneg & _)].
  - change (0 <? 0) with false. cbv iota.
    destruct (_ =? - EINVAL); cbn [fst snd];
      (split; [exact Ht |]; split; [exact Hne |]); intros _; exact Hq.
  - assert ((ret <? 0) = true) as -> by (apply Z.ltb_lt; lia).
    cbn [fst snd]. split; [exact Ht |]. split; [exact Hne |]. lia.
Qed.

(** X25 (link state, sysfs against phylib): right after a successful
    [mxl371x_read_status] with the firmware loaded, the link reported to
    phylib is 1 exactly when the moca_link_status attribute prints "up",
    and 0 exactly when it prints "scanning" or "down". *)
Theorem link_status_show_agrees_with_read_status (phydev : phy_device)
    (w : world B) (gret : Z) (l : link_state) (b : B) :
  lib_genphy_read_status (bus w) (lstate phydev) = (gret, l, b) ->
  0 <= gret -> fw_loaded (priv phydev) = true ->
  exists phydev' w',
    mxl371x_read_status phydev w = (0, phydev', w') /\
    (ls_link (lstate phydev') = 1 \/ ls_link (lstate phydev') = 0) /\
    (ls_link (lstate phydev') = 1 <->
     moca_link_status_show phydev' = sprintf_line "up") /\
    (ls_link (lstate phydev') = 0 <->
     moca_link_status_show phydev' = sprintf_line "scanning" \/
     moca_link_status_show phydev' = sprintf_line "down").
Proof.
  intros Hg Hpos Hl. unfold mxl371x_read_status. rewrite Hg.
  assert ((gret <? 0) = false) as -> by (apply Z.ltb_ge; lia).
  cbn [priv set_lstate]. rewrite Hl.
  match goal with
  | |- context [mxl371x_read_moca_status ?d ?x] =>
      pose proof (read_moca_status_only_priv d x) as Hp;
      destruct (mxl371x_read_moca_status d x) as [d2 w2]
  end.
  cbn [fst] in Hp.
  eexists _, _. split; [reflexivity |].
  unfold moca_link_status_show.
  cbn [lstate set_lstate set_link ls_link priv].
  destruct (Z.eqb_spec (link_status (priv d2)) MOCA_LINK_UP) as [E | E].
  - split; [left; reflexivity |].
    split; [split; reflexivity |].
    split; [discriminate |].
    intros [Hs | Hs]; vm_compute in Hs; discriminate Hs.
  - split; [right; reflexivity |].
    destruct (link_status (priv d2) =? MOCA_LINK_SCANNING).
    + split; [split; [discriminate | intros Hs; vm_compute in Hs; discriminate Hs] |].
      split; [intros _; left; reflexivity | reflexivity].
    + split; [split; [discriminate | intros Hs; vm_compute in Hs; discriminate Hs] |].
      split; [intros _; right; reflexivity | reflexivity].
Qed.

End ConsistencyExtra.

(** ** Instances *)

Lemma calc_temp_sensor_span_witness :
  - MXL371X_TSENS_COEFF_B <= mxl371x_calc_temp 1000 200000 /\
  mxl371x_calc_temp 1000 200000 <= mxl371x_calc_temp 1000 525288 /\
  mxl371x_calc_temp 1000 525288
  <= MXL371X_TSENS_COEFF_A - MXL371X_TSENS_COEFF_B /\
  mxl371x_calc_temp 1000 200000 = mxl371x_calc_temp 0 (200000 - 1000).
Proof.
  apply (calc_temp_sensor_span 1000 200000 525288);
    unfold MXL371X_TSENS_RSSI_MAX; lia.
Defined.

Lemma load_firmware_warm_boot_witness :
  exists w',
    mxl371x_load_firmware (host_with [] []) phydev0
      (world0 (ScriptBus [] [0; 2]))
    = Some (0, set_priv (set_fw_loaded true (priv phydev0)) phydev0, w').
Proof.
  pose (W := world0 (ScriptBus [] [0; 2])).
  let r := eval vm_compute in (mxl371x_read_mem32 W MXL371X_FW_STATUS_REG 0) in
  match r with (_, ?s, ?x) => pose (st := s); pose (w1 := x) end.
  destruct (load_firmware_warm_boot (host_with [] []) phydev0 W w1 0 st
              ltac:(reflexivity) ltac:(vm_compute; reflexivity)
              ltac:(vm_compute; discriminate))
    as (w' & Heq & _).
  exists w'. exact Heq.
Defined.

Lemma load_firmware_rejects_image_witness :
  exists w',
    mxl371x_load_firmware (host_with [] []) phydev0 (world0 (ScriptBus [] []))
    = Some (- EINVAL, phydev0, w').
Proof.
  pose (W := world0 (ScriptBus [] [])).
  let r := eval vm_compute in (mxl371x_check_firmware_running W) in
  match r with (_, ?x) => pose (w1 := x) end.
  destruct (load_firmware_rejects_image (host_with [] []) phydev0 W w1 0 []
              ltac:(reflexivity) ltac:(vm_compute; reflexivity)
              ltac:(reflexivity))
    as (_ & Hbad).
  destruct (Hbad ltac:(reflexivity) ltac:(left; reflexivity)) as (w' & Heq & _).
  exists w'. exact Heq.
Defined.

Lemma load_firmware_result_witness :
  fw_loaded (priv (set_priv (set_fw_loaded true (priv phydev0)) phydev0)) = true
  <-> 0 = 0.
Proof.
  pose (W := world0 (ScriptBus [] [0; 2])).
  let r := eval vm_compute in (mxl371x_load_firmware (host_with [] []) phydev0 W) in
  match r with Some (_, _, ?x) => pose (w' := x) end.
  apply (load_firmware_result (host_with [] []) phydev0
              (set_priv (set_fw_loaded true (priv phydev0)) phydev0) W w' 0).
  - vm_compute. reflexivity.
  - reflexivity.
Defined.

Lemma guid_registers_round_trip_witness :
  guid_bytes (guid_hi [0x02; 0x24; 0x3e; 0xaa; 0xbb; 0xcc])
             (guid_lo [0x02; 0x24; 0x3e; 0xaa; 0xbb; 0xcc])
  = [0x02; 0x24; 0x3e; 0xaa; 0xbb; 0xcc].
Proof.
  apply (guid_registers_round_trip [0x02; 0x24; 0x3e; 0xaa; 0xbb; 0xcc]);
    [reflexivity | vm_compute; reflexivity].
Defined.

Lemma guid_store_show_round_trip_witness :
  exists w1 w2,
    moca_guid_store (host_parsing [0x02; 0x24; 0x3e; 0xaa; 0xbb; 0xcc])
      (world0 (window_idle ∅)) "02:24:3e:aa:bb:cc" 18 = (18, w1) /\
    moca_guid_show w1
    = (18, String.append (format_mac [0x02; 0x24; 0x3e; 0xaa; 0xbb; 0xcc])
             newline, w2).
Proof.
  apply (guid_store_show_round_trip
           (host_parsing [0x02; 0x24; 0x3e; 0xaa; 0xbb; 0xcc]) ∅
           "02:24:3e:aa:bb:cc" 18 [0x02; 0x24; 0x3e; 0xaa; 0xbb; 0xcc]);
    [reflexivity | reflexivity | vm_compute; reflexivity | reflexivity].
Defined.

Lemma set_default_guid_settles_witness :
  exists w1 w2 evs,
    mxl371x_set_default_guid (host_with [] [0xaa; 0xbb; 0xcc]) phydev0
      (world0 (window_idle ∅)) = (0, w1) /\
    default 0 (wd_mem (bus w1) !! window_addr MOCA_MAC_ADDR_HI) <> 0 /\
    mxl371x_set_default_guid (host_with [] [0xaa; 0xbb; 0xcc]) phydev0 w1
    = (0, w2) /\
    trace w2 = trace w1 ++ evs /\
    requests evs = rd32_xfer MOCA_MAC_ADDR_HI ++ rd32_xfer MOCA_MAC_ADDR_LO /\
    wd_mem (bus w2) = wd_mem (bus w1).
Proof.
  apply (set_default_guid_settles (host_with [] [0xaa; 0xbb; 0xcc]) phydev0 ∅).
  - vm_compute. split; [discriminate | reflexivity].
  - vm_compute. split; [discriminate | reflexivity].
  - intros mac E. discriminate E.
Defined.

Lemma read_status_outcomes_witness :
  exists phydev' w',
    mxl371x_read_status phydev_loaded (world0 (ScriptBus [] [0; 1]))
    = (0, phydev', w') /\
    ls_link (lstate phydev')
    = (if link_status (priv phydev') =? MOCA_LINK_UP then 1 else 0).
Proof.
  pose (W := world0 (ScriptBus [] [0; 1])).
  destruct (@read_status_outcomes script_bus scripted_bus scripted_phylib
              phydev_loaded W 0 (lstate phydev_loaded)
              (bus W) ltac:(reflexivity))
    as (ret & pd & w' & Heq & -> & _ & _ & _ & _ & Hl).
  exists pd, w'. split; [exact Heq |].
  apply Hl; [lia | reflexivity].
Defined.

Lemma resume_then_read_status_witness :
  exists pd1 w1,
    mxl371x_resume phydev_loaded (world0 (ScriptBus [] [])) = (0, pd1, w1) /\
    fw_loaded (priv pd1) = false /\
    mxl371x_read_status pd1 w1
    = (0, set_lstate (lstate phydev_loaded) pd1,
       World (ScriptBus [] [])
         [EvSchedulePoll; EvGenphy "resume" 0; EvGenphy "read_status" 0] []).
Proof.
  apply (@resume_then_read_status script_bus scripted_bus scripted_phylib
           phydev_loaded (world0 (ScriptBus [] []))
           0 0 (ScriptBus [] []) (ScriptBus [] []) (lstate phydev_loaded));
    reflexivity.
Defined.

Lemma match_phy_device_range_witness :
  mxl371x_match_phy_device phydev0 = 0.
Proof.
  apply (match_phy_device_range phydev0).
  - vm_compute. split; [discriminate | reflexivity].
  - left. reflexivity.
Defined.

Lemma read_moca_status_ranges_witness :
  status_in_range
    (priv (fst (mxl371x_read_moca_status phydev0
                  (world0 (ScriptBus [] [0; 1; 0; 600]))))).
Proof.
  apply (read_moca_status_ranges phydev0).
  unfold status_in_range, MOCA_LINK_STATUS_MASK. cbn. lia.
Defined.

Lemma update_stats_ranges_witness :
  Forall (fun x => 0 <= x < 2 ^ 64)
    (mxl371x_get_phy_stats
       (fst (mxl371x_update_stats phydev0
               (world0 (ScriptBus [] [0; 7; 0; 0]))))).
Proof.
  apply (update_stats_ranges phydev0).
  unfold stats_in_range. cbn.
  repeat (constructor; [lia |]). constructor.
Defined.

Lemma fw_word_bytes_recoverable_witness :
  (fw_word [1; 2; 3; 4; 5; 6] (4 * Z.of_nat 1) / 2 ^ (8 * Z.of_nat 1)) mod 2 ^ 8
  = nth (4 * 1 + 1) [1; 2; 3; 4; 5; 6] 0.
Proof.
  apply (fw_word_bytes_recoverable [1; 2; 3; 4; 5; 6] 1 1);
    [vm_compute; reflexivity | cbn; lia | lia].
Defined.

Lemma config_init_success_witness :
  exists ret phydev' w',
    mxl371x_config_init (host_with [1; 2; 3; 4; 5] [0xaa; 0xbb; 0xcc]) phydev0
      (world0 (ScriptBus [] [])) = Some (ret, phydev', w') /\
    (ret = 0 \/ ret < 0).
Proof.
  destruct (config_init_success (host_with [1; 2; 3; 4; 5] [0xaa; 0xbb; 0xcc])
              phydev0 (world0 (ScriptBus [] []))
              ltac:(intros name; cbn; lia))
    as (ret & pd & w' & Heq & Hr & _).
  exists ret, pd, w'. split; [exact Heq | exact Hr].
Defined.

Lemma link_status_show_agrees_with_read_status_witness :
  exists phydev' w',
    mxl371x_read_status phydev_loaded (world0 (ScriptBus [] [0; 1]))
    = (0, phydev', w') /\
    (ls_link (lstate phydev') = 1 <->
     moca_link_status_show phydev' = sprintf_line "up").
Proof.
  pose (W := world0 (ScriptBus [] [0; 1])).
  destruct (@link_status_show_agrees_with_read_status script_bus scripted_bus
              scripted_phylib phydev_loaded W 0 (lstate phydev_loaded) (bus W)
              ltac:(reflexivity) ltac:(lia) ltac:(reflexivity))
    as (pd & w' & Heq & _ & Hup & _).
  exists pd, w'. split; [exact Heq | exact Hup].
Defined.
